(** * PythonContext: host-to-engine ingestion core of Tuplex

    A shallow embedding of [tuplex/python/src/PythonContext.cc]: the sample
    inferencer ([hasSuperOptionType], [isSubOptionType],
    [buildRowTypeFromSamples], [inferType], [inferColumnsFromDictObjects]),
    the fast encoders, the slow encoder and the orchestrator [parallelize],
    the file sources [csv] and [text], [updateOptionsWithDict] and
    [options], together with the properties of the ingestion specification
    that can be stated over them and further properties of the code.

    Conventions.
    - C++ [int]/[size_t]/[int64_t] values are integers of [Z]; where the code
      relies on a fixed width (descriptor words, stores to memory) the
      wrap-around is written out with [mod] and the bit operations of [Z].
    - [double] values are binary64 floats ([PrimFloat.float]).
    - A C++ exception is the outcome [Throw]; a failed [assert] is the
      outcome [AssertFail], unless the build defines [NDEBUG].
    - Code of the repository that lives outside this file (the type lattice
      of TypeSystem.h, the driver, the backend context, the Row class, the
      Python helper functions) is either a field of an interface class or a
      definition marked [Modelled from the spec]. *)

From Stdlib Require Import String Ascii.
From Stdlib Require Import ZArith List Bool Lia Permutation.
From Stdlib Require Import PrimFloat Uint63 SpecFloat FloatOps FloatAxioms.
From coqutil Require Import Byte Word.LittleEndianList.
Import ListNotations.
Local Open Scope Z_scope.

Set Implicit Arguments.
Set Warnings "-register-all".

(* ------------------------------------------------------------------------- *)
(** ** Outcomes of a C++ call *)

Inductive Outcome (A : Type) : Type :=
| Ret (a : A)
| Throw (what : string)
| AssertFail (what : string).

Arguments Ret {A} a.
Arguments Throw {A} what.
Arguments AssertFail {A} what.

Definition bind {A B : Type} (m : Outcome A) (k : A -> Outcome B) : Outcome B :=
  match m with
  | Ret a => k a
  | Throw w => Throw w
  | AssertFail w => AssertFail w
  end.

Notation "x <- m ;; k" := (bind m (fun x => k))
  (at level 61, m at next level, right associativity).

(* ------------------------------------------------------------------------- *)
(** ** The type lattice (python::Type) *)

(** Modelled from the spec: [python::Type] is declared in TypeSystem.h, which
    is not part of this file.  The variants are those of the data model:
    scalars, [Option(T)], [Tuple(T1,...,Tn)], [List(T)], [Dict(K,V)], the two
    special dictionaries and the empty list, and [UNKNOWN].  Types are
    hash-consed in the code, so [==] is structural equality. *)
Inductive pyType : Set :=
| UNKNOWN
| BOOLEAN
| I64
| F64
| STRING
| NULLVALUE
| PYOBJECT
| EMPTYDICT
| GENERICDICT
| EMPTYLIST
| TOption (elt : pyType)
| TTuple (params : list pyType)
| TList (elt : pyType)
| TDict (key val : pyType).

Fixpoint pyType_eq_dec (a b : pyType) {struct a} : {a = b} + {a <> b}.
Proof.
  decide equality.
  apply (list_eq_dec pyType_eq_dec).
Defined.

Definition type_eqb (a b : pyType) : bool :=
  if pyType_eq_dec a b then true else false.

Infix "==" := type_eqb (at level 70, no associativity).

Definition makeOptionType (t : pyType) : pyType := TOption t.
Definition makeTupleType (ts : list pyType) : pyType := TTuple ts.

Definition isOptionType (t : pyType) : bool :=
  match t with TOption _ => true | _ => false end.

Definition isTupleType (t : pyType) : bool :=
  match t with TTuple _ => true | _ => false end.

Definition isListType (t : pyType) : bool :=
  match t with TList _ | EMPTYLIST => true | _ => false end.

Definition isDictionaryType (t : pyType) : bool :=
  match t with TDict _ _ | EMPTYDICT | GENERICDICT => true | _ => false end.

(** [getReturnType] of an option is its element type. *)
Definition getReturnType (t : pyType) : pyType :=
  match t with TOption e => e | _ => UNKNOWN end.

Definition parameters (t : pyType) : list pyType :=
  match t with TTuple ps => ps | _ => [] end.

Definition keyType (t : pyType) : pyType :=
  match t with TDict k _ => k | _ => UNKNOWN end.

(* ------------------------------------------------------------------------- *)
(** ** Sub-option and super-option (lines 447-462 and 766-806) *)

(** [isSubOptionType t1 t2]: [t1] can be considered a subtype of [t2] in the
    context of option types. *)
Fixpoint isSubOptionType (t1 t2 : pyType) {struct t1} : bool :=
  if t1 == t2 then true
  else if isOptionType t2 && ((t1 == getReturnType t2) || (t1 == NULLVALUE)) then true
  else
    match t1, t2 with
    | TTuple ps1, TTuple ps2 =>
        if Nat.eqb (length ps1) (length ps2) then
          (fix fields (l1 l2 : list pyType) {struct l1} : bool :=
             match l1, l2 with
             | a :: l1', b :: l2' =>
                 if isSubOptionType a b then fields l1' l2' else false
             | _, _ => true
             end) ps1 ps2
        else false
    | _, _ => false
    end.

(** [hasSuperOptionType t1 t2]: [Some super] when the code returns [true] and
    stores [super]; [None] when it returns [false] (then the output parameter
    is left as it was). *)
Fixpoint hasSuperOptionType (t1 t2 : pyType) {struct t1} : option pyType :=
  if t1 == t2 then Some t1
  else if isOptionType t1 && ((getReturnType t1 == t2) || (NULLVALUE == t2)) then Some t1
  else if isOptionType t2 && ((getReturnType t2 == t1) || (NULLVALUE == t1)) then Some t2
  else if t1 == NULLVALUE then Some (makeOptionType t2)
  else if t2 == NULLVALUE then Some (makeOptionType t1)
  else
    match t1, t2 with
    | TTuple ps1, TTuple ps2 =>
        if Nat.eqb (length ps1) (length ps2) then
          option_map makeTupleType
            ((fix fields (l1 l2 : list pyType) {struct l1} : option (list pyType) :=
                match l1, l2 with
                | a :: l1', b :: l2' =>
                    match hasSuperOptionType a b with
                    | Some s =>
                        match fields l1' l2' with
                        | Some ss => Some (s :: ss)
                        | None => None
                        end
                    | None => None
                    end
                | _, _ => Some []
                end) ps1 ps2)
        else None
    | _, _ => None
    end.

(* ------------------------------------------------------------------------- *)
(** ** Doubles *)

(** [(double)z] for a C++ integer [z] of at most 64 bits, rounded to nearest
    as the hardware does.  [of_uint63] converts the magnitude; [-2^63] is the
    one magnitude that needs the extra doubling. *)
Definition int_to_double (z : Z) : float :=
  let mag (p : Z) : float :=
    if p <? 2 ^ 63 then PrimFloat.of_uint63 (Uint63.of_Z p)
    else (PrimFloat.of_uint63 (Uint63.of_Z (p / 2)) * 2)%float in
  if z <? 0 then PrimFloat.opp (mag (- z)) else mag z.

(* ------------------------------------------------------------------------- *)
(** ** The sample inferencer (lines 808-866) *)

(** The histogram [std::map<python::Type,int>] is the list of its entries in
    the iteration order of the map (the order of [python::Type::operator<],
    which is not in this file); keys are distinct. *)
Definition Histogram := list (pyType * Z).

Definition count (colTypes : Histogram) (t : pyType) : bool :=
  existsb (fun e => fst e == t) colTypes.

(** [std::map::at]: throws [std::out_of_range] on a missing key. *)
Fixpoint at_ (colTypes : Histogram) (t : pyType) : Outcome Z :=
  match colTypes with
  | [] => Throw "map::at"
  | (k, v) :: rest => if k == t then Ret v else at_ rest t
  end.

(** The order of the type lattice and the call to [std::sort] with the
    comparator [rhs.isSubclass(lhs)]: [isSubclass] is not in this file and
    [std::sort] leaves the order of equivalent elements open, so the sorted
    vector is a field of this interface; it is a rearrangement of its input. *)
Class TypeOrder := {
  (** [python::Type::operator<], the key order of [std::map]. *)
  type_ltb : pyType -> pyType -> bool;
  (** [std::sort(types.begin(), types.end(), by isSubclass)]. *)
  sort_by_subclass : list (pyType * Z) -> list (pyType * Z);
  sort_by_subclass_perm : forall l, Permutation (sort_by_subclass l) l
}.

Definition INT_MIN : Z := - 2 ^ 31.

Record Majority := {
  max_ : Z;
  majType_ : pyType;
  maxTuple_ : Z;
  majTupleType_ : pyType
}.

(** One iteration of the loop of lines 830-841. *)
Definition majority_step (st : Majority) (entry : pyType * Z) : Majority :=
  let type := fst entry in
  let frequency := snd entry in
  let st1 :=
    if frequency >? max_ st
    then {| max_ := frequency; majType_ := type;
            maxTuple_ := maxTuple_ st; majTupleType_ := majTupleType_ st |}
    else st in
  if isTupleType type && (frequency >? maxTuple_ st1)
  then {| max_ := max_ st1; majType_ := majType_ st1;
          maxTuple_ := frequency; majTupleType_ := type |}
  else st1.

Definition majority_init : Majority :=
  {| max_ := INT_MIN; majType_ := UNKNOWN;
     maxTuple_ := INT_MIN; majTupleType_ := UNKNOWN |}.

Definition majority_scan (types : list (pyType * Z)) : Majority :=
  fold_left majority_step types majority_init.

(** The loop of lines 847-852: [superTuple] is both the second argument and
    the output parameter of [hasSuperOptionType], so every histogram entry is
    compared with the super type accumulated so far. *)
Fixpoint super_scan (colTypes : Histogram) (superTuple : pyType) (num : Z)
  : pyType * Z :=
  match colTypes with
  | [] => (superTuple, num)
  | (t, c) :: rest =>
      match hasSuperOptionType t superTuple with
      | Some s => super_scan rest s (num + c)
      | None => super_scan rest superTuple num
      end
  end.

(** [x > 1 - threshold && x < threshold] on doubles. *)
Definition in_band (threshold x : float) : bool :=
  PrimFloat.ltb (1 - threshold)%float x && PrimFloat.ltb x threshold.

(** Lines 843-855: the majority type after the tuple stage. *)
Definition tuple_stage `{TypeOrder} (colTypes : Histogram) (numSamples : Z)
  (threshold : float) : Outcome pyType :=
  let st := majority_scan (sort_by_subclass colTypes) in
  if isTupleType (majTupleType_ st) then
    let '(superTuple, num) := super_scan colTypes (majTupleType_ st) 0 in
    cnt <- at_ colTypes (majTupleType_ st) ;;
    let fraction := (int_to_double (num - cnt) / int_to_double numSamples)%float in
    if (num >? max_ st) && in_band threshold fraction
    then Ret superTuple
    else Ret (majType_ st)
  else Ret (majType_ st).

(** Lines 857-863: option lifting of the majority type. *)
Definition option_stage (colTypes : Histogram) (numSamples : Z)
  (threshold : float) (majType : pyType) : Outcome pyType :=
  if negb (majType == UNKNOWN) && negb (majType == NULLVALUE)
     && count colTypes NULLVALUE then
    cnt <- at_ colTypes NULLVALUE ;;
    let noneFraction := (int_to_double cnt / int_to_double numSamples)%float in
    if in_band threshold noneFraction
    then Ret (makeOptionType majType)
    else Ret majType
  else Ret majType.

Definition buildRowTypeFromSamples `{TypeOrder} (colTypes : Histogram)
  (numSamples : Z) (threshold : float) : Outcome pyType :=
  majType <- tuple_stage colTypes numSamples threshold ;;
  option_stage colTypes numSamples threshold majType.

(* ------------------------------------------------------------------------- *)
(** ** A concrete type order, to run the inferencer *)

(** Modelled from the spec: "sort the keys so that structurally larger types
    precede smaller ones under subtype ordering"; the subtype relation of the
    data model stands in for [isSubclass], and the sort is an insertion sort
    that keeps earlier entries first on ties. *)
Definition precedes (lhs rhs : pyType * Z) : bool :=
  isSubOptionType (fst rhs) (fst lhs).

Fixpoint insert_by (x : pyType * Z) (l : list (pyType * Z)) : list (pyType * Z) :=
  match l with
  | [] => [x]
  | y :: l' => if precedes y x then y :: insert_by x l'
               else if precedes x y then x :: y :: l'
               else y :: insert_by x l'
  end.

Definition insertion_sort (l : list (pyType * Z)) : list (pyType * Z) :=
  fold_right insert_by [] l.

(** A total order on types for the keys of [std::map]: constructor rank, then
    the components. *)
Fixpoint type_code (t : pyType) : list Z :=
  match t with
  | UNKNOWN => [0] | BOOLEAN => [1] | I64 => [2] | F64 => [3] | STRING => [4]
  | NULLVALUE => [5] | PYOBJECT => [6] | EMPTYDICT => [7] | GENERICDICT => [8]
  | EMPTYLIST => [9]
  | TOption e => 10 :: type_code e
  | TTuple ps => 11 :: Z.of_nat (length ps) :: flat_map type_code ps
  | TList e => 12 :: type_code e
  | TDict k v => 13 :: type_code k ++ type_code v
  end.

Fixpoint lex_ltb (a b : list Z) : bool :=
  match a, b with
  | [], [] => false
  | [], _ :: _ => true
  | _ :: _, [] => false
  | x :: a', y :: b' => (x <? y) || ((x =? y) && lex_ltb a' b')
  end.

Definition code_ltb (a b : pyType) : bool := lex_ltb (type_code a) (type_code b).

(** The order of the examples sorts by insertion; the sorted histogram is a
    permutation of the input. *)
#[export] Instance demo_order : TypeOrder.
Proof.
  refine {| type_ltb := code_ltb; sort_by_subclass := insertion_sort;
            sort_by_subclass_perm := _ |}.
  assert (Hins : forall x l, Permutation (insert_by x l) (x :: l)).
  { intros x l. induction l as [|y l IH]; simpl.
    - apply Permutation_refl.
    - destruct (precedes y x).
      + eapply perm_trans; [apply perm_skip, IH | apply perm_swap].
      + destruct (precedes x y).
        * apply Permutation_refl.
        * eapply perm_trans; [apply perm_skip, IH | apply perm_swap]. }
  intros l. induction l as [|x l IH]; simpl.
  - constructor.
  - eapply perm_trans; [apply Hins | apply perm_skip, IH].
Defined.

(** The double nearest to 0.9. *)
Definition theta09 : float := 0x1.ccccccccccccdp-1%float.

(* ------------------------------------------------------------------------- *)
(** ** Python objects and the state of the host runtime *)

(** A Python [str] is the list of its code points (Unicode scalar values). *)
Definition pystr := list Z.

(** The objects the ingestion core distinguishes.  [Py_Long] is an exact
    [int] (a [bool] is not one for [PyLong_CheckExact]); [Py_Other] stands
    for an object of any other class. *)
Inductive PyObject : Type :=
| Py_None
| Py_Bool (b : bool)
| Py_Long (z : Z)
| Py_Float (d : float)
| Py_Unicode (s : pystr)
| Py_Tuple (items : list PyObject)
| Py_List (items : list PyObject)
| Py_Dict (entries : list (PyObject * PyObject))
| Py_Other (id : Z).

Definition Py_True : PyObject := Py_Bool true.
Definition Py_False : PyObject := Py_Bool false.

Definition PyBool_Check (o : PyObject) : bool :=
  match o with Py_Bool _ => true | _ => false end.
Definition PyLong_CheckExact (o : PyObject) : bool :=
  match o with Py_Long _ => true | _ => false end.
Definition PyFloat_CheckExact (o : PyObject) : bool :=
  match o with Py_Float _ => true | _ => false end.
Definition PyUnicode_Check (o : PyObject) : bool :=
  match o with Py_Unicode _ => true | _ => false end.
Definition PyTuple_Check (o : PyObject) : bool :=
  match o with Py_Tuple _ => true | _ => false end.
Definition PyDict_Check (o : PyObject) : bool :=
  match o with Py_Dict _ => true | _ => false end.
Definition is_Py_True (o : PyObject) : bool :=
  match o with Py_Bool true => true | _ => false end.
Definition is_Py_False (o : PyObject) : bool :=
  match o with Py_Bool false => true | _ => false end.

Definition PyTuple_Size (o : PyObject) : Z :=
  match o with Py_Tuple items => Z.of_nat (length items) | _ => -1 end.
Definition PyDict_Size (o : PyObject) : Z :=
  match o with Py_Dict entries => Z.of_nat (length entries) | _ => -1 end.
Definition PyFloat_AS_DOUBLE (o : PyObject) : float :=
  match o with Py_Float d => d | _ => 0%float end.

(** UTF-8 of one code point and of a string. *)
Definition utf8_of_code_point (c : Z) : list byte :=
  if c <? 0x80 then [byte.of_Z c]
  else if c <? 0x800 then
    [byte.of_Z (Z.lor 0xC0 (Z.shiftr c 6));
     byte.of_Z (Z.lor 0x80 (Z.land c 0x3F))]
  else if c <? 0x10000 then
    [byte.of_Z (Z.lor 0xE0 (Z.shiftr c 12));
     byte.of_Z (Z.lor 0x80 (Z.land (Z.shiftr c 6) 0x3F));
     byte.of_Z (Z.lor 0x80 (Z.land c 0x3F))]
  else
    [byte.of_Z (Z.lor 0xF0 (Z.shiftr c 18));
     byte.of_Z (Z.lor 0x80 (Z.land (Z.shiftr c 12) 0x3F));
     byte.of_Z (Z.lor 0x80 (Z.land (Z.shiftr c 6) 0x3F));
     byte.of_Z (Z.lor 0x80 (Z.land c 0x3F))].

Definition utf8_encode (s : pystr) : list byte := flat_map utf8_of_code_point s.

(** [PyUnicode_AsUTF8]: the NUL-terminated UTF-8 buffer of a [str].  For a
    [str] that holds a surrogate code point the C function returns NULL with
    an error set, and the encoders pass the pointer on unchecked; the bytes
    given here for such a string stand for nothing the program computes.
    Properties that say an encoder returns are stated for strings without
    surrogates. *)
Definition PyUnicode_AsUTF8 (o : PyObject) : list byte :=
  match o with
  | Py_Unicode s => utf8_encode s ++ [Byte.x00]
  | _ => [Byte.x00]
  end.

Definition is_nul (b : byte) : bool :=
  match b with Byte.x00 => true | _ => false end.

(** C [strlen]: the number of bytes before the first NUL. *)
Fixpoint strlen (buf : list byte) : Z :=
  match buf with
  | [] => 0
  | b :: rest => if is_nul b then 0 else 1 + strlen rest
  end.

(** References are counted per object; an object is named by the place the
    code reached it through. *)
Inductive ObjRef : Type :=
| ListItem (i : Z)
| DictValue (i : Z) (column : pystr)
| NoneObject.

Inductive RefEvent : Type :=
| INCREF (o : ObjRef)
| DECREF (o : ObjRef).

(** The mutable state the encoders share: the member
    [_badParallelizeObjects] of the context, the error indicator of the
    Python runtime ([PyErr_Occurred]/[PyErr_Clear]), the log of reference
    count changes and the interrupt flag of the signal bridge. *)
Record Host := {
  badParallelizeObjects : list (Z * PyObject);
  err_indicator : bool;
  ref_log : list RefEvent;
  interrupt_flag : bool
}.

Definition emplace_back_bad (i : Z) (obj : PyObject) (h : Host) : Host :=
  {| badParallelizeObjects := badParallelizeObjects h ++ [(i, obj)];
     err_indicator := err_indicator h;
     ref_log := ref_log h;
     interrupt_flag := interrupt_flag h |}.

Definition clear_bad (h : Host) : Host :=
  {| badParallelizeObjects := [];
     err_indicator := err_indicator h;
     ref_log := ref_log h;
     interrupt_flag := interrupt_flag h |}.

Definition set_err (e : bool) (h : Host) : Host :=
  {| badParallelizeObjects := badParallelizeObjects h;
     err_indicator := e;
     ref_log := ref_log h;
     interrupt_flag := interrupt_flag h |}.

Definition log_ref (e : RefEvent) (h : Host) : Host :=
  {| badParallelizeObjects := badParallelizeObjects h;
     err_indicator := err_indicator h;
     ref_log := ref_log h ++ [e];
     interrupt_flag := interrupt_flag h |}.

Definition PyErr_Occurred (h : Host) : bool := err_indicator h.
Definition PyErr_Clear (h : Host) : Host := set_err false h.
Definition Py_XINCREF (o : ObjRef) (h : Host) : Host := log_ref (INCREF o) h.
Definition Py_XDECREF (o : ObjRef) (h : Host) : Host := log_ref (DECREF o) h.

Definition fits_int64 (z : Z) : bool := (- 2 ^ 63 <=? z) && (z <? 2 ^ 63).

(** [PyLong_AsLongLong] of the C API: the value of an [int] that fits in 64
    bits; otherwise [-1] with the error indicator set (OverflowError). *)
Definition PyLong_AsLongLong (o : PyObject) (h : Host) : Z * Host :=
  match o with
  | Py_Long z => if fits_int64 z then (z, h) else (-1, set_err true h)
  | _ => (-1, set_err true h)
  end.

(** What the build and the headers fix: whether [assert] is compiled out, and
    the constant [PythonContext::allocMinSize]. *)
Class Build := {
  NDEBUG : bool;
  allocMinSize : Z
}.

Definition assert_ `{Build} {A : Type} (cond : bool) (what : string)
  (k : Outcome A) : Outcome A :=
  if NDEBUG then k else if cond then k else AssertFail what.

(** What the host runtime and the Python helpers of the repository decide
    outside this file. *)
Class PythonHelpers := {
  (** [python::mapPythonClassToTuplexType]. *)
  mapPythonClassToTuplexType : PyObject -> pyType;
  (** [sampleSize(L)], at most the length of the list. *)
  sampleSize : list PyObject -> Z;
  sampleSize_range : forall L, 0 <= sampleSize L <= Z.of_nat (length L);
  (** What the macro [PyUnicode_GET_SIZE] reads from an object that is not a
      [str]. *)
  unicode_size_of_other : PyObject -> Z;
  (** [Row::serializeToMemory]: the bytes of a row; [serializedLength] is
      their number. *)
  serialize_row : PyObject -> pyType -> list byte
}.

Definition PyUnicode_GET_SIZE `{PythonHelpers} (o : PyObject) : Z :=
  match o with
  | Py_Unicode s => Z.of_nat (length s)
  | _ => unicode_size_of_other o
  end.

(* ------------------------------------------------------------------------- *)
(** ** Partitions and the driver *)

Definition Memory := Z -> byte.

(** A partition: [numRows] is the header word [*rawPtr], [payload] the bytes
    after it, addressed from [0] (the address [rawPtr + 1]). *)
Record Partition := {
  capacity : Z;
  partition_schema : pyType;
  numRows : Z;
  payload : Memory;
  write_locked : bool
}.

(** [Executor::allocWritablePartition(minSize, schema, -1)] of the driver:
    the capacity it grants is at least [minSize]; the bytes of a fresh
    partition are whatever the driver hands out. *)
Class Driver := {
  alloc_capacity : Z -> Z;
  alloc_capacity_ge : forall minSize, minSize <= alloc_capacity minSize;
  alloc_bytes : Memory
}.

(** [memcpy(dst, src, n)] and the store of a 64-bit word, little endian. *)
Definition memcpy (m : Memory) (dst : Z) (src : list byte) (n : Z) : Memory :=
  fun a =>
    if (dst <=? a) && (a <? dst + n)
    then nth (Z.to_nat (a - dst)) src Byte.x00
    else m a.

Definition store64 (m : Memory) (addr : Z) (v : Z) : Memory :=
  memcpy m addr (le_split 8 v) 8.

Fixpoint load_bytes (m : Memory) (addr : Z) (n : nat) : list byte :=
  match n with
  | O => []
  | S n' => m addr :: load_bytes m (addr + 1) n'
  end.

(** The unsigned value of the 64-bit word at [addr]. *)
Definition load64 (m : Memory) (addr : Z) : Z := le_combine (load_bytes m addr 8).

(** The bit pattern of a double, from its sign, exponent and mantissa.  A
    [float] has one NaN, so the sign and the payload of a NaN, which the
    program stores as they are, are not represented: the pattern given for
    NaN is the quiet NaN of the platform, and properties about the words
    stored for floats are stated for floats that are not NaN. *)
Definition double_bits (d : float) : Z :=
  match FloatOps.Prim2SF d with
  | SpecFloat.S754_zero s => if s then 2 ^ 63 else 0
  | SpecFloat.S754_infinity s => (if s then 2 ^ 63 else 0) + 0x7FF0000000000000
  | SpecFloat.S754_nan => 0x7FF8000000000000
  | SpecFloat.S754_finite s m e =>
      (if s then 2 ^ 63 else 0) +
      (if Z.pos m <? 2 ^ 52 then Z.pos m
       else (e + 1075) * 2 ^ 52 + (Z.pos m - 2 ^ 52))
  end.

(** The local variables every encoder keeps while it writes. *)
Record Writer := {
  partitions : list Partition;
  partition : Partition;
  ptr : Z;
  numBytesSerialized : Z
}.

(** [allocWritablePartition] followed by [lockWriteRaw] and [*rawPtr = 0]. *)
Definition allocWritablePartition `{Driver} (minSize : Z) (schema : pyType) : Partition :=
  {| capacity := alloc_capacity minSize;
     partition_schema := schema;
     numRows := 0;
     payload := alloc_bytes;
     write_locked := true |}.

Definition unlockWrite (p : Partition) : Partition :=
  {| capacity := capacity p; partition_schema := partition_schema p;
     numRows := numRows p; payload := payload p; write_locked := false |}.

Definition open_writer `{Driver} (minSize : Z) (schema : pyType) : Writer :=
  {| partitions := [];
     partition := allocWritablePartition minSize schema;
     ptr := 0;
     numBytesSerialized := 0 |}.

(** The block "unlockWrite; push_back; alloc; lockWriteRaw; *rawPtr = 0;
    ptr = rawPtr + 1; numBytesSerialized = 0". *)
Definition next_partition `{Driver} (minSize : Z) (schema : pyType) (w : Writer) : Writer :=
  {| partitions := partitions w ++ [unlockWrite (partition w)];
     partition := allocWritablePartition minSize schema;
     ptr := 0;
     numBytesSerialized := 0 |}.

(** The closing "unlockWrite; push_back". *)
Definition close_writer (w : Writer) : list Partition :=
  partitions w ++ [unlockWrite (partition w)].

Definition with_payload (p : Partition) (m : Memory) : Partition :=
  {| capacity := capacity p; partition_schema := partition_schema p;
     numRows := numRows p; payload := m; write_locked := write_locked p |}.

(** [*rawPtr = *rawPtr + 1] on the header word (an [int64_t]; the loop
    counters are 32 bits wide, so it does not overflow). *)
Definition inc_numRows (p : Partition) : Partition :=
  {| capacity := capacity p; partition_schema := partition_schema p;
     numRows := numRows p + 1; payload := payload p;
     write_locked := write_locked p |}.

(** The datasets the backend context hands back, named by the call that
    makes them: [_context->fromPartitions], [_context->parallelize] on rows
    and [_context->makeError].  What the backend does inside the first two,
    which may itself end in an error dataset, is outside this file. *)
Inductive DataSet : Type :=
| fromPartitions (schema : pyType) (parts : list Partition) (columns : list pystr)
| parallelizeRows (rows : list (PyObject * pyType)) (columns : list pystr)
| makeError (msg : string).

(** The datasets made by [makeError]. *)
Definition isError (ds : DataSet) : bool :=
  match ds with makeError _ => true | _ => false end.

(* ------------------------------------------------------------------------- *)
(** ** The fast encoders (lines 31-445) *)

(** [for (unsigned i = 0; i < numElements; ++i) { obj = PyList_GET_ITEM(listObj, i); ... }]:
    the body sees the index and the element; lists are shorter than [2^32]
    elements, the range of the counter. *)
Fixpoint for_each {S : Type} (body : Z -> PyObject -> S -> Outcome S)
  (items : list PyObject) (i : Z) (s : S) : Outcome S :=
  match items with
  | [] => Ret s
  | obj :: rest => s' <- body i obj s ;; for_each body rest (i + 1) s'
  end.

Section Encoders.
Context `{Build} `{Driver} `{PythonHelpers}.

(** "check capacity and realloc if necessary get a new partition". *)
Definition ensure_capacity (requiredBytes newMinSize : Z) (schema : pyType)
  (w : Writer) : Writer :=
  if capacity (partition w) <? numBytesSerialized w + requiredBytes
  then next_partition newMinSize schema w
  else w.

(** [*ptr = val; ptr++; *rawPtr = *rawPtr + 1; numBytesSerialized += 8]. *)
Definition commit_slot (bits : Z) (w : Writer) : Writer :=
  {| partitions := partitions w;
     partition :=
       inc_numRows
         (with_payload (partition w)
            (store64 (payload (partition w)) (ptr w) bits));
     ptr := ptr w + 8;
     numBytesSerialized := numBytesSerialized w + 8 |}.

(** *** fastF64Parallelize (lines 31-102) *)

Definition F64_schema : pyType := makeTupleType [F64].

Definition fastF64_body (upcast : bool) (i : Z) (obj : PyObject)
  (st : Writer * Host) : Outcome (Writer * Host) :=
  let '(w0, h) := st in
  let w := ensure_capacity 8 (Z.max 8 allocMinSize) F64_schema w0 in
  if PyFloat_CheckExact obj then
    Ret (commit_slot (double_bits (PyFloat_AS_DOUBLE obj)) w, h)
  else if upcast && (is_Py_True obj || is_Py_False obj || PyLong_CheckExact obj) then
    if is_Py_True obj || is_Py_False obj then
      Ret (commit_slot (double_bits (if is_Py_True obj then 1 else 0)%float) w, h)
    else
      let '(v, h1) := PyLong_AsLongLong obj h in
      let val := int_to_double v in
      if PyErr_Occurred h1 then
        Ret (w, emplace_back_bad i obj (PyErr_Clear h1))
      else Ret (commit_slot (double_bits val) w, h1)
  else Ret (w, emplace_back_bad i obj h).

Definition fastF64Parallelize (listObj : list PyObject) (columns : list pystr)
  (upcast : bool) (h : Host) : Outcome (DataSet * Host) :=
  assert_ (Z.of_nat (length columns) <=? 1) "columns.size() <= 1" (
  let numElements := Z.of_nat (length listObj) in
  if numElements =? 0 then Ret (fromPartitions F64_schema [] columns, h)
  else
    st <- for_each (fastF64_body upcast) listObj 0
            (open_writer allocMinSize F64_schema, h) ;;
    Ret (fromPartitions F64_schema (close_writer (fst st)) columns, snd st)).

(** *** fastI64Parallelize (lines 104-168) *)

Definition I64_schema : pyType := makeTupleType [I64].

Definition fastI64_body (upcast : bool) (i : Z) (obj : PyObject)
  (st : Writer * Host) : Outcome (Writer * Host) :=
  let '(w0, h) := st in
  let w := ensure_capacity 8 (Z.max 8 allocMinSize) I64_schema w0 in
  if PyLong_CheckExact obj then
    let '(val, h1) := PyLong_AsLongLong obj h in
    if PyErr_Occurred h1 then
      Ret (w, emplace_back_bad i obj (PyErr_Clear h1))
    else Ret (commit_slot val w, h1)
  else if upcast && (is_Py_True obj || is_Py_False obj) then
    Ret (commit_slot (if is_Py_True obj then 1 else 0) w, h)
  else Ret (w, emplace_back_bad i obj h).

Definition fastI64Parallelize (listObj : list PyObject) (columns : list pystr)
  (upcast : bool) (h : Host) : Outcome (DataSet * Host) :=
  let numElements := Z.of_nat (length listObj) in
  if numElements =? 0 then Ret (fromPartitions I64_schema [] columns, h)
  else
    st <- for_each (fastI64_body upcast) listObj 0
            (open_writer (Z.max 8 allocMinSize) I64_schema, h) ;;
    Ret (fromPartitions I64_schema (close_writer (fst st)) columns, snd st).

(** *** fastBoolParallelize (lines 320-371) *)

Definition BOOLEAN_schema : pyType := makeTupleType [BOOLEAN].

Definition fastBool_body (i : Z) (obj : PyObject)
  (st : Writer * Host) : Outcome (Writer * Host) :=
  let '(w0, h) := st in
  let w := ensure_capacity 8 (Z.max 8 allocMinSize) BOOLEAN_schema w0 in
  if PyBool_Check obj then
    Ret (commit_slot (if is_Py_True obj then 1 else 0) w, h)
  else Ret (w, emplace_back_bad i obj h).

Definition fastBoolParallelize (listObj : list PyObject) (columns : list pystr)
  (h : Host) : Outcome (DataSet * Host) :=
  let numElements := Z.of_nat (length listObj) in
  if numElements =? 0 then Ret (fromPartitions BOOLEAN_schema [] columns, h)
  else
    st <- for_each fastBool_body listObj 0
            (open_writer (Z.max 8 allocMinSize) BOOLEAN_schema, h) ;;
    Ret (fromPartitions BOOLEAN_schema (close_writer (fst st)) columns, snd st).

(** *** fastStrParallelize (lines 373-445) *)

Definition STRING_schema : pyType := makeTupleType [STRING].

(** [varLenOffset | (varFieldSize << 32)], computed in [size_t]. *)
Definition info_field (varLenOffset varFieldSize : Z) : Z :=
  Z.lor varLenOffset (Z.shiftl varFieldSize 32 mod 2 ^ 64) mod 2 ^ 64.

Definition fastStr_body (i : Z) (obj : PyObject)
  (st : Writer * Host) : Outcome (Writer * Host) :=
  let '(w0, h) := st in
  if PyUnicode_Check obj then
    let len := PyUnicode_GET_SIZE obj in
    let utf8ptr := PyUnicode_AsUTF8 obj in
    let requiredBytes := 8 * 2 + len + 1 in
    let w := ensure_capacity requiredBytes (Z.max allocMinSize requiredBytes)
               STRING_schema w0 in
    assert_ (len =? strlen utf8ptr) "len == strlen(utf8ptr)" (
    let varFieldSize := len + 1 in
    let varLenOffset := 2 * 8 in
    let m1 := store64 (payload (partition w)) (ptr w)
                (info_field varLenOffset varFieldSize) in
    let m2 := store64 m1 (ptr w + 8) varFieldSize in
    let m3 := memcpy m2 (ptr w + 8 * 2) utf8ptr (len + 1) in
    Ret ({| partitions := partitions w;
            partition := inc_numRows (with_payload (partition w) m3);
            ptr := ptr w + requiredBytes;
            numBytesSerialized := numBytesSerialized w + requiredBytes |}, h))
  else Ret (w0, emplace_back_bad i obj h).

Definition fastStrParallelize (listObj : list PyObject) (columns : list pystr)
  (h : Host) : Outcome (DataSet * Host) :=
  let numElements := Z.of_nat (length listObj) in
  if numElements =? 0 then Ret (fromPartitions STRING_schema [] columns, h)
  else
    st <- for_each fastStr_body listObj 0
            (open_writer allocMinSize STRING_schema, h) ;;
    Ret (fromPartitions STRING_schema (close_writer (fst st)) columns, snd st).

(** *** fastMixedSimpleTypeTupleTransfer (lines 170-318) *)

(** Modelled from the spec: [makeTypeStr] is defined outside this file.  It
    encodes the tuple type "quickly into string", one character per field:
    ['b'], ['i'], ['f'], ['s'] for BOOL, I64, F64 and STR, the four cases
    of the switch below; the result tells whether a field has variable
    length. *)
Definition type_char (t : pyType) : ascii :=
  match t with
  | BOOLEAN => "b"
  | I64 => "i"
  | F64 => "f"
  | STRING => "s"
  | _ => "?"
  end%char.

Definition is_char (c d : ascii) : bool := Ascii.eqb c d.

Definition makeTypeStr (majType : pyType) : list ascii * bool :=
  let typeStr := map type_char (parameters majType) in
  (typeStr, existsb (is_char "s") typeStr).

(** What the loop over the fields of one row changes. *)
Record RowCursor := {
  row_mem : Memory;
  row_ptr : Z;
  rowVarFieldSizes : Z;
  row_host : Host
}.

Definition advance (m : Memory) (c : RowCursor) : RowCursor :=
  {| row_mem := m; row_ptr := row_ptr c + 8;
     rowVarFieldSizes := rowVarFieldSizes c; row_host := row_host c |}.

(** One case of the switch of lines 235-281; [false] is the jump to
    [bad_element]. *)
Definition serialize_field (numTupleElements : Z) (tc : ascii) (j : Z)
  (el : PyObject) (c : RowCursor) : Outcome (bool * RowCursor) :=
  if is_char tc "b" then
    if negb (PyBool_Check el) then Ret (false, c)
    else Ret (true, advance (store64 (row_mem c) (row_ptr c)
                               (if is_Py_True el then 1 else 0)) c)
  else if is_char tc "i" then
    if negb (PyLong_CheckExact el) then Ret (false, c)
    else
      let '(v, h1) := PyLong_AsLongLong el (row_host c) in
      Ret (true, {| row_mem := store64 (row_mem c) (row_ptr c) v;
                    row_ptr := row_ptr c + 8;
                    rowVarFieldSizes := rowVarFieldSizes c;
                    row_host := h1 |})
  else if is_char tc "f" then
    if negb (PyFloat_CheckExact el) then Ret (false, c)
    else Ret (true, advance (store64 (row_mem c) (row_ptr c)
                               (double_bits (PyFloat_AS_DOUBLE el))) c)
  else if is_char tc "s" then
    if negb (PyUnicode_Check el) then Ret (false, c)
    else
      let utf8ptr := PyUnicode_AsUTF8 el in
      let len := PyUnicode_GET_SIZE el in
      assert_ (len =? strlen utf8ptr) "len == strlen(utf8ptr)" (
      let varFieldSize := len + 1 in
      let varLenOffset := (numTupleElements + 1 - j) * 8 + rowVarFieldSizes c in
      let m1 := store64 (row_mem c) (row_ptr c)
                  (info_field varLenOffset varFieldSize) in
      let m2 := memcpy m1 (row_ptr c + varLenOffset) utf8ptr (len + 1) in
      Ret (true, {| row_mem := m2;
                    row_ptr := row_ptr c + 8;
                    rowVarFieldSizes := rowVarFieldSizes c + varFieldSize;
                    row_host := row_host c |}))
  else Ret (true, c).

(** The loop [for (int j = 0; j < numTupleElements; ++j)] of lines 233-282
    over the characters of [typeStr] and the items of the tuple. *)
Fixpoint serialize_fields (numTupleElements : Z) (typeStr : list ascii)
  (els : list PyObject) (j : Z) (c : RowCursor) : Outcome (bool * RowCursor) :=
  match typeStr, els with
  | tc :: typeStr', el :: els' =>
      r <- serialize_field numTupleElements tc j el c ;;
      if fst r
      then serialize_fields numTupleElements typeStr' els' (j + 1) (snd r)
      else Ret r
  | _, _ => Ret (true, c)
  end.

(** Lines 212-217: the bytes one row needs. *)
Fixpoint var_bytes (typeStr : list ascii) (els : list PyObject) : Z :=
  match typeStr, els with
  | tc :: typeStr', el :: els' =>
      (if is_char tc "s" then PyUnicode_GET_SIZE el + 1 else 0)
      + var_bytes typeStr' els'
  | _, _ => 0
  end.

Definition tuple_items (o : PyObject) : list PyObject :=
  match o with Py_Tuple items => items | _ => [] end.

Definition fastTuple_body (majType : pyType) (typeStr : list ascii)
  (varLenField : bool) (i : Z) (obj : PyObject)
  (st : Writer * Host) : Outcome (Writer * Host) :=
  let '(w0, h) := st in
  let numTupleElements := Z.of_nat (length (parameters majType)) in
  let baseRequiredBytes := (numTupleElements + (if varLenField then 1 else 0)) * 8 in
  let check := PyTuple_Check obj in
  let check := if check then PyTuple_Size obj =? numTupleElements else false in
  if check then
    let requiredBytes :=
      baseRequiredBytes
      + (if varLenField then var_bytes typeStr (tuple_items obj) else 0) in
    let w := ensure_capacity requiredBytes (Z.max allocMinSize requiredBytes)
               majType w0 in
    let rowStartPtr := ptr w in
    r <- serialize_fields numTupleElements typeStr (tuple_items obj) 0
           {| row_mem := payload (partition w); row_ptr := ptr w;
              rowVarFieldSizes := 0; row_host := h |} ;;
    let c := snd r in
    if fst r then
      let m := if varLenField
               then store64 (row_mem c) (row_ptr c) (rowVarFieldSizes c)
               else row_mem c in
      Ret ({| partitions := partitions w;
              partition := inc_numRows (with_payload (partition w) m);
              ptr := rowStartPtr + requiredBytes;
              numBytesSerialized := numBytesSerialized w + requiredBytes |},
           row_host c)
    else
      Ret ({| partitions := partitions w;
              partition := with_payload (partition w) (row_mem c);
              ptr := rowStartPtr;
              numBytesSerialized := numBytesSerialized w |},
           emplace_back_bad i obj (row_host c))
  else Ret (w0, emplace_back_bad i obj h).

Definition fastMixedSimpleTypeTupleTransfer (listObj : list PyObject)
  (majType : pyType) (columns : list pystr) (h : Host)
  : Outcome (DataSet * Host) :=
  assert_ (isTupleType majType) "majType.isTupleType()" (
  let numElements := Z.of_nat (length listObj) in
  let numTupleElements := length (parameters majType) in
  assert_ (Nat.eqb (length columns) 0 || Nat.eqb numTupleElements (length columns))
    "columns.empty() || numTupleElements == columns.size()" (
  if numElements =? 0 then Ret (fromPartitions majType [] columns, h)
  else
    let '(typeStr, varLenField) := makeTypeStr majType in
    st <- for_each (fastTuple_body majType typeStr varLenField) listObj 0
            (open_writer allocMinSize majType, h) ;;
    Ret (fromPartitions majType (close_writer (fst st)) columns, snd st))).

End Encoders.

(* ------------------------------------------------------------------------- *)
(** ** The slow encoder, the dict encoder, inference over lists, the orchestrator *)

(** Modelled from the spec: [check_interrupted] of Signals.h polls the
    interrupt flag of the signal bridge.  A signal may arrive while the
    encoder runs: [sigint_before_row i] tells whether one arrived before the
    poll of row [i].  The poll reads the flag and leaves it as it is. *)
Class Signals := {
  sigint_before_row : Z -> bool
}.

Definition deliver_signal `{Signals} (i : Z) (h : Host) : Host :=
  {| badParallelizeObjects := badParallelizeObjects h;
     err_indicator := err_indicator h;
     ref_log := ref_log h;
     interrupt_flag := interrupt_flag h || sigint_before_row i |}.

Definition check_interrupted (h : Host) : bool := interrupt_flag h.

(** The options the core reads from the context. *)
Class ContextOptions := {
  AUTO_UPCAST_NUMBERS : bool;
  NORMALCASE_THRESHOLD : float;
  OPTIONAL_THRESHOLD : float
}.

(** The other helpers of the repository the orchestrator calls. *)
Class TypeHelpers := {
  (** [python::Type::desc]. *)
  desc : pyType -> string;
  (** [python::pythonToRow(obj).getRowType()]. *)
  rowTypeOf : PyObject -> pyType
}.

(** Modelled from the spec: [python::tupleElementsHaveSimpleTypes] is defined
    outside this file; "Tuple with all-scalar fields -> fast tuple encoder",
    the scalars being those the fast tuple encoder has a case for. *)
Definition tupleElementsHaveSimpleTypes (t : pyType) : bool :=
  forallb (fun e => (e == BOOLEAN) || (e == I64) || (e == F64) || (e == STRING))
          (parameters t).

(** [ceil] on doubles. *)
Definition double_ceil (d : float) : float :=
  match Prim2SF d with
  | S754_finite s m e =>
      if 0 <=? e then d
      else
        let q := Z.pos m / 2 ^ (- e) in
        let r := Z.pos m mod 2 ^ (- e) in
        if s then PrimFloat.opp (int_to_double q)
        else int_to_double (if r =? 0 then q else q + 1)
  | _ => d
  end.

Section Orchestrator.
Context `{Build} `{Driver} `{PythonHelpers} `{TypeOrder} `{Signals}
        `{ContextOptions} `{TypeHelpers}.

(** *** parallelizeAnyType (lines 464-519) *)

(** "free items (decref)": [Py_XDECREF] on every quarantined object. *)
Definition decref_all (bad : list (Z * PyObject)) (h : Host) : Host :=
  fold_left (fun h t => Py_XDECREF (ListItem (fst t)) h) bad h.

(** The loop of lines 482-515; [inl ds] is the early [return]. *)
Fixpoint slow_loop (majType : pyType) (items : list PyObject) (i : Z)
  (v : list (PyObject * pyType)) (h : Host)
  : (DataSet + list (PyObject * pyType)) * Host :=
  match items with
  | [] => (inr v, h)
  | item :: rest =>
      let h := deliver_signal i h in
      if check_interrupted h then
        let h1 := decref_all (badParallelizeObjects h) h in
        let h2 := clear_bad h1 in
        (inl (makeError "interrupted transfer"), h2)
      else
        let h1 := Py_XINCREF (ListItem i) h in
        let t := mapPythonClassToTuplexType item in
        if isSubOptionType t majType
        then slow_loop majType rest (i + 1) (v ++ [(item, majType)]) h1
        else slow_loop majType rest (i + 1) v (emplace_back_bad i item h1)
  end.

Definition parallelizeAnyType (L : list PyObject) (majType : pyType)
  (columns : list pystr) (h : Host) : Outcome (DataSet * Host) :=
  match slow_loop majType L 0 [] h with
  | (inl ds, h') => Ret (ds, h')
  | (inr v, h') => Ret (parallelizeRows v columns, h')
  end.

(** *** strDictParallelize (lines 521-622) *)

Definition same_key (c : pystr) (k : PyObject) : bool :=
  match k with
  | Py_Unicode s => if list_eq_dec Z.eq_dec s c then true else false
  | _ => false
  end.

(** [PyDict_GetItemString]: the value stored under the key, or NULL. *)
Definition PyDict_GetItemString (obj : PyObject) (c : pystr) : option PyObject :=
  match obj with
  | Py_Dict entries =>
      option_map snd (find (fun kv => same_key c (fst kv)) entries)
  | _ => None
  end.

(** The loop over the columns of lines 563-579: the tuple built so far,
    the flag [good] and the host state. *)
Fixpoint extract_columns (i : Z) (obj : PyObject) (columns : list pystr)
  (tupleObj : list PyObject) (good : bool) (h : Host)
  : list PyObject * bool * Host :=
  match columns with
  | [] => (tupleObj, good, h)
  | c :: rest =>
      match PyDict_GetItemString obj c with
      | Some item =>
          let h1 := Py_XINCREF (DictValue i c) h in
          extract_columns i obj rest (tupleObj ++ [item]) good h1
      | None =>
          let h1 := emplace_back_bad i obj h in
          let h2 := Py_XINCREF NoneObject h1 in
          extract_columns i obj rest (tupleObj ++ [Py_None]) false h2
      end
  end.

Definition strDict_allocMinSize : Z := 100.

Definition strDict_body (rowType : pyType) (columns : list pystr) (i : Z)
  (obj : PyObject) (st : Writer * Host) : Outcome (Writer * Host) :=
  let '(w, h) := st in
  if PyDict_Check obj then
    let numDictElements := PyDict_Size obj in
    if negb (numDictElements =? Z.of_nat (length (parameters rowType))) then
      Ret (w, emplace_back_bad i obj h)
    else
      let '(tupleItems, good, h1) := extract_columns i obj columns [] true h in
      if negb good then Ret (w, h1)
      else
        let tupleObj := Py_Tuple tupleItems in
        if negb (rowTypeOf tupleObj == rowType) then
          Ret (w, emplace_back_bad i obj h1)
        else
          let bytes := serialize_row tupleObj rowType in
          let requiredBytes := Z.of_nat (length bytes) in
          let w1 := ensure_capacity strDict_allocMinSize strDict_allocMinSize
                      rowType w in
          let m := memcpy (payload (partition w1)) (ptr w1) bytes requiredBytes in
          Ret ({| partitions := partitions w1;
                  partition := inc_numRows (with_payload (partition w1) m);
                  ptr := ptr w1 + requiredBytes;
                  numBytesSerialized := numBytesSerialized w1 + requiredBytes |},
               h1)
  else Ret (w, h).

Definition strDictParallelize (listObj : list PyObject) (rowType : pyType)
  (columns : list pystr) (h : Host) : Outcome (DataSet * Host) :=
  assert_ (isTupleType rowType) "rowType.isTupleType()" (
  assert_ (Nat.eqb (length (parameters rowType)) (length columns))
    "rowType.parameters().size() == columns.size()" (
  let numElements := Z.of_nat (length listObj) in
  if numElements =? 0 then Ret (fromPartitions rowType [] columns, h)
  else
    st <- for_each (strDict_body rowType columns) listObj 0
            (open_writer strDict_allocMinSize rowType, h) ;;
    Ret (fromPartitions rowType (close_writer (fst st)) columns, snd st))).

(** *** inferType (lines 868-895) *)

(** [mTypes[t] = 1] or [mTypes[t] += 1] on a [std::map] kept in key order. *)
Fixpoint map_count (mTypes : Histogram) (t : pyType) : Histogram :=
  match mTypes with
  | [] => [(t, 1)]
  | (k, v) :: rest =>
      if k == t then (k, v + 1) :: rest
      else if type_ltb t k then (t, 1) :: (k, v) :: rest
      else (k, v) :: map_count rest t
  end.

Definition sample (L : list PyObject) : list PyObject :=
  firstn (Z.to_nat (sampleSize L)) L.

Definition inferType (L : list PyObject) : Outcome pyType :=
  let numSample := sampleSize L in
  let mTypes :=
    fold_left (fun m o => map_count m (mapPythonClassToTuplexType o))
              (sample L) [] in
  buildRowTypeFromSamples mTypes numSample OPTIONAL_THRESHOLD.

(** *** inferColumnsFromDictObjects (lines 897-1005) *)

Definition pystr_eqb (a b : pystr) : bool :=
  if list_eq_dec Z.eq_dec a b then true else false.

(** [counts[skey]++; cols[skey].push_back(val)]; the two
    [std::unordered_map]s are one association list in insertion order (the
    iteration order of [std::unordered_map] is not fixed by the language). *)
Fixpoint note_key (cols : list (pystr * list PyObject)) (skey : pystr)
  (val : PyObject) : list (pystr * list PyObject) :=
  match cols with
  | [] => [(skey, [val])]
  | (k, vs) :: rest =>
      if pystr_eqb k skey then (k, vs ++ [val]) :: rest
      else (k, vs) :: note_key rest skey val
  end.

Definition dict_entries (o : PyObject) : list (PyObject * PyObject) :=
  match o with Py_Dict entries => entries | _ => [] end.

(** The [while (PyDict_Next(...))] loop of lines 921-934. *)
Definition scan_dict (i : Z) (item : PyObject)
  (acc : list (pystr * list PyObject) * Host) : list (pystr * list PyObject) * Host :=
  fold_left
    (fun acc kv =>
       match fst kv with
       | Py_Unicode skey =>
           (note_key (fst acc) skey (snd kv),
            Py_XINCREF (DictValue i skey) (snd acc))
       | _ => acc
       end)
    (dict_entries item) acc.

(** The loop of lines 910-936 over the sample. *)
Fixpoint scan_sample (items : list PyObject) (i : Z) (num_dicts : Z)
  (cols : list (pystr * list PyObject)) (h : Host)
  : Z * list (pystr * list PyObject) * Host :=
  match items with
  | [] => (num_dicts, cols, h)
  | item :: rest =>
      let h1 := Py_XINCREF (ListItem i) h in
      if PyDict_Check item then
        let '(cols1, h2) := scan_dict i item (cols, h1) in
        scan_sample rest (i + 1) (num_dicts + 1) cols1 h2
      else scan_sample rest (i + 1) num_dicts cols h1
  end.

(** Lines 968-983: the first dictionary of the list whose keys are all
    strings. *)
Definition all_strs (item : PyObject) : bool :=
  forallb (fun kv => PyUnicode_Check (fst kv)) (dict_entries item).

Definition first_str_dict (listObj : list PyObject) : option PyObject :=
  find (fun item => PyDict_Check item && all_strs item) listObj.

Fixpoint infer_columns (cols : list (pystr * list PyObject))
  : Outcome (list (pystr * pyType)) :=
  match cols with
  | [] => Ret []
  | (c, vals) :: rest =>
      t <- inferType vals ;;
      m <- infer_columns rest ;;
      Ret ((c, t) :: m)
  end.

(** [m[key] = type] on the result map. *)
Fixpoint map_set (m : list (pystr * pyType)) (key : pystr) (t : pyType)
  : list (pystr * pyType) :=
  match m with
  | [] => [(key, t)]
  | (k, v) :: rest =>
      if pystr_eqb k key then (k, t) :: rest else (k, v) :: map_set rest key t
  end.

Definition inferColumnsFromDictObjects (L : list PyObject)
  (normalThreshold : float) (h : Host)
  : Outcome (list (pystr * pyType) * Host) :=
  let '(num_dicts, cols, h1) := scan_sample (sample L) 0 0 [] h in
  let columns :=
    filter (fun kv =>
              PrimFloat.leb
                (double_ceil (normalThreshold * int_to_double num_dicts)%float)
                (int_to_double (Z.of_nat (length (snd kv)))))
           cols in
  m <- infer_columns columns ;;
  match m with
  | [] =>
      match first_str_dict L with
      | None =>
          Throw "type inference from dictionary objects failed. Please provide manually a schema."
      | Some item =>
          Ret (fold_left
                 (fun m kv =>
                    match fst kv with
                    | Py_Unicode key =>
                        map_set m key (mapPythonClassToTuplexType (snd kv))
                    | _ => m
                    end)
                 (dict_entries item) [], h1)
      end
  | _ => Ret (m, h1)
  end.

(** *** parallelize (lines 624-764) *)

Definition find_type (dictTypes : list (pystr * pyType)) (c : pystr) : pyType :=
  match find (fun kv => pystr_eqb (fst kv) c) dictTypes with
  | Some kv => snd kv
  | None => PYOBJECT
  end.

Definition unsupported_msg (majType : pyType) : string :=
  ("unsupported type '" ++ desc majType
     ++ "' found, could not transfer data to backend")%string.

(** The dispatch of lines 659-722.  [columns] is the result of
    [extractFromListOfStrings]; [schema] is [Some t] when the caller gave a
    schema that [decodePythonSchema] decodes to [t]. *)
Definition dispatch (L : list PyObject) (columns : list pystr)
  (majType : pyType) (h : Host) : Outcome (pyType * DataSet * Host) :=
  let autoUpcast := AUTO_UPCAST_NUMBERS in
  if (isDictionaryType majType && negb (majType == EMPTYDICT)
      && negb (majType == GENERICDICT)) && (keyType majType == STRING) then
    r <- inferColumnsFromDictObjects L NORMALCASE_THRESHOLD h ;;
    let '(dictTypes, h1) := r in
    let columns :=
      match columns with
      | [] => map fst dictTypes
      | _ => columns
      end in
    let types := map (find_type dictTypes) columns in
    let majType := makeTupleType types in
    r <- strDictParallelize L majType columns h1 ;;
    Ret (majType, fst r, snd r)
  else
    r <-
      (if majType == BOOLEAN then fastBoolParallelize L columns h
       else if majType == I64 then fastI64Parallelize L columns autoUpcast h
       else if majType == F64 then fastF64Parallelize L columns autoUpcast h
       else if majType == STRING then fastStrParallelize L columns h
       else if isTupleType majType then
         if tupleElementsHaveSimpleTypes majType
         then fastMixedSimpleTypeTupleTransfer L majType columns h
         else parallelizeAnyType L majType columns h
       else if isDictionaryType majType || (majType == GENERICDICT) then
         parallelizeAnyType L majType columns h
       else if isOptionType majType then parallelizeAnyType L majType columns h
       else if majType == NULLVALUE then parallelizeAnyType L majType columns h
       else if isListType majType then parallelizeAnyType L majType columns h
       else if majType == PYOBJECT then parallelizeAnyType L majType columns h
       else Ret (makeError (unsupported_msg majType), h)) ;;
    Ret (majType, fst r, snd r).

(** [parallelize] from line 631 on, for column names that line 634 has
    extracted and a schema that line 655 has decoded ([None]: no schema was
    given); the two calls are part of [PythonContext_parallelize] below. *)
Definition parallelize (L : list PyObject) (columns : list pystr)
  (schema : option pyType) (h : Host) : Outcome (DataSet * Host) :=
  let h := clear_bad h in
  majType <- match schema with
             | Some t => Ret t
             | None => inferType L
             end ;;
  r <- dispatch L columns majType h ;;
  let '(_, ds, h1) := r in
  let h2 := if negb (Nat.eqb (length (badParallelizeObjects h1)) 0)
            then clear_bad h1 else h1 in
  Ret (ds, h2).

End Orchestrator.

(** *** parallelize as the host calls it (lines 624-657) *)

(** The helpers that read the arguments of a call from the host objects;
    they are defined outside this file and may raise. *)
Class ArgumentHelpers := {
  extractFromListOfStrings : PyObject -> string -> Outcome (list pystr);
  decodePythonSchema : PyObject -> Outcome pyType
}.

Definition is_Py_None (o : PyObject) : bool :=
  match o with Py_None => true | _ => false end.

Section EntryPoint.
Context `{Build} `{Driver} `{PythonHelpers} `{TypeOrder} `{Signals}
        `{ContextOptions} `{TypeHelpers} `{ArgumentHelpers}.

(** The whole of [PythonContext::parallelize]: the column names are
    extracted (line 634) and a schema other than [None] is decoded (line
    655) with no handler around either call.  A raised exception carries no
    host state here, so that the quarantine list is cleared (line 631)
    before the first of the two calls makes no difference. *)
Definition PythonContext_parallelize (L : list PyObject) (cols schema : PyObject)
  (h : Host) : Outcome (DataSet * Host) :=
  columns <- extractFromListOfStrings cols "columns " ;;
  let hasExplicitSchema := negb (is_Py_None schema) in
  explicit <- (if hasExplicitSchema
               then majType <- decodePythonSchema schema ;; Ret (Some majType)
               else Ret None) ;;
  parallelize L columns explicit h.

End EntryPoint.

(* ------------------------------------------------------------------------- *)
(** ** options (lines 1214-1340) *)

(** [PyDict_Contains] and [PyDict_SetItem] on the entries of a [dict] whose
    keys are strings: an entry under an equal key is replaced, a new key is
    appended. *)
Definition PyDict_Contains (d : list (PyObject * PyObject)) (key : pystr) : bool :=
  existsb (fun kv => same_key key (fst kv)) d.

Fixpoint PyDict_SetItem (d : list (PyObject * PyObject)) (key : pystr)
  (val : PyObject) : list (PyObject * PyObject) :=
  match d with
  | [] => [(Py_Unicode key, val)]
  | (k, v) :: rest =>
      if same_key key k then (k, val) :: rest
      else (k, v) :: PyDict_SetItem rest key val
  end.

(** The accessors of [ContextOptions] that [options()] calls besides those of
    the core, its key/value store in iteration order, and
    [python::PyString_FromString], which yields different strings for
    different C strings (the keys and values of the store are taken to hold
    no NUL, so that [c_str()] is the whole string).  [options()] is called on
    a context that has been constructed: [_context] is not null. *)
Class OptionValues := {
  USE_LLVM_OPTIMIZER : bool;
  UNDEFINED_BEHAVIOR_FOR_OPERATORS : bool;
  OPT_DETAILED_CODE_STATS : bool;
  OPT_GENERATE_PARSER : bool;
  OPT_NULLVALUE_OPTIMIZATION : bool;
  OPT_FILTER_PUSHDOWN : bool;
  OPT_SHARED_OBJECT_PROPAGATION : bool;
  INTERLEAVE_IO : bool;
  RESOLVE_WITH_INTERPRETER_ONLY : bool;
  CSV_PARSER_SELECTION_PUSHDOWN : bool;
  USE_WEBUI : bool;
  EXECUTOR_COUNT : Z;
  CSV_MAX_DETECTION_ROWS : Z;
  WEBUI_PORT : Z;
  WEBUI_DATABASE_PORT : Z;
  WEBUI_EXCEPTION_DISPLAY_LIMIT : Z;
  store : list (string * string);
  PyString_FromString : string -> pystr;
  PyString_FromString_inj :
    forall a b, PyString_FromString a = PyString_FromString b -> a = b
}.

Section OptionsDict.
Context `{ContextOptions} `{OptionValues}.

(** The calls of lines 1222-1287, in their order. *)
Definition typed_options : list (string * PyObject) :=
  [ ("tuplex.useLLVMOptimizer", Py_Bool USE_LLVM_OPTIMIZER);
    ("tuplex.autoUpcast", Py_Bool AUTO_UPCAST_NUMBERS);
    ("tuplex.allowUndefinedBehavior", Py_Bool UNDEFINED_BEHAVIOR_FOR_OPERATORS);
    ("tuplex.optimizer.codeStats", Py_Bool OPT_DETAILED_CODE_STATS);
    ("tuplex.optimizer.generateParser", Py_Bool OPT_GENERATE_PARSER);
    ("tuplex.optimizer.nullValueOptimization", Py_Bool OPT_NULLVALUE_OPTIMIZATION);
    ("tuplex.optimizer.filterPushdown", Py_Bool OPT_FILTER_PUSHDOWN);
    ("tuplex.optimizer.sharedObjectPropagation", Py_Bool OPT_SHARED_OBJECT_PROPAGATION);
    ("tuplex.interleaveIO", Py_Bool INTERLEAVE_IO);
    ("tuplex.resolveWithInterpreterOnly", Py_Bool RESOLVE_WITH_INTERPRETER_ONLY);
    ("tuplex.csv.selectionPushdown", Py_Bool CSV_PARSER_SELECTION_PUSHDOWN);
    ("tuplex.webui.enable", Py_Bool USE_WEBUI);
    ("tuplex.executorCount", Py_Long EXECUTOR_COUNT);
    ("tuplex.csv.maxDetectionRows", Py_Long CSV_MAX_DETECTION_ROWS);
    ("tuplex.webui.port", Py_Long WEBUI_PORT);
    ("tuplex.webui.mongodb.port", Py_Long WEBUI_DATABASE_PORT);
    ("tuplex.webui.exceptionDisplayLimit", Py_Long WEBUI_EXCEPTION_DISPLAY_LIMIT);
    ("tuplex.normalcaseThreshold", Py_Float NORMALCASE_THRESHOLD) ]%string.

Definition set_items (entries : list (string * PyObject))
  (d : list (PyObject * PyObject)) : list (PyObject * PyObject) :=
  fold_left (fun d kv => PyDict_SetItem d (PyString_FromString (fst kv)) (snd kv))
            entries d.

(** Each of the two loops over the store, lines 1313-1326 and 1329-1336: a
    key the dictionary does not contain yet is added with its value as a
    string. *)
Definition add_strings (d : list (PyObject * PyObject)) : list (PyObject * PyObject) :=
  fold_left
    (fun d kv =>
       let pykey := PyString_FromString (fst kv) in
       if negb (PyDict_Contains d pykey)
       then PyDict_SetItem d pykey (Py_Unicode (PyString_FromString (snd kv)))
       else d)
    store d.

Definition options : PyObject :=
  Py_Dict (add_strings (add_strings (set_items typed_options []))).

End OptionsDict.

(* ------------------------------------------------------------------------- *)
(** ** Updating the options from a JSON dictionary (lines 1108-1132)

    [ContextOptions] and [jsonToMap] belong to other files of the repository;
    the class below names the operations [updateOptionsWithDict] calls on
    them; [jsonToMap] gives the pairs in the iteration order of the map.  The
    warning written for an unknown key goes to the logger and leaves the
    options alone. *)
Class OptionStore := {
  Options : Type;
  defaults : Options;
  containsKey : Options -> string -> bool;
  set : Options -> string -> string -> Options;
  jsonToMap : string -> list (string * string)
}.

Section UpdateOptions.
Context `{OptionStore}.

Definition update_step (co : Options) (keyval : string * string) : Options :=
  let key := fst keyval in
  let val := snd keyval in
  if containsKey defaults key then set co key val
  else if containsKey defaults ("tuplex." ++ key)%string
       then set co ("tuplex." ++ key)%string val
       else co.

Definition updateOptionsWithDict (co : Options) (options : string) : Options :=
  fold_left update_step (jsonToMap options) co.

End UpdateOptions.

(* ------------------------------------------------------------------------- *)
(** ** csv and text (lines 1007-1106) *)

(** How a call into the backend context ends: it returns a dataset, throws a
    [std::exception] with its [what()], or throws something else. *)
Inductive BackendCall : Type :=
| Returns (ds : DataSet)
| ThrowsException (what : string)
| ThrowsOther.

(** What the two file sources call outside this file: the signal bridge
    ([check_and_forward_signals(true)] tells whether a signal was pending),
    the helpers that extract the type hints from the host objects, which
    may raise as [extractFromListOfStrings] may, and the readers of the
    backend context.  Both sources are called on a context that has been
    constructed: [_context] is not null. *)
Class FileSources := {
  IndexHints : Type;
  ColumnHints : Type;
  check_and_forward_signals : Host -> bool * Host;
  extractIndexBasedTypeHints : PyObject -> list pystr -> string -> Outcome IndexHints;
  extractColumnBasedTypeHints : PyObject -> list pystr -> string -> Outcome ColumnHints;
  context_csv : string -> list pystr -> option bool -> option ascii -> ascii ->
                list pystr -> IndexHints -> ColumnHints -> BackendCall;
  context_text : string -> list pystr -> BackendCall
}.

(** [s[0]] of a [std::string]: the NUL character when the string is empty. *)
Definition first_char (s : string) : ascii :=
  match s with
  | String c _ => c
  | EmptyString => Ascii.zero
  end.

(** The [try] block with its two handlers and the test
    [!ds || !err_message.empty()] that follows it. *)
Definition caught (r : BackendCall) : DataSet :=
  let '(ds, err_message) :=
    match r with
    | Returns ds => (Some ds, EmptyString)
    | ThrowsException what => (None, what)
    | ThrowsOther => (None, "unknown C++ exception occurred, please change type."%string)
    end in
  match ds with
  | Some d => if (String.length err_message =? 0)%nat then d else makeError err_message
  | None => makeError err_message
  end.

Section FileSourceOps.
Context `{Build} `{ArgumentHelpers} `{FileSources}.

Definition csv (pattern : string) (cols : PyObject) (autodetect_header : bool)
  (header : bool) (delimiter quotechar : string) (null_values : PyObject)
  (type_hints : PyObject) (h : Host) : Outcome (DataSet * Host) :=
  let '(pending, h1) := check_and_forward_signals h in
  if pending then Ret (makeError "job aborted via signal", h1)
  else
    assert_ (String.length quotechar =? 1)%nat "quotechar.size() == 1" (
    assert_ (String.length delimiter <=? 1)%nat "delimiter.size() <= 1" (
    columns <- extractFromListOfStrings cols "columns " ;;
    null_value_strs <- extractFromListOfStrings null_values "null_values " ;;
    type_idx_hints_c <- extractIndexBasedTypeHints type_hints columns "type_hints " ;;
    type_col_hints_c <- extractColumnBasedTypeHints type_hints columns "type_hints " ;;
    Ret (caught
           (context_csv pattern columns
              (if autodetect_header then None else Some header)
              (if (String.length delimiter =? 0)%nat then None
               else Some (first_char delimiter))
              (first_char quotechar) null_value_strs type_idx_hints_c
              type_col_hints_c),
         h1))).

Definition text (pattern : string) (null_values : PyObject) (h : Host)
  : Outcome (DataSet * Host) :=
  let '(pending, h1) := check_and_forward_signals h in
  if pending then Ret (makeError "job aborted via signal", h1)
  else
    null_value_strs <- extractFromListOfStrings null_values "null_values " ;;
    Ret (caught (context_text pattern null_value_strs), h1).

End FileSourceOps.

(* ------------------------------------------------------------------------- *)
(** ** Concrete collaborators, to run the model on examples *)

(** Modelled from the spec: [python::mapPythonClassToTuplexType] is defined
    outside this file.  "Classify each sampled value to a ground type:
    scalars direct; tuple element types recursed; mapping becomes Dict(K,V)";
    "empty containers yield the designated empty constants".  A list or a
    dictionary whose elements do not agree on one type is classified by its
    first element here. *)
Fixpoint classify (o : PyObject) : pyType :=
  match o with
  | Py_None => NULLVALUE
  | Py_Bool _ => BOOLEAN
  | Py_Long _ => I64
  | Py_Float _ => F64
  | Py_Unicode _ => STRING
  | Py_Tuple items => TTuple (map classify items)
  | Py_List items =>
      match items with
      | [] => EMPTYLIST
      | x :: _ => TList (classify x)
      end
  | Py_Dict entries =>
      match entries with
      | [] => EMPTYDICT
      | (k, v) :: _ => TDict (classify k) (classify v)
      end
  | Py_Other _ => PYOBJECT
  end.

Definition pystr_of_string (s : string) : pystr :=
  map (fun c => Z.of_N (N_of_ascii c)) (list_ascii_of_string s).

Definition str (s : string) : PyObject := Py_Unicode (pystr_of_string s).

(** A row as its fields' classification and a one-byte-per-field image: the
    layout of [Row::serializeToMemory] is not part of this file. *)
Definition demo_serialize_row (o : PyObject) (t : pyType) : list byte :=
  match o with
  | Py_Tuple items => repeat Byte.x01 (8 * length items)
  | _ => repeat Byte.x01 8
  end.

#[export] Instance demo_helpers : PythonHelpers := {|
  mapPythonClassToTuplexType := classify;
  sampleSize := fun L => Z.of_nat (length L);
  sampleSize_range := fun L => conj (Nat2Z.is_nonneg (length L)) (Z.le_refl _);
  unicode_size_of_other := fun _ => 0;
  serialize_row := demo_serialize_row
|}.

(** A debug build and a release build, both with 64 KiB partitions. *)
Definition debug_build : Build := {| NDEBUG := false; allocMinSize := 65536 |}.
Definition release_build : Build := {| NDEBUG := true; allocMinSize := 65536 |}.

#[export] Instance demo_driver : Driver := {|
  alloc_capacity := fun minSize => minSize;
  alloc_capacity_ge := Z.le_refl;
  alloc_bytes := fun _ => Byte.xff
|}.

Definition no_signal : Signals := {| sigint_before_row := fun _ => false |}.
Definition signal_before (k : Z) : Signals :=
  {| sigint_before_row := fun i => i =? k |}.

#[export] Instance demo_options : ContextOptions := {|
  AUTO_UPCAST_NUMBERS := false;
  NORMALCASE_THRESHOLD := theta09;
  OPTIONAL_THRESHOLD := theta09
|}.

#[export] Instance demo_type_helpers : TypeHelpers := {|
  desc := fun _ => "?"%string;
  rowTypeOf := classify
|}.

Definition fresh_host : Host :=
  {| badParallelizeObjects := []; err_indicator := false;
     ref_log := []; interrupt_flag := false |}.

(** What a test reads back from a dataset. *)
Definition partitions_of (ds : DataSet) : list Partition :=
  match ds with fromPartitions _ parts _ => parts | _ => [] end.

Definition total_rows (ds : DataSet) : Z :=
  match ds with
  | fromPartitions _ parts _ => fold_right (fun p n => numRows p + n) 0 parts
  | parallelizeRows rows _ => Z.of_nat (length rows)
  | makeError _ => 0
  end.

(* ========================================================================= *)
(** * Vocabulary of the properties *)

(* ------------------------------------------------------------------------- *)
(** ** The tuple stage as the specification words it *)

(** The tuple stage in the words of the specification, to compare with
    [tuple_stage]: [cov] sums the counts of the types whose super-option
    with the majority tuple type [mt] is defined, minus [count(mt)]; [s] is
    the join of those super-options; [m] becomes [s] when [cov > maxCount]
    and [cov / numSamples] is in the band. *)
Definition covered_by (mt : pyType) (e : pyType * Z) : bool :=
  match hasSuperOptionType (fst e) mt with Some _ => true | None => false end.

Definition cov_as_claimed (colTypes : Histogram) (mt : pyType) : Z :=
  fold_right Z.add 0 (map snd (filter (covered_by mt) colTypes))
  - match at_ colTypes mt with Ret c => c | _ => 0 end.

Definition join_as_claimed (colTypes : Histogram) (mt : pyType) : pyType :=
  fold_left
    (fun s e =>
       match hasSuperOptionType (fst e) mt with
       | Some u => match hasSuperOptionType s u with Some s' => s' | None => s end
       | None => s
       end)
    colTypes mt.

Definition tuple_stage_as_claimed `{TypeOrder} (colTypes : Histogram)
  (numSamples : Z) (threshold : float) : pyType :=
  let st := majority_scan (sort_by_subclass colTypes) in
  if isTupleType (majTupleType_ st) then
    let cov := cov_as_claimed colTypes (majTupleType_ st) in
    if (cov >? max_ st)
       && in_band threshold (int_to_double cov / int_to_double numSamples)%float
    then join_as_claimed colTypes (majTupleType_ st)
    else majType_ st
  else majType_ st.

(* ------------------------------------------------------------------------- *)
(** ** Quarantine and reference counts *)

(** Once an entry is quarantined and the error indicator is clear, both stay
    so for the rest of the loop. *)
Definition quarantined_and_clear (x : Z * PyObject) (st : Writer * Host) : Prop :=
  In x (badParallelizeObjects (snd st)) /\ err_indicator (snd st) = false.

(** Counting the reference changes of one list item in a log. *)
Definition is_incref_of (i : Z) (e : RefEvent) : bool :=
  match e with INCREF (ListItem k) => k =? i | _ => false end.

Definition is_decref_of (i : Z) (e : RefEvent) : bool :=
  match e with DECREF (ListItem k) => k =? i | _ => false end.

Definition acquired (log : list RefEvent) (i : Z) : nat :=
  length (filter (is_incref_of i) log).

Definition released (log : list RefEvent) (i : Z) : nat :=
  length (filter (is_decref_of i) log).

(** The events a call appended to the log it started with. *)
Definition events_since (h h' : Host) : list RefEvent :=
  skipn (length (ref_log h)) (ref_log h').

(** [Py_XINCREF] on the items [i], [i+1], ..., one per row. *)
Fixpoint increfs (i : Z) (n : nat) : list RefEvent :=
  match n with
  | O => []
  | S n' => INCREF (ListItem i) :: increfs (i + 1) n'
  end.

Definition decrefs (bad : list (Z * PyObject)) : list RefEvent :=
  map (fun t => DECREF (ListItem (fst t))) bad.

Section SlowEncoderRows.
Context `{PythonHelpers} `{Signals}.

(** The rows the slow encoder converts and the entries it quarantines. *)
Definition conforms (majType : pyType) (o : PyObject) : bool :=
  isSubOptionType (mapPythonClassToTuplexType o) majType.

Fixpoint rejected (majType : pyType) (items : list PyObject) (i : Z)
  : list (Z * PyObject) :=
  match items with
  | [] => []
  | o :: rest =>
      if conforms majType o then rejected majType rest (i + 1)
      else (i, o) :: rejected majType rest (i + 1)
  end.

Definition converted (majType : pyType) (items : list PyObject)
  : list (PyObject * pyType) :=
  map (fun o => (o, majType)) (filter (conforms majType) items).

(** No poll of the rows [i .. i+n-1] sees the flag set. *)
Definition quiet (h : Host) (i : Z) (n : nat) : Prop :=
  forall k, i <= k < i + Z.of_nat n ->
            interrupt_flag h || sigint_before_row k = false.

End SlowEncoderRows.

(** The fast encoders change no reference count. *)
Definition same_log (log : list RefEvent) (st : Writer * Host) : Prop :=
  ref_log (snd st) = log.

(** The claim of C2 for one state: every object on the quarantine list holds
    exactly one acquired reference. *)
Definition quarantine_owned (h : Host) : Prop :=
  forall i o, In (i, o) (badParallelizeObjects h) ->
              (acquired (ref_log h) i = released (ref_log h) i + 1)%nat.

(* ------------------------------------------------------------------------- *)
(** ** Exceptions *)

Definition no_throw {A : Type} (m : Outcome A) : Prop := forall what, m <> Throw what.

Definition projector_failure : string :=
  "type inference from dictionary objects failed. Please provide manually a schema.".

(** The test of line 660: a dictionary type with string keys. *)
Definition is_string_dict (t : pyType) : bool :=
  (isDictionaryType t && negb (t == EMPTYDICT) && negb (t == GENERICDICT))
  && (keyType t == STRING).

(* ------------------------------------------------------------------------- *)
(** ** The layout of a row of the fast tuple encoder *)

(** The layout of the data model, as a function of the tuple: [n] 8-byte
    slots, then the 8-byte total of the variable-length sizes when a field
    has variable length, then the variable-length tail.  The encoder is
    compared with it below. *)

(** The value [PyLong_AsLongLong] hands back. *)
Definition long_long_value (el : PyObject) : Z :=
  match el with
  | Py_Long z => if fits_int64 z then z else -1
  | _ => -1
  end.

Definition simple_char (tc : ascii) : bool :=
  is_char tc "b" || is_char tc "i" || is_char tc "f" || is_char tc "s".

(** The type check of one field. *)
Definition field_ok (tc : ascii) (el : PyObject) : bool :=
  if is_char tc "b" then PyBool_Check el
  else if is_char tc "i" then PyLong_CheckExact el
  else if is_char tc "f" then PyFloat_CheckExact el
  else if is_char tc "s" then PyUnicode_Check el
  else true.

Fixpoint fields_ok (typeStr : list ascii) (els : list PyObject) : bool :=
  match typeStr, els with
  | tc :: typeStr', el :: els' => field_ok tc el && fields_ok typeStr' els'
  | _, _ => true
  end.

(** A candidate row: a tuple of the arity of the row type; an accepted row:
    a candidate whose fields all pass their type check. *)
Definition row_candidate (n : nat) (obj : PyObject) : bool :=
  match obj with
  | Py_Tuple items => Nat.eqb (length items) n
  | _ => false
  end.

Definition row_accepted (n : nat) (typeStr : list ascii) (obj : PyObject) : bool :=
  row_candidate n obj && fields_ok typeStr (tuple_items obj).

Section RowLayout.
Context `{PythonHelpers}.

(** The bytes a string field contributes to the tail: as many bytes of the
    UTF-8 buffer as [PyUnicode_GET_SIZE] counts, and one more. *)
Definition field_tail (tc : ascii) (el : PyObject) : list byte :=
  if is_char tc "s"
  then firstn (Z.to_nat (PyUnicode_GET_SIZE el + 1)) (PyUnicode_AsUTF8 el)
  else [].

Definition tail_size (tc : ascii) (el : PyObject) : Z :=
  if is_char tc "s" then PyUnicode_GET_SIZE el + 1 else 0.

(** The word in the slot of field [j] of [n], with [T] bytes of tail before. *)
Definition slot_value (n : Z) (tc : ascii) (j : Z) (el : PyObject) (T : Z) : Z :=
  if is_char tc "b" then (if is_Py_True el then 1 else 0)
  else if is_char tc "i" then long_long_value el
  else if is_char tc "f" then double_bits (PyFloat_AS_DOUBLE el)
  else info_field ((n + 1 - j) * 8 + T) (PyUnicode_GET_SIZE el + 1).

Fixpoint row_slots (n : Z) (typeStr : list ascii) (els : list PyObject)
  (j T : Z) : list byte :=
  match typeStr, els with
  | tc :: typeStr', el :: els' =>
      le_split 8 (slot_value n tc j el T)
      ++ row_slots n typeStr' els' (j + 1) (T + tail_size tc el)
  | _, _ => []
  end.

Fixpoint row_tail (typeStr : list ascii) (els : list PyObject) : list byte :=
  match typeStr, els with
  | tc :: typeStr', el :: els' => field_tail tc el ++ row_tail typeStr' els'
  | _, _ => []
  end.

Fixpoint row_tail_size (typeStr : list ascii) (els : list PyObject) : Z :=
  match typeStr, els with
  | tc :: typeStr', el :: els' => tail_size tc el + row_tail_size typeStr' els'
  | _, _ => 0
  end.

Definition row_image (typeStr : list ascii) (varLenField : bool)
  (obj : PyObject) : list byte :=
  let els := tuple_items obj in
  row_slots (Z.of_nat (length typeStr)) typeStr els 0 0
  ++ (if varLenField then le_split 8 (row_tail_size typeStr els) else [])
  ++ row_tail typeStr els.

Definition rows_image (typeStr : list ascii) (varLenField : bool)
  (rows : list PyObject) : list byte :=
  flat_map (row_image typeStr varLenField) rows.

(** A partition holds the rows [rows]: its header word is their number and
    its payload starts with their images, one after the other. *)
Definition holds_rows (typeStr : list ascii) (varLenField : bool)
  (p : Partition) (rows : list PyObject) : Prop :=
  numRows p = Z.of_nat (length rows) /\
  load_bytes (payload p) 0 (length (rows_image typeStr varLenField rows))
  = rows_image typeStr varLenField rows.

(** The memory after the case of field [j]: the slot, then the tail bytes. *)
Definition write_field (m : Memory) (p n : Z) (tc : ascii) (j : Z)
  (el : PyObject) (T : Z) : Memory :=
  memcpy (store64 m p (slot_value n tc j el T))
         (p + ((n + 1 - j) * 8 + T)) (field_tail tc el) (tail_size tc el).

End RowLayout.

Section TupleEncoderRows.
Context `{Build} `{Driver} `{PythonHelpers}.

(** The bytes a row needs, as lines 212-217 compute them. *)
Definition required_bytes (majType : pyType) (typeStr : list ascii)
  (varLenField : bool) (obj : PyObject) : Z :=
  (Z.of_nat (length (parameters majType)) + (if varLenField then 1 else 0)) * 8
  + (if varLenField then var_bytes typeStr (tuple_items obj) else 0).

(** The writer after the capacity check of a candidate row. *)
Definition row_writer (majType : pyType) (typeStr : list ascii)
  (varLenField : bool) (obj : PyObject) (w : Writer) : Writer :=
  ensure_capacity (required_bytes majType typeStr varLenField obj)
    (Z.max allocMinSize (required_bytes majType typeStr varLenField obj))
    majType w.

Definition cursor_ok (w : Writer) : Prop :=
  numBytesSerialized w = ptr w /\ 0 <= ptr w.

(** The entries the tuple encoder puts on the quarantine list. *)
Fixpoint tuple_rejected (n : nat) (typeStr : list ascii) (items : list PyObject)
  (i : Z) : list (Z * PyObject) :=
  match items with
  | [] => []
  | o :: rest =>
      if row_accepted n typeStr o then tuple_rejected n typeStr rest (i + 1)
      else (i, o) :: tuple_rejected n typeStr rest (i + 1)
  end.

(** The finished partitions hold the row lists [done], the current partition
    holds [cur], and the cursor stands right behind the rows of [cur]. *)
Definition writer_holds (typeStr : list ascii) (varLenField : bool)
  (w : Writer) (done : list (list PyObject)) (cur : list PyObject) : Prop :=
  Forall2 (holds_rows typeStr varLenField) (partitions w) done /\
  holds_rows typeStr varLenField (partition w) cur /\
  ptr w = Z.of_nat (length (rows_image typeStr varLenField cur)) /\
  numBytesSerialized w = ptr w.

Definition arity (majType : pyType) : nat := length (parameters majType).
Definition typeStr_of (majType : pyType) : list ascii := fst (makeTypeStr majType).
Definition varLen_of (majType : pyType) : bool := snd (makeTypeStr majType).

End TupleEncoderRows.

(* ------------------------------------------------------------------------- *)
(** ** Rows and entries of the scalar encoders *)

(** The rows a writer has committed, over its finished partitions and the
    current one. *)
Definition rows_of (parts : list Partition) : Z :=
  fold_right (fun p n => numRows p + n) 0 parts.

Definition writer_rows (w : Writer) : Z :=
  rows_of (partitions w ++ [partition w]).

(** Rows written plus entries quarantined. *)
Definition accounted (st : Writer * Host) : Z :=
  writer_rows (fst st) + Z.of_nat (length (badParallelizeObjects (snd st))).

(* ------------------------------------------------------------------------- *)
(** ** The loops over the fields of two tuple types *)

(** The loops over the fields of two tuple types, lines 455-457 and 798-800. *)
Fixpoint sub_fields (l1 l2 : list pyType) : bool :=
  match l1, l2 with
  | a :: l1', b :: l2' => if isSubOptionType a b then sub_fields l1' l2' else false
  | _, _ => true
  end.

Fixpoint super_fields (l1 l2 : list pyType) : option (list pyType) :=
  match l1, l2 with
  | a :: l1', b :: l2' =>
      match hasSuperOptionType a b with
      | Some s =>
          match super_fields l1' l2' with
          | Some ss => Some (s :: ss)
          | None => None
          end
      | None => None
      end
  | _, _ => Some []
  end.

(* ------------------------------------------------------------------------- *)
(** ** What the scalar encoders store *)

(** The 64-bit words of the rows of a partition with one 8-byte slot per row,
    read back from its payload. *)
Definition slot_words (p : Partition) : list Z :=
  map (fun j => load64 (payload p) (8 * Z.of_nat j)) (seq 0 (Z.to_nat (numRows p))).

(** The value of a 64-bit word read as an [int64_t]. *)
Definition signed64 (w : Z) : Z := if w <? 2 ^ 63 then w else w - 2 ^ 64.

(** The word each scalar encoder stores for an element it accepts. *)
Definition bool_word (o : PyObject) : option Z :=
  match o with
  | Py_Bool b => Some (if b then 1 else 0)
  | _ => None
  end.

Definition i64_word (upcast : bool) (o : PyObject) : option Z :=
  match o with
  | Py_Long z => if fits_int64 z then Some z else None
  | Py_Bool b => if upcast then Some (if b then 1 else 0) else None
  | _ => None
  end.

Definition f64_word (upcast : bool) (o : PyObject) : option Z :=
  match o with
  | Py_Float d => Some (double_bits d)
  | Py_Bool b =>
      if upcast then Some (double_bits (if b then 1 else 0)%float) else None
  | Py_Long z =>
      if upcast && fits_int64 z then Some (double_bits (int_to_double z)) else None
  | _ => None
  end.

(** An element that is not a float holding a NaN. *)
Definition not_nan (o : PyObject) : Prop :=
  match o with
  | Py_Float d => PrimFloat.is_nan d = false
  | _ => True
  end.

(** The words of the accepted elements, in input order, and the entries of
    the rejected ones, with their indices. *)
Definition accepted_words (word : PyObject -> option Z) (L : list PyObject) : list Z :=
  flat_map (fun o => match word o with Some v => [v] | None => [] end) L.

Fixpoint rejected_by (word : PyObject -> option Z) (L : list PyObject) (i : Z)
  : list (Z * PyObject) :=
  match L with
  | [] => []
  | o :: rest =>
      match word o with
      | Some _ => rejected_by word rest (i + 1)
      | None => (i, o) :: rejected_by word rest (i + 1)
      end
  end.

(** A partition holds the words [ws]; a writer holds [done] in its finished
    partitions and [cur] in the current one, with the cursor behind [cur]. *)
Definition part_words (p : Partition) (ws : list Z) : Prop :=
  numRows p = Z.of_nat (length ws) /\
  load_bytes (payload p) 0 (8 * length ws) = flat_map (le_split 8) ws.

Definition writer_words (w : Writer) (done : list (list Z)) (cur : list Z) : Prop :=
  Forall2 part_words (partitions w) done /\
  part_words (partition w) cur /\
  ptr w = 8 * Z.of_nat (length cur).

(* ------------------------------------------------------------------------- *)
(** ** Bytes outside a partition *)

Section Bounds.
Context `{Driver}.

(** A finished partition is unlocked and its bytes in front of the payload
    and from its capacity on are as the driver handed them out. *)
Definition in_bounds (p : Partition) : Prop :=
  write_locked p = false /\
  forall x, x < 0 \/ capacity p <= x -> payload p x = alloc_bytes x.

(** A writer has written nothing outside [0, ptr) of its current partition,
    and [ptr] is within the capacity once something was written. *)
Definition within_capacity (w : Writer) : Prop :=
  0 <= ptr w /\
  numBytesSerialized w = ptr w /\
  (ptr w = 0 \/ ptr w <= capacity (partition w)) /\
  (forall x, x < 0 \/ ptr w <= x -> payload (partition w) x = alloc_bytes x) /\
  Forall in_bounds (partitions w).

End Bounds.

(* ------------------------------------------------------------------------- *)
(** ** Rows of the fast string encoder *)

(** A [str] of ASCII characters other than NUL. *)
Definition plain_ascii (s : pystr) : Prop := Forall (fun c => 0 < c < 128) s.

(** A [str] without surrogate code points, the strings [PyUnicode_AsUTF8]
    encodes. *)
Definition scalar_value (c : Z) : Prop :=
  0 <= c < 0xD800 \/ 0xE000 <= c <= 0x10FFFF.

Definition encodable (s : pystr) : Prop := Forall scalar_value s.

Definition encodable_object (o : PyObject) : Prop :=
  match o with
  | Py_Unicode s => encodable s
  | _ => True
  end.

(** The elements the debug build of the string encoders accepts without
    failing its assertion. *)
Definition plain_object (o : PyObject) : Prop :=
  match o with
  | Py_Unicode s => plain_ascii s
  | _ => True
  end.

Section StrRows.
Context `{PythonHelpers}.

(** The row the fast string encoder writes for a [str]: the descriptor word,
    the size of the variable-length part, and as many bytes of the UTF-8
    buffer as [PyUnicode_GET_SIZE] counts, and one more. *)
Definition str_row (o : PyObject) : list byte :=
  le_split 8 (info_field 16 (PyUnicode_GET_SIZE o + 1))
  ++ le_split 8 (PyUnicode_GET_SIZE o + 1)
  ++ firstn (Z.to_nat (PyUnicode_GET_SIZE o + 1)) (PyUnicode_AsUTF8 o).

Definition holds_strs (p : Partition) (strs : list PyObject) : Prop :=
  numRows p = Z.of_nat (length strs) /\
  load_bytes (payload p) 0 (length (flat_map str_row strs)) = flat_map str_row strs.

Definition writer_strs (w : Writer) (done : list (list PyObject))
  (cur : list PyObject) : Prop :=
  Forall2 holds_strs (partitions w) done /\
  holds_strs (partition w) cur /\
  ptr w = Z.of_nat (length (flat_map str_row cur)).

Fixpoint str_rejected (L : list PyObject) (i : Z) : list (Z * PyObject) :=
  match L with
  | [] => []
  | o :: rest =>
      if PyUnicode_Check o then str_rejected rest (i + 1)
      else (i, o) :: str_rejected rest (i + 1)
  end.

End StrRows.

(* ------------------------------------------------------------------------- *)
(** ** Rows and quarantine entries of the dict encoder *)

Section DictRows.
Context `{TypeHelpers}.

(** The columns a dictionary has no entry for, and the tuple built from its
    entries ([None] stands in for a missing one). *)
Definition is_missing (obj : PyObject) (c : pystr) : bool :=
  match PyDict_GetItemString obj c with Some _ => false | None => true end.

Definition missing_columns (obj : PyObject) (columns : list pystr) : nat :=
  length (filter (is_missing obj) columns).

Definition dict_values (obj : PyObject) (columns : list pystr) : list PyObject :=
  map (fun c => match PyDict_GetItemString obj c with
                | Some item => item
                | None => Py_None
                end) columns.

(** The elements the dict encoder writes as rows, and the number of entries
    it puts on the quarantine list for an element. *)
Definition dict_accepted (rowType : pyType) (columns : list pystr)
  (obj : PyObject) : bool :=
  PyDict_Check obj
  && (PyDict_Size obj =? Z.of_nat (length (parameters rowType)))
  && Nat.eqb (missing_columns obj columns) 0
  && (rowTypeOf (Py_Tuple (dict_values obj columns)) == rowType).

Definition dict_entries_added (rowType : pyType) (columns : list pystr)
  (obj : PyObject) : nat :=
  if negb (PyDict_Check obj) then 0
  else if negb (PyDict_Size obj =? Z.of_nat (length (parameters rowType))) then 1
  else if negb (Nat.eqb (missing_columns obj columns) 0)
       then missing_columns obj columns
  else if negb (rowTypeOf (Py_Tuple (dict_values obj columns)) == rowType) then 1
  else 0.

Fixpoint dict_quarantined (rowType : pyType) (columns : list pystr)
  (L : list PyObject) (i : Z) : list (Z * PyObject) :=
  match L with
  | [] => []
  | o :: rest =>
      repeat (i, o) (dict_entries_added rowType columns o)
      ++ dict_quarantined rowType columns rest (i + 1)
  end.

End DictRows.

(* ------------------------------------------------------------------------- *)
(** ** Full partitions and plain rows *)

(** A partition with no room for one more 8-byte row. *)
Definition full (p : Partition) : Prop := capacity p < 8 * numRows p + 8.

Definition packed (w : Writer) : Prop :=
  numBytesSerialized w = 8 * numRows (partition w) /\ Forall full (partitions w).

(** The items of a tuple at the string positions of a type string are
    strings, and these satisfy [P]. *)
Fixpoint string_fields (P : pystr -> Prop) (typeStr : list ascii)
  (els : list PyObject) : Prop :=
  match typeStr, els with
  | tc :: typeStr', el :: els' =>
      (if is_char tc "s"
       then match el with Py_Unicode s => P s | _ => False end
       else True)
      /\ string_fields P typeStr' els'
  | _, _ => True
  end.

(** What the fast tuple encoder reads of a row without a test: when the row
    is a tuple with as many items as the row type has fields, its items at
    the string positions are taken to be strings (line 216) that
    [PyUnicode_AsUTF8] encodes (line 264), and, with assertions compiled in,
    ASCII strings without NUL (line 267). *)
Definition readable_row `{Build} (majType : pyType) (o : PyObject) : Prop :=
  PyTuple_Check o = true ->
  PyTuple_Size o = Z.of_nat (length (parameters majType)) ->
  string_fields (fun s => encodable s /\ (NDEBUG = true \/ plain_ascii s))
                (fst (makeTypeStr majType)) (tuple_items o).

(* ------------------------------------------------------------------------- *)
(** ** Columns of the dict projector *)

(** A column name the projector may report: a string key of a dictionary of
    the list. *)
Definition key_of_some_dict (L : list PyObject) (c : pystr) : Prop :=
  exists d v, In d L /\ In (Py_Unicode c, v) (dict_entries d).

(* ------------------------------------------------------------------------- *)
(** ** Lookups in the dictionary of options *)

(** What a lookup in the entries finds. *)
Definition get_item (d : list (PyObject * PyObject)) (key : pystr) : option PyObject :=
  PyDict_GetItemString (Py_Dict d) key.

(** The first entry of an association list under a key. *)
Definition first_under {V : Type} (k : string) (l : list (string * V)) : option V :=
  option_map snd (find (fun kv => String.eqb (fst kv) k) l).

(* ------------------------------------------------------------------------- *)
(** ** The assignments of updateOptionsWithDict *)

(** The key under which [updateOptionsWithDict] stores a pair of the JSON
    dictionary, if it stores it at all. *)
Definition option_key `{OptionStore} (key : string) : option string :=
  if containsKey defaults key then Some key
  else if containsKey defaults ("tuplex." ++ key)%string
       then Some ("tuplex." ++ key)%string
       else None.

(** The assignments [updateOptionsWithDict] makes, in order. *)
Definition option_updates `{OptionStore} (m : list (string * string))
  : list (string * string) :=
  flat_map (fun keyval => match option_key (fst keyval) with
                          | Some k => [(k, snd keyval)]
                          | None => []
                          end) m.

(* ========================================================================= *)
(** * Properties *)

(* ------------------------------------------------------------------------- *)
(** ** Facts about the type lattice and the histogram *)

Lemma type_eqb_eq a b : (a == b) = true <-> a = b.
Proof. unfold type_eqb. destruct (pyType_eq_dec a b); split; congruence. Qed.

Lemma type_eqb_neq a b : (a == b) = false <-> a <> b.
Proof. unfold type_eqb. destruct (pyType_eq_dec a b); split; congruence. Qed.

Lemma type_eqb_refl a : (a == a) = true.
Proof. apply type_eqb_eq; reflexivity. Qed.

Lemma option_type_fresh (t : pyType) : makeOptionType t <> t.
Proof.
  unfold makeOptionType. induction t; try discriminate.
  intros E. injection E as E. auto.
Qed.

Lemma count_in (colTypes : Histogram) (t : pyType) :
  count colTypes t = true <-> In t (map fst colTypes).
Proof.
  unfold count. rewrite existsb_exists. split.
  - intros [e [Hin He]]. apply type_eqb_eq in He. subst. now apply in_map.
  - intros Hin. apply in_map_iff in Hin. destruct Hin as [e [He Hin]].
    exists e. split; [assumption|]. apply type_eqb_eq. assumption.
Qed.

Lemma at_present (colTypes : Histogram) (t : pyType) :
  In t (map fst colTypes) -> exists c, at_ colTypes t = Ret c.
Proof.
  induction colTypes as [|[k v] rest IH]; simpl; [tauto|].
  intros Hin. destruct (k == t) eqn:E.
  - eauto.
  - apply type_eqb_neq in E. destruct Hin as [Hk | Hin]; [congruence | auto].
Qed.

Lemma at_value_in (colTypes : Histogram) (t : pyType) (c : Z) :
  at_ colTypes t = Ret c -> In (t, c) colTypes.
Proof.
  induction colTypes as [|[k v] rest IH]; simpl; [discriminate|].
  destruct (k == t) eqn:E.
  - apply type_eqb_eq in E. intros [= ->]. left. congruence.
  - intros Hat. right. auto.
Qed.

(** The majority scan keeps the largest count seen and picks its types from
    the entries. *)
Lemma majority_fold_tuple (types : list (pyType * Z)) (st : Majority) :
  majTupleType_ (fold_left majority_step types st) = majTupleType_ st \/
  In (majTupleType_ (fold_left majority_step types st)) (map fst types).
Proof.
  revert st. induction types as [|e types IH]; intros st; simpl; [now left|].
  destruct (IH (majority_step st e)) as [Heq | Hin]; [|now right; right].
  rewrite Heq. unfold majority_step.
  destruct (snd e >? max_ st); simpl;
    destruct (isTupleType (fst e) && _); simpl; auto.
Qed.

Lemma majority_fold_type (types : list (pyType * Z)) (st : Majority) :
  (majType_ (fold_left majority_step types st) = majType_ st /\
   max_ (fold_left majority_step types st) = max_ st) \/
  In (majType_ (fold_left majority_step types st),
      max_ (fold_left majority_step types st)) types.
Proof.
  revert st. induction types as [|e types IH]; intros st; simpl; [now left|].
  destruct (IH (majority_step st e)) as [[Ht Hm] | Hin]; [|now right; right].
  rewrite Ht, Hm. unfold majority_step.
  destruct (snd e >? max_ st) eqn:E; simpl;
    destruct (isTupleType (fst e) && _); simpl; auto;
    right; left; destruct e; reflexivity.
Qed.

Lemma majority_step_max (st : Majority) (e : pyType * Z) :
  max_ st <= max_ (majority_step st e) /\ snd e <= max_ (majority_step st e).
Proof.
  unfold majority_step.
  destruct (snd e >? max_ st) eqn:E; simpl;
    destruct (isTupleType (fst e) && _); simpl; lia.
Qed.

Lemma majority_fold_max (types : list (pyType * Z)) (st : Majority) :
  max_ st <= max_ (fold_left majority_step types st) /\
  forall e, In e types -> snd e <= max_ (fold_left majority_step types st).
Proof.
  revert st. induction types as [|x types IH]; intros st; simpl.
  - split; [lia | tauto].
  - destruct (IH (majority_step st x)) as [Hle Hall].
    destruct (majority_step_max st x) as [H1 H2].
    split; [lia|]. intros e [-> | Hin]; [lia | auto].
Qed.

Section InferencerFacts.
Context `{TypeOrder}.

Lemma majTuple_in_histogram (colTypes : Histogram) :
  isTupleType (majTupleType_ (majority_scan (sort_by_subclass colTypes))) = true ->
  In (majTupleType_ (majority_scan (sort_by_subclass colTypes))) (map fst colTypes).
Proof.
  intros Htuple. unfold majority_scan in *.
  destruct (majority_fold_tuple (sort_by_subclass colTypes) majority_init)
    as [Heq | Hin].
  - rewrite Heq in Htuple. discriminate.
  - eapply Permutation_in; [|exact Hin].
    apply Permutation_map, sort_by_subclass_perm.
Qed.

(** The tuple stage never throws: [colTypes.at(majTupleType)] finds its key. *)
Lemma tuple_stage_returns (colTypes : Histogram) (numSamples : Z) (threshold : float) :
  exists m, tuple_stage colTypes numSamples threshold = Ret m.
Proof.
  unfold tuple_stage.
  destruct (isTupleType _) eqn:Htuple; [|eauto].
  destruct (super_scan colTypes _ 0) as [superTuple num].
  destruct (at_present colTypes _ (majTuple_in_histogram colTypes Htuple)) as [c Hc].
  rewrite Hc. simpl. destruct (_ && _); eauto.
Qed.

Lemma option_stage_returns (colTypes : Histogram) (numSamples : Z)
  (threshold : float) (m : pyType) :
  exists t, option_stage colTypes numSamples threshold m = Ret t.
Proof.
  unfold option_stage.
  destruct (negb (m == UNKNOWN) && negb (m == NULLVALUE) && count colTypes NULLVALUE)
    eqn:E; [|eauto].
  apply andb_true_iff in E. destruct E as [_ Hc].
  apply count_in in Hc. destruct (at_present _ _ Hc) as [c Hat].
  rewrite Hat. simpl. destruct (in_band _ _); eauto.
Qed.

(** [buildRowTypeFromSamples] returns a type on every histogram. *)
Lemma buildRowTypeFromSamples_returns (colTypes : Histogram) (numSamples : Z)
  (threshold : float) :
  exists t, buildRowTypeFromSamples colTypes numSamples threshold = Ret t.
Proof.
  unfold buildRowTypeFromSamples.
  destruct (tuple_stage_returns colTypes numSamples threshold) as [m Hm].
  rewrite Hm. simpl. apply option_stage_returns.
Qed.
End InferencerFacts.

(* ------------------------------------------------------------------------- *)
(** ** Option lifting *)



(* ------------------------------------------------------------------------- *)
(** ** The tuple stage *)

(** Three rows [(1,)] and two rows [(None,)]: the code compares the number of
    covered rows [num = 5] with [maxCount = 3] and moves to [(Option[int],)];
    the claimed test compares [cov = 2] with [3] and stays at [(int,)]. *)
Lemma tuple_stage_not_as_claimed :
  tuple_stage [(TTuple [I64], 3); (TTuple [NULLVALUE], 2)] 5 theta09
    = Ret (TTuple [TOption I64]) /\
  tuple_stage_as_claimed [(TTuple [I64], 3); (TTuple [NULLVALUE], 2)] 5 theta09
    = TTuple [I64] /\
  tuple_stage [(TTuple [I64], 3); (TTuple [NULLVALUE], 2)] 5 theta09
    <> Ret (tuple_stage_as_claimed
              [(TTuple [I64], 3); (TTuple [NULLVALUE], 2)] 5 theta09).
Proof.
  split; [vm_compute; reflexivity|].
  split; [vm_compute; reflexivity|].
  vm_compute. discriminate.
Qed.

(** The super type is accumulated: after the entry for NULL the running
    super type is [Option[(int,)]], with which [(None,)] has no super-option,
    although it has one with the majority tuple type [(int,)] itself. *)
Example super_scan_is_cumulative :
  super_scan [(NULLVALUE, 2); (TTuple [I64], 5); (TTuple [NULLVALUE], 3)]
             (TTuple [I64]) 0
    = (TOption (TTuple [I64]), 7) /\
  hasSuperOptionType (TTuple [NULLVALUE]) (TTuple [I64])
    = Some (TTuple [TOption I64]).
Proof. split; vm_compute; reflexivity. Qed.

(** C3, amended.  When a majority tuple type [mt] exists, it is a key of the
    histogram, [maxCount] bounds every count, and the tuple stage returns the
    accumulated super type [s] when [num > maxCount] and
    [(num - count(mt)) / numSamples] is in the band, the majority type [m]
    otherwise; [s] and [num] come from one pass over the histogram in key
    order that starts at [s = mt], [num = 0] and, at every entry whose
    super-option with the current [s] is defined, moves [s] to that
    super-option and adds the entry's count to [num]. *)
Theorem tuple_stage_replacement `{TypeOrder} (colTypes : Histogram)
  (numSamples : Z) (threshold : float) :
  isTupleType (majTupleType_ (majority_scan (sort_by_subclass colTypes))) = true ->
  let st := majority_scan (sort_by_subclass colTypes) in
  let s := fst (super_scan colTypes (majTupleType_ st) 0) in
  let num := snd (super_scan colTypes (majTupleType_ st) 0) in
  exists cnt,
    at_ colTypes (majTupleType_ st) = Ret cnt /\
    (forall e, In e colTypes -> snd e <= max_ st) /\
    tuple_stage colTypes numSamples threshold
      = Ret (if (num >? max_ st)
                && in_band threshold
                     (int_to_double (num - cnt) / int_to_double numSamples)%float
             then s else majType_ st).
Proof.
  intros Htuple st s num.
  destruct (at_present colTypes _ (majTuple_in_histogram colTypes Htuple)) as [cnt Hat].
  exists cnt. split; [exact Hat|]. split.
  - intros e Hin. subst st. unfold majority_scan.
    apply (proj2 (majority_fold_max (sort_by_subclass colTypes) majority_init)).
    eapply Permutation_in; [|exact Hin].
    apply Permutation_sym, sort_by_subclass_perm.
  - subst s num st. unfold tuple_stage. rewrite Htuple.
    destruct (super_scan colTypes _ 0) as [s num].
    rewrite Hat. simpl.
    destruct (_ && _); reflexivity.
Qed.

Lemma tuple_stage_replacement_witness :
  let colTypes := [(TTuple [I64], 3); (TTuple [NULLVALUE], 2)] in
  let st := majority_scan (sort_by_subclass colTypes) in
  let s := fst (super_scan colTypes (majTupleType_ st) 0) in
  let num := snd (super_scan colTypes (majTupleType_ st) 0) in
  exists cnt,
    at_ colTypes (majTupleType_ st) = Ret cnt /\
    (forall e, In e colTypes -> snd e <= max_ st) /\
    tuple_stage colTypes 5 theta09
      = Ret (if (num >? max_ st)
                && in_band theta09
                     (int_to_double (num - cnt) / int_to_double 5)%float
             then s else majType_ st).
Proof.
  apply (@tuple_stage_replacement demo_order
           [(TTuple [I64], 3); (TTuple [NULLVALUE], 2)] 5 theta09).
  vm_compute. reflexivity.
Defined.

(* ------------------------------------------------------------------------- *)
(** ** Loops, assertions and memory *)

Lemma for_each_app {S : Type} (body : Z -> PyObject -> S -> Outcome S)
  (l1 l2 : list PyObject) (i : Z) (s : S) :
  for_each body (l1 ++ l2) i s
  = (s' <- for_each body l1 i s ;; for_each body l2 (i + Z.of_nat (length l1)) s').
Proof.
  revert i s. induction l1 as [|o l1 IH]; intros i s.
  - simpl. f_equal. lia.
  - cbn [app for_each]. destruct (body i o s) as [s1| |]; cbn [bind]; auto.
    rewrite IH. replace (i + 1 + Z.of_nat (length l1))
      with (i + Z.of_nat (length (o :: l1))) by (cbn [length]; lia).
    reflexivity.
Qed.

Lemma for_each_returns {S : Type} (body : Z -> PyObject -> S -> Outcome S) :
  (forall i o s, exists s', body i o s = Ret s') ->
  forall items i s, exists s', for_each body items i s = Ret s'.
Proof.
  intros Hbody. induction items as [|o items IH]; intros i s; simpl; [eauto|].
  destruct (Hbody i o s) as [s1 ->]. simpl. apply IH.
Qed.

Lemma for_each_invariant {S : Type} (body : Z -> PyObject -> S -> Outcome S)
  (P : S -> Prop) :
  (forall i o s s', P s -> body i o s = Ret s' -> P s') ->
  forall items i s s', P s -> for_each body items i s = Ret s' -> P s'.
Proof.
  intros Hbody. induction items as [|o items IH]; intros i s s' HP; simpl.
  - intros [= <-]. assumption.
  - destruct (body i o s) as [s1| |] eqn:E; simpl; try discriminate.
    intros Hrest. eapply IH; [|exact Hrest]. eapply Hbody; eauto.
Qed.

Lemma assert_holds `{Build} {A : Type} (cond : bool) (what : string) (k : Outcome A) :
  cond = true -> assert_ cond what k = k.
Proof. intros ->. unfold assert_. destruct NDEBUG; reflexivity. Qed.

Lemma set_err_twice (a b : bool) (h : Host) : set_err a (set_err b h) = set_err a h.
Proof. reflexivity. Qed.

Lemma memcpy_inside (m : Memory) (dst : Z) (src : list byte) (n a : Z) :
  dst <= a < dst + n ->
  memcpy m dst src n a = nth (Z.to_nat (a - dst)) src Byte.x00.
Proof.
  intros Hr. unfold memcpy.
  replace (dst <=? a) with true by (symmetry; apply Z.leb_le; lia).
  replace (a <? dst + n) with true by (symmetry; apply Z.ltb_lt; lia).
  reflexivity.
Qed.

Lemma memcpy_outside (m : Memory) (dst : Z) (src : list byte) (n a : Z) :
  a < dst \/ dst + n <= a ->
  memcpy m dst src n a = m a.
Proof.
  intros Hr. unfold memcpy.
  destruct (dst <=? a) eqn:E1; [|reflexivity].
  destruct (a <? dst + n) eqn:E2; [|reflexivity].
  apply Z.leb_le in E1. apply Z.ltb_lt in E2. lia.
Qed.

Lemma load_bytes_ext (m1 m2 : Memory) (k : nat) (a : Z) :
  (forall x, a <= x < a + Z.of_nat k -> m1 x = m2 x) ->
  load_bytes m1 a k = load_bytes m2 a k.
Proof.
  revert a. induction k as [|k IH]; intros a Hext; [reflexivity|].
  cbn [load_bytes]. f_equal.
  - apply Hext. lia.
  - apply IH. intros x Hx. apply Hext. lia.
Qed.

Lemma load_bytes_app (m : Memory) (k1 k2 : nat) (a : Z) :
  load_bytes m a (k1 + k2) = load_bytes m a k1 ++ load_bytes m (a + Z.of_nat k1) k2.
Proof.
  revert a. induction k1 as [|k1 IH]; intros a.
  - simpl. f_equal. lia.
  - cbn [Nat.add load_bytes app]. f_equal. rewrite IH. do 2 f_equal. lia.
Qed.

Lemma load_bytes_length (m : Memory) (k : nat) (a : Z) :
  length (load_bytes m a k) = k.
Proof. revert a. induction k; intros a; simpl; auto. Qed.

Lemma load_bytes_memcpy_disjoint (m : Memory) (dst : Z) (src : list byte) (n : Z)
  (a : Z) (k : nat) :
  a + Z.of_nat k <= dst \/ dst + n <= a ->
  load_bytes (memcpy m dst src n) a k = load_bytes m a k.
Proof.
  intros Hd. apply load_bytes_ext. intros x Hx. apply memcpy_outside. lia.
Qed.

Lemma load_bytes_memcpy_at (m : Memory) (dst : Z) (src : list byte) (n : Z)
  (o k : nat) :
  (o + k <= length src)%nat -> Z.of_nat (o + k) <= n ->
  load_bytes (memcpy m dst src n) (dst + Z.of_nat o) k = firstn k (skipn o src).
Proof.
  revert o. induction k as [|k IH]; intros o Hlen Hn; [reflexivity|].
  cbn [load_bytes].
  assert (Ho : (o < length src)%nat) by lia.
  rewrite memcpy_inside by lia.
  replace (Z.to_nat (dst + Z.of_nat o - dst)) with o by lia.
  replace (dst + Z.of_nat o + 1) with (dst + Z.of_nat (S o)) by lia.
  rewrite IH by lia.
  clear - Ho. revert o Ho. induction src as [|b src IHs]; intros o Ho.
  - simpl in Ho. lia.
  - destruct o as [|o].
    + reflexivity.
    + cbn [nth skipn]. simpl in Ho. rewrite <- IHs by lia. reflexivity.
Qed.

Lemma load_bytes_memcpy_same (m : Memory) (dst : Z) (src : list byte) (k : nat) :
  (k <= length src)%nat ->
  load_bytes (memcpy m dst src (Z.of_nat k)) dst k = firstn k src.
Proof.
  intros Hk.
  replace dst with (dst + Z.of_nat 0) at 2 by lia.
  rewrite load_bytes_memcpy_at by (simpl; lia). reflexivity.
Qed.

Lemma load_store64_same (m : Memory) (a v : Z) :
  load64 (store64 m a v) a = v mod 2 ^ 64.
Proof.
  unfold load64, store64.
  change 8 with (Z.of_nat 8) at 1.
  rewrite load_bytes_memcpy_same by (rewrite length_le_split; lia).
  rewrite firstn_all2 by (rewrite length_le_split; lia).
  apply le_combine_split.
Qed.

Lemma load_bytes_store64_same (m : Memory) (a v : Z) :
  load_bytes (store64 m a v) a 8 = le_split 8 v.
Proof.
  unfold store64. change 8 with (Z.of_nat 8) at 1.
  rewrite load_bytes_memcpy_same by (rewrite length_le_split; lia).
  apply firstn_all2. rewrite length_le_split. lia.
Qed.

Lemma load_bytes_store64_disjoint (m : Memory) (a v b : Z) (k : nat) :
  b + Z.of_nat k <= a \/ a + 8 <= b ->
  load_bytes (store64 m a v) b k = load_bytes m b k.
Proof. intros Hd. unfold store64. apply load_bytes_memcpy_disjoint. lia. Qed.

(* ------------------------------------------------------------------------- *)
(** ** Integers that do not fit in 64 bits *)

Section IntegerOverflow.
Context `{Build} `{Driver} `{PythonHelpers}.

Lemma fastI64_body_returns (upcast : bool) (i : Z) (o : PyObject) (st : Writer * Host) :
  exists st', fastI64_body upcast i o st = Ret st'.
Proof.
  destruct st as [w h]. unfold fastI64_body.
  destruct (PyLong_CheckExact o).
  - destruct (PyLong_AsLongLong o h) as [v h1]. destruct (PyErr_Occurred h1); eauto.
  - destruct (upcast && _); eauto.
Qed.

Lemma fastF64_body_returns (upcast : bool) (i : Z) (o : PyObject) (st : Writer * Host) :
  exists st', fastF64_body upcast i o st = Ret st'.
Proof.
  destruct st as [w h]. unfold fastF64_body.
  destruct (PyFloat_CheckExact o); [eauto|].
  destruct (upcast && _); [|eauto].
  destruct (is_Py_True o || is_Py_False o); [eauto|].
  destruct (PyLong_AsLongLong o h) as [v h1]. destruct (PyErr_Occurred h1); eauto.
Qed.

(** What the two encoders do with an integer that does not fit. *)
Lemma fastI64_body_overflow (upcast : bool) (i z : Z) (w : Writer) (h : Host) :
  fits_int64 z = false ->
  fastI64_body upcast i (Py_Long z) (w, h)
  = Ret (ensure_capacity 8 (Z.max 8 allocMinSize) I64_schema w,
         emplace_back_bad i (Py_Long z) (PyErr_Clear h)).
Proof. intros Hz. unfold fastI64_body. simpl. rewrite Hz. reflexivity. Qed.

Lemma fastF64_body_overflow (i z : Z) (w : Writer) (h : Host) :
  fits_int64 z = false ->
  fastF64_body true i (Py_Long z) (w, h)
  = Ret (ensure_capacity 8 (Z.max 8 allocMinSize) F64_schema w,
         emplace_back_bad i (Py_Long z) (PyErr_Clear h)).
Proof. intros Hz. unfold fastF64_body. simpl. rewrite Hz. reflexivity. Qed.

Lemma fastI64_body_keeps (upcast : bool) (x : Z * PyObject) (i : Z) (o : PyObject)
  (st st' : Writer * Host) :
  quarantined_and_clear x st -> fastI64_body upcast i o st = Ret st' ->
  quarantined_and_clear x st'.
Proof.
  destruct st as [w h]. unfold quarantined_and_clear, fastI64_body, PyErr_Occurred.
  simpl. intros [Hin Herr].
  destruct o; simpl; try (destruct (upcast && _));
    try (destruct (fits_int64 z)); simpl; try rewrite Herr;
    intros [= <-]; simpl; rewrite ?in_app_iff; auto.
Qed.

Lemma fastF64_body_keeps (upcast : bool) (x : Z * PyObject) (i : Z) (o : PyObject)
  (st st' : Writer * Host) :
  quarantined_and_clear x st -> fastF64_body upcast i o st = Ret st' ->
  quarantined_and_clear x st'.
Proof.
  destruct st as [w h]. unfold quarantined_and_clear, fastF64_body, PyErr_Occurred.
  simpl. intros [Hin Herr].
  destruct o; simpl; try (destruct upcast; simpl); try (destruct b; simpl);
    try (destruct (fits_int64 z)); simpl; try rewrite Herr;
    intros [= <-]; simpl; rewrite ?in_app_iff; auto.
Qed.

(** C8.  In the I64 fast encoder, and in the F64 fast encoder under
    autoUpcast, an integer that does not fit in 64 bits, at any index [i] of
    the input: the rows before it are processed; the row itself is put on
    the quarantine list with the error indicator cleared and nothing is
    written for it; the loop goes on with the following elements; the call
    returns a dataset of partitions (it is not aborted), with the entry
    [(i, object)] on the quarantine list and the error indicator clear. *)
Theorem overflowing_int_is_quarantined (before after : list PyObject) (z : Z)
  (columns : list pystr) (upcast : bool) (h : Host) :
  fits_int64 z = false ->
  (length columns <= 1)%nat ->
  let L := before ++ Py_Long z :: after in
  let i := Z.of_nat (length before) in
  (exists w1 h1 w2 h2,
      for_each (fastI64_body upcast) before 0
        (open_writer (Z.max 8 allocMinSize) I64_schema, h) = Ret (w1, h1) /\
      fastI64_body upcast i (Py_Long z) (w1, h1)
        = Ret (ensure_capacity 8 (Z.max 8 allocMinSize) I64_schema w1,
               emplace_back_bad i (Py_Long z) (PyErr_Clear h1)) /\
      for_each (fastI64_body upcast) after (i + 1)
        (ensure_capacity 8 (Z.max 8 allocMinSize) I64_schema w1,
         emplace_back_bad i (Py_Long z) (PyErr_Clear h1)) = Ret (w2, h2) /\
      fastI64Parallelize L columns upcast h
        = Ret (fromPartitions I64_schema (close_writer w2) columns, h2) /\
      In (i, Py_Long z) (badParallelizeObjects h2) /\
      err_indicator h2 = false)
  /\
  (exists w1 h1 w2 h2,
      for_each (fastF64_body true) before 0
        (open_writer allocMinSize F64_schema, h) = Ret (w1, h1) /\
      fastF64_body true i (Py_Long z) (w1, h1)
        = Ret (ensure_capacity 8 (Z.max 8 allocMinSize) F64_schema w1,
               emplace_back_bad i (Py_Long z) (PyErr_Clear h1)) /\
      for_each (fastF64_body true) after (i + 1)
        (ensure_capacity 8 (Z.max 8 allocMinSize) F64_schema w1,
         emplace_back_bad i (Py_Long z) (PyErr_Clear h1)) = Ret (w2, h2) /\
      fastF64Parallelize L columns true h
        = Ret (fromPartitions F64_schema (close_writer w2) columns, h2) /\
      In (i, Py_Long z) (badParallelizeObjects h2) /\
      err_indicator h2 = false).
Proof.
  intros Hz Hcols L i.
  assert (HL : (Z.of_nat (length L) =? 0) = false).
  { apply Z.eqb_neq. subst L. rewrite length_app. simpl. lia. }
  split.
  - destruct (for_each_returns (fastI64_body upcast) (fastI64_body_returns upcast)
                before 0 (open_writer (Z.max 8 allocMinSize) I64_schema, h))
      as [[w1 h1] Hbefore].
    pose proof (fastI64_body_overflow upcast i z w1 h1 Hz) as Hrow.
    destruct (for_each_returns (fastI64_body upcast) (fastI64_body_returns upcast)
                after (i + 1)
                (ensure_capacity 8 (Z.max 8 allocMinSize) I64_schema w1,
                 emplace_back_bad i (Py_Long z) (PyErr_Clear h1)))
      as [[w2 h2] Hafter].
    exists w1, h1, w2, h2.
    split; [exact Hbefore|]. split; [exact Hrow|]. split; [exact Hafter|].
    assert (Hkeep : quarantined_and_clear (i, Py_Long z) (w2, h2)).
    { eapply for_each_invariant; [apply (fastI64_body_keeps upcast) | | exact Hafter].
      split; simpl; [rewrite in_app_iff; right; left; reflexivity | reflexivity]. }
    split; [|exact Hkeep].
    unfold fastI64Parallelize. rewrite HL.
    subst L. rewrite for_each_app, Hbefore. cbn [bind for_each].
    rewrite Z.add_0_l. fold i. rewrite Hrow. cbn [bind].
    rewrite Hafter. reflexivity.
  - destruct (for_each_returns (fastF64_body true) (fastF64_body_returns true)
                before 0 (open_writer allocMinSize F64_schema, h))
      as [[w1 h1] Hbefore].
    pose proof (fastF64_body_overflow i z w1 h1 Hz) as Hrow.
    destruct (for_each_returns (fastF64_body true) (fastF64_body_returns true)
                after (i + 1)
                (ensure_capacity 8 (Z.max 8 allocMinSize) F64_schema w1,
                 emplace_back_bad i (Py_Long z) (PyErr_Clear h1)))
      as [[w2 h2] Hafter].
    exists w1, h1, w2, h2.
    split; [exact Hbefore|]. split; [exact Hrow|]. split; [exact Hafter|].
    assert (Hkeep : quarantined_and_clear (i, Py_Long z) (w2, h2)).
    { eapply for_each_invariant; [apply (fastF64_body_keeps true) | | exact Hafter].
      split; simpl; [rewrite in_app_iff; right; left; reflexivity | reflexivity]. }
    split; [|exact Hkeep].
    unfold fastF64Parallelize.
    rewrite assert_holds by (apply Z.leb_le; lia).
    rewrite HL.
    subst L. rewrite for_each_app, Hbefore. cbn [bind for_each].
    rewrite Z.add_0_l. fold i. rewrite Hrow. cbn [bind].
    rewrite Hafter. reflexivity.
Qed.

End IntegerOverflow.

Lemma overflowing_int_is_quarantined_witness :
  fits_int64 (2 ^ 64) = false /\
  exists ds h,
    @fastI64Parallelize release_build demo_driver
      [Py_Long 1; Py_Long (2 ^ 64); Py_Long 3] [] false fresh_host = Ret (ds, h) /\
    In (1, Py_Long (2 ^ 64)) (badParallelizeObjects h) /\
    err_indicator h = false.
Proof.
  split; [reflexivity|].
  destruct (@overflowing_int_is_quarantined release_build demo_driver
              [Py_Long 1] [Py_Long 3] (2 ^ 64) [] false fresh_host
              eq_refl (le_S _ _ (le_n 0)))
    as [[w1 [h1 [w2 [h2 [_ [_ [_ [Hrun Hq]]]]]]]] _].
  exists (fromPartitions I64_schema (close_writer w2) []), h2.
  split; [exact Hrun | exact Hq].
Defined.

(* ------------------------------------------------------------------------- *)
(** ** The integer fields of the fast tuple encoder *)

Section TupleIntegerField.
Context `{Build} `{Driver} `{PythonHelpers}.

(** C10.  An integer field of the fast tuple encoder has no 64-bit overflow
    check.  For an integer [z] that does not fit in 64 bits,
    [PyLong_AsLongLong] returns [-1] and sets the error indicator; the case
    ['i'] stores that value and goes on to the next field; the row [(z,)] is
    accepted (one row in the last partition, its slot holding the word of
    [-1]), nothing is quarantined and the error stays pending; the scalar
    I64 encoder, on the same integer, writes no row, quarantines it and
    clears the error. *)
Theorem tuple_int_field_overflow_is_accepted (z : Z) (h : Host) :
  fits_int64 z = false ->
  PyLong_AsLongLong (Py_Long z) h = (-1, set_err true h) /\
  (forall n j c,
      serialize_field n "i" j (Py_Long z) c
      = Ret (true, {| row_mem := store64 (row_mem c) (row_ptr c) (-1);
                      row_ptr := row_ptr c + 8;
                      rowVarFieldSizes := rowVarFieldSizes c;
                      row_host := set_err true (row_host c) |})) /\
  (exists parts p h',
      fastMixedSimpleTypeTupleTransfer [Py_Tuple [Py_Long z]] (TTuple [I64]) [] h
        = Ret (fromPartitions (TTuple [I64]) (parts ++ [p]) [], h') /\
      numRows p = 1 /\
      load64 (payload p) 0 = 2 ^ 64 - 1 /\
      badParallelizeObjects h' = badParallelizeObjects h /\
      err_indicator h' = true) /\
  (exists parts p h',
      fastI64Parallelize [Py_Long z] [] false h
        = Ret (fromPartitions I64_schema (parts ++ [p]) [], h') /\
      numRows p = 0 /\
      badParallelizeObjects h' = badParallelizeObjects h ++ [(0, Py_Long z)] /\
      err_indicator h' = false).
Proof.
  intros Hz.
  assert (Hlong : forall h0, PyLong_AsLongLong (Py_Long z) h0 = (-1, set_err true h0)).
  { intros h0. unfold PyLong_AsLongLong. rewrite Hz. reflexivity. }
  split; [apply Hlong|]. split.
  { intros n j c. unfold serialize_field. cbn. rewrite Hz. reflexivity. }
  split.
  - unfold fastMixedSimpleTypeTupleTransfer.
    rewrite !assert_holds by reflexivity.
    cbn -[Z.mul Z.add store64 open_writer ensure_capacity].
    unfold fastTuple_body.
    cbn -[Z.mul Z.add store64 open_writer ensure_capacity].
    rewrite Hz.
    cbn -[Z.mul Z.add store64 open_writer ensure_capacity].
    unfold ensure_capacity, open_writer. cbn -[store64].
    destruct (alloc_capacity allocMinSize <? 8); cbn -[store64].
    + eexists [_], _, _. split; [reflexivity|]. cbn -[store64].
      rewrite load_store64_same. repeat split; reflexivity.
    + eexists [], _, _. split; [reflexivity|]. cbn -[store64].
      rewrite load_store64_same. repeat split; reflexivity.
  - unfold fastI64Parallelize. cbn -[Z.max ensure_capacity open_writer].
    rewrite Hz. cbn -[Z.max ensure_capacity open_writer].
    unfold ensure_capacity, open_writer. cbn -[Z.max].
    destruct (alloc_capacity (Z.max 8 allocMinSize) <? 8); cbn -[Z.max].
    + eexists [_], _, _. split; [reflexivity|]. repeat split; reflexivity.
    + eexists [], _, _. split; [reflexivity|]. repeat split; reflexivity.
Qed.

End TupleIntegerField.

Lemma tuple_int_field_overflow_is_accepted_witness :
  fits_int64 (2 ^ 70) = false /\
  exists parts p h',
    @fastMixedSimpleTypeTupleTransfer release_build demo_driver demo_helpers
      [Py_Tuple [Py_Long (2 ^ 70)]] (TTuple [I64]) [] fresh_host
      = Ret (fromPartitions (TTuple [I64]) (parts ++ [p]) [], h') /\
    numRows p = 1 /\
    load64 (payload p) 0 = 2 ^ 64 - 1 /\
    badParallelizeObjects h' = [] /\
    err_indicator h' = true.
Proof.
  split; [reflexivity|].
  exact (proj1 (proj2 (proj2
           (@tuple_int_field_overflow_is_accepted release_build demo_driver
              demo_helpers (2 ^ 70) fresh_host eq_refl)))).
Defined.

(* ------------------------------------------------------------------------- *)
(** ** The slow encoder: rows, quarantine and references *)

Section SlowEncoder.
Context `{PythonHelpers} `{Signals}.

Lemma decref_all_log (bad : list (Z * PyObject)) (h : Host) :
  decref_all bad h
  = {| badParallelizeObjects := badParallelizeObjects h;
       err_indicator := err_indicator h;
       ref_log := ref_log h ++ decrefs bad;
       interrupt_flag := interrupt_flag h |}.
Proof.
  unfold decref_all. revert h. induction bad as [|t bad IH]; intros h; simpl.
  - rewrite app_nil_r. destruct h; reflexivity.
  - rewrite IH. simpl. rewrite <- app_assoc. reflexivity.
Qed.

Lemma slow_loop_quiet (majType : pyType) (items : list PyObject) (i : Z)
  (v : list (PyObject * pyType)) (h : Host) :
  quiet h i (length items) ->
  slow_loop majType items i v h
  = (inr (v ++ converted majType items),
     {| badParallelizeObjects := badParallelizeObjects h ++ rejected majType items i;
        err_indicator := err_indicator h;
        ref_log := ref_log h ++ increfs i (length items);
        interrupt_flag := interrupt_flag h |}).
Proof.
  revert i v h. induction items as [|o items IH]; intros i v h Hquiet.
  - simpl. rewrite !app_nil_r. destruct h; reflexivity.
  - cbn [slow_loop]. unfold check_interrupted, deliver_signal. cbn [interrupt_flag].
    pose proof (Hquiet i ltac:(cbn [length]; lia)) as Hi. rewrite Hi.
    apply orb_false_iff in Hi. destruct Hi as [Hflag _].
    fold (conforms majType o).
    assert (Hq : forall h0, interrupt_flag h0 = false -> quiet h0 (i + 1) (length items)).
    { intros h0 Hh0 k Hk. rewrite Hh0.
      pose proof (Hquiet k ltac:(cbn [length]; lia)) as Hk'.
      rewrite Hflag in Hk'. exact Hk'. }
    unfold converted. cbn [rejected filter length increfs].
    destruct (conforms majType o).
    + rewrite IH by (apply Hq; reflexivity). cbn.
      rewrite <- !app_assoc, Hflag. reflexivity.
    + rewrite IH by (apply Hq; reflexivity). cbn.
      rewrite <- !app_assoc, Hflag. reflexivity.
Qed.

Lemma slow_loop_interrupted (majType : pyType) (before : list PyObject)
  (row : PyObject) (after : list PyObject) (i : Z)
  (v : list (PyObject * pyType)) (h : Host) :
  quiet h i (length before) ->
  interrupt_flag h || sigint_before_row (i + Z.of_nat (length before)) = true ->
  slow_loop majType (before ++ row :: after) i v h
  = (inl (makeError "interrupted transfer"),
     {| badParallelizeObjects := [];
        err_indicator := err_indicator h;
        ref_log := (ref_log h ++ increfs i (length before))
                   ++ decrefs (badParallelizeObjects h ++ rejected majType before i);
        interrupt_flag := true |}).
Proof.
  revert i v h. induction before as [|o before IH]; intros i v h Hquiet Hseen.
  - cbn [app slow_loop length] in *. rewrite Z.add_0_r in Hseen.
    unfold check_interrupted, deliver_signal. cbn [interrupt_flag].
    rewrite Hseen. rewrite decref_all_log. cbn. rewrite !app_nil_r. reflexivity.
  - cbn [app slow_loop]. unfold check_interrupted, deliver_signal.
    cbn [interrupt_flag].
    pose proof (Hquiet i ltac:(cbn [length]; lia)) as Hi. rewrite Hi.
    apply orb_false_iff in Hi. destruct Hi as [Hflag _].
    fold (conforms majType o).
    cbn [rejected length increfs].
    destruct (conforms majType o).
    + rewrite IH.
      * cbn. rewrite <- !app_assoc. reflexivity.
      * intros k Hk. cbn.
        pose proof (Hquiet k ltac:(cbn [length]; lia)) as Hk'.
        rewrite Hflag in Hk'. exact Hk'.
      * cbn. rewrite Hflag in Hseen.
        replace (i + 1 + Z.of_nat (length before))
          with (i + Z.of_nat (length (o :: before))) by (cbn [length]; lia).
        exact Hseen.
    + rewrite IH.
      * cbn. rewrite <- !app_assoc. reflexivity.
      * intros k Hk. cbn.
        pose proof (Hquiet k ltac:(cbn [length]; lia)) as Hk'.
        rewrite Hflag in Hk'. exact Hk'.
      * cbn. rewrite Hflag in Hseen.
        replace (i + 1 + Z.of_nat (length before))
          with (i + Z.of_nat (length (o :: before))) by (cbn [length]; lia).
        exact Hseen.
Qed.

(** C6.  The interrupt flag is first seen set by the poll before the row at
    index [k] (the polls before the earlier rows saw it clear).  At that
    moment the earlier rows have been handled: the conforming ones are in the
    Row vector and the others on the quarantine list.  The slow encoder then
    releases one reference for every entry of the quarantine list and empties
    the list, returns the error dataset with the message
    "interrupted transfer" instead of the rows converted so far, and leaves
    the interrupt flag set. *)
Theorem interrupted_slow_transfer (majType : pyType) (before : list PyObject)
  (row : PyObject) (after : list PyObject) (columns : list pystr) (h : Host) :
  quiet h 0 (length before) ->
  interrupt_flag h || sigint_before_row (Z.of_nat (length before)) = true ->
  exists hq h',
    slow_loop majType before 0 [] h = (inr (converted majType before), hq) /\
    badParallelizeObjects hq
      = badParallelizeObjects h ++ rejected majType before 0 /\
    parallelizeAnyType (before ++ row :: after) majType columns h
      = Ret (makeError "interrupted transfer", h') /\
    ref_log h' = ref_log hq ++ decrefs (badParallelizeObjects hq) /\
    badParallelizeObjects h' = [] /\
    interrupt_flag h' = true.
Proof.
  intros Hquiet Hseen.
  eexists _, _. split; [apply (@slow_loop_quiet majType before 0 [] h Hquiet)|].
  split; [reflexivity|].
  unfold parallelizeAnyType.
  rewrite (@slow_loop_interrupted majType before row after 0 [] h Hquiet Hseen).
  split; [reflexivity|]. cbn. repeat split; reflexivity.
Qed.

End SlowEncoder.

Lemma interrupted_slow_transfer_witness :
  exists hq h',
    @slow_loop demo_helpers (signal_before 2) NULLVALUE
       [Py_None; Py_Long 5] 0 [] fresh_host
      = (inr (@converted demo_helpers NULLVALUE [Py_None; Py_Long 5]), hq) /\
    badParallelizeObjects hq = [(1, Py_Long 5)] /\
    @parallelizeAnyType demo_helpers (signal_before 2)
       ([Py_None; Py_Long 5] ++ Py_None :: [Py_Long 1]) NULLVALUE [] fresh_host
      = Ret (makeError "interrupted transfer", h') /\
    ref_log h' = ref_log hq ++ decrefs (badParallelizeObjects hq) /\
    badParallelizeObjects h' = [] /\
    interrupt_flag h' = true.
Proof.
  apply (@interrupted_slow_transfer demo_helpers (signal_before 2) NULLVALUE
           [Py_None; Py_Long 5] Py_None [Py_Long 1] [] fresh_host).
  - intros k Hk. cbn in *.
    destruct (Z.eqb_spec k 2); [lia | reflexivity].
  - reflexivity.
Defined.

(* ------------------------------------------------------------------------- *)
(** ** References held for quarantined objects *)

Lemma assert_returns `{Build} {A : Type} (cond : bool) (what : string)
  (k : Outcome A) (a : A) :
  assert_ cond what k = Ret a -> k = Ret a.
Proof. unfold assert_. destruct NDEBUG; [auto|]. destruct cond; [auto | discriminate]. Qed.

Lemma acquired_app (l1 l2 : list RefEvent) (i : Z) :
  acquired (l1 ++ l2) i = (acquired l1 i + acquired l2 i)%nat.
Proof. unfold acquired. rewrite filter_app, length_app. reflexivity. Qed.

Lemma released_app (l1 l2 : list RefEvent) (i : Z) :
  released (l1 ++ l2) i = (released l1 i + released l2 i)%nat.
Proof. unfold released. rewrite filter_app, length_app. reflexivity. Qed.

Lemma acquired_increfs (i : Z) (n : nat) (k : Z) :
  acquired (increfs i n) k
  = if (i <=? k) && (k <? i + Z.of_nat n) then 1%nat else 0%nat.
Proof.
  revert i. induction n as [|n IH]; intros i.
  - simpl. destruct (i <=? k) eqn:E1; destruct (k <? i + 0) eqn:E2; try reflexivity.
    apply Z.leb_le in E1. apply Z.ltb_lt in E2. lia.
  - unfold acquired in *. cbn [increfs filter is_incref_of].
    destruct (Z.eqb_spec i k) as [->|Hne].
    + cbn [length]. rewrite IH.
      replace (k + 1 <=? k) with false by (symmetry; apply Z.leb_gt; lia).
      replace (k <=? k) with true by (symmetry; apply Z.leb_le; lia).
      replace (k <? k + Z.of_nat (S n)) with true by (symmetry; apply Z.ltb_lt; lia).
      reflexivity.
    + rewrite IH.
      destruct (i + 1 <=? k) eqn:E1; destruct (i <=? k) eqn:E2;
        destruct (k <? i + 1 + Z.of_nat n) eqn:E3;
        destruct (k <? i + Z.of_nat (S n)) eqn:E4; try reflexivity;
        rewrite ?Z.leb_le, ?Z.leb_gt, ?Z.ltb_lt, ?Z.ltb_ge in *; lia.
Qed.

Lemma released_increfs (i : Z) (n : nat) (k : Z) : released (increfs i n) k = 0%nat.
Proof. revert i. induction n as [|n IH]; intros i; [reflexivity | apply IH]. Qed.

Lemma acquired_decrefs (bad : list (Z * PyObject)) (k : Z) :
  acquired (decrefs bad) k = 0%nat.
Proof. induction bad as [|t bad IH]; [reflexivity | apply IH]. Qed.

Lemma events_since_app (h h' : Host) (new : list RefEvent) :
  ref_log h' = ref_log h ++ new -> events_since h h' = new.
Proof.
  intros E. unfold events_since. rewrite E.
  rewrite skipn_app, skipn_all, Nat.sub_diag. reflexivity.
Qed.

Section References.
Context `{Build} `{Driver} `{PythonHelpers} `{TypeOrder} `{Signals}
        `{ContextOptions} `{TypeHelpers}.

Lemma rejected_range (majType : pyType) (items : list PyObject) (i k : Z)
  (o : PyObject) :
  In (k, o) (rejected majType items i) -> i <= k < i + Z.of_nat (length items).
Proof.
  revert i. induction items as [|x items IH]; intros i; cbn [rejected length].
  - intros [].
  - destruct (conforms majType x).
    + intros Hin. apply IH in Hin. lia.
    + intros [[= <- <-] | Hin]; [lia | apply IH in Hin; lia].
Qed.

Lemma released_rejected (majType : pyType) (items : list PyObject) (i k : Z) :
  released (decrefs (rejected majType items i)) k
  = if existsb (fun t => fst t =? k) (rejected majType items i) then 1%nat else 0%nat.
Proof.
  revert i. induction items as [|x items IH]; intros i; cbn [rejected].
  - reflexivity.
  - destruct (conforms majType x); [apply IH|].
    unfold released in *. cbn [decrefs map filter is_decref_of fst existsb].
    fold (decrefs (rejected majType items (i + 1))).
    destruct (Z.eqb_spec i k) as [->|Hne]; cbn [orb length].
    + rewrite IH.
      destruct (existsb _ _) eqn:E; [|reflexivity].
      apply existsb_exists in E. destruct E as [[k' o'] [Hin Hk]].
      apply rejected_range in Hin. apply Z.eqb_eq in Hk. simpl in Hk. lia.
    + apply IH.
Qed.

Lemma rejected_app (majType : pyType) (l1 l2 : list PyObject) (i : Z) :
  rejected majType (l1 ++ l2) i
  = rejected majType l1 i ++ rejected majType l2 (i + Z.of_nat (length l1)).
Proof.
  revert i. induction l1 as [|x l1 IH]; intros i; cbn [app rejected length].
  - f_equal. lia.
  - replace (i + Z.of_nat (S (length l1))) with (i + 1 + Z.of_nat (length l1)) by lia.
    destruct (conforms majType x); rewrite IH; reflexivity.
Qed.

Lemma quiet_or_interrupted (h : Host) (L : list PyObject) (i : Z) :
  quiet h i (length L) \/
  exists before row after,
    L = before ++ row :: after /\
    quiet h i (length before) /\
    interrupt_flag h || sigint_before_row (i + Z.of_nat (length before)) = true.
Proof.
  revert i. induction L as [|o L IH]; intros i.
  - left. intros k Hk. simpl in Hk. lia.
  - destruct (interrupt_flag h || sigint_before_row i) eqn:E.
    + right. exists [], o, L. split; [reflexivity|]. split.
      * intros k Hk. simpl in Hk. lia.
      * simpl. rewrite Z.add_0_r. exact E.
    + destruct (IH (i + 1)) as [Hq | [before [row [after [-> [Hq Hseen]]]]]].
      * left. intros k Hk. cbn [length] in Hk.
        destruct (Z.eq_dec k i) as [->|Hne]; [exact E | apply Hq; lia].
      * right. exists (o :: before), row, after. split; [reflexivity|]. split.
        -- intros k Hk. cbn [length] in Hk.
           destruct (Z.eq_dec k i) as [->|Hne]; [exact E | apply Hq; lia].
        -- cbn [length].
           replace (i + Z.of_nat (S (length before)))
             with (i + 1 + Z.of_nat (length before)) by lia.
           exact Hseen.
Qed.

Lemma fastBool_body_log log i o st st' :
  same_log log st -> fastBool_body i o st = Ret st' -> same_log log st'.
Proof.
  destruct st as [w h]. unfold same_log, fastBool_body. simpl. intros Hl.
  destruct (PyBool_Check o); intros [= <-]; exact Hl.
Qed.

Lemma fastI64_body_log upcast log i o st st' :
  same_log log st -> fastI64_body upcast i o st = Ret st' -> same_log log st'.
Proof.
  destruct st as [w h]. unfold same_log, fastI64_body, PyErr_Occurred. simpl.
  intros Hl.
  destruct o; simpl; try (destruct (upcast && _));
    try (destruct (fits_int64 z)); simpl; try (destruct (err_indicator h));
    intros [= <-]; exact Hl.
Qed.

Lemma fastF64_body_log upcast log i o st st' :
  same_log log st -> fastF64_body upcast i o st = Ret st' -> same_log log st'.
Proof.
  destruct st as [w h]. unfold same_log, fastF64_body, PyErr_Occurred. simpl.
  intros Hl.
  destruct o; simpl; try (destruct upcast; simpl); try (destruct b; simpl);
    try (destruct (fits_int64 z)); simpl; try (destruct (err_indicator h));
    intros [= <-]; exact Hl.
Qed.

Lemma fastStr_body_log log i o st st' :
  same_log log st -> fastStr_body i o st = Ret st' -> same_log log st'.
Proof.
  destruct st as [w h]. unfold same_log, fastStr_body. simpl. intros Hl.
  destruct (PyUnicode_Check o).
  - intros E. apply assert_returns in E. injection E as <-. exact Hl.
  - intros [= <-]. exact Hl.
Qed.

Lemma serialize_field_log n tc j el c r :
  serialize_field n tc j el c = Ret r ->
  ref_log (row_host (snd r)) = ref_log (row_host c).
Proof.
  unfold serialize_field.
  destruct (is_char tc "b").
  { destruct (negb (PyBool_Check el)); intros [= <-]; reflexivity. }
  destruct (is_char tc "i").
  { destruct (negb (PyLong_CheckExact el)); [intros [= <-]; reflexivity|].
    unfold PyLong_AsLongLong.
    destruct el; try (intros [= <-]; reflexivity).
    destruct (fits_int64 z); intros [= <-]; reflexivity. }
  destruct (is_char tc "f").
  { destruct (negb (PyFloat_CheckExact el)); intros [= <-]; reflexivity. }
  destruct (is_char tc "s").
  { destruct (negb (PyUnicode_Check el)); [intros [= <-]; reflexivity|].
    intros E. apply assert_returns in E. injection E as <-. reflexivity. }
  intros [= <-]. reflexivity.
Qed.

Lemma serialize_fields_log n typeStr els j c r :
  serialize_fields n typeStr els j c = Ret r ->
  ref_log (row_host (snd r)) = ref_log (row_host c).
Proof.
  revert els j c. induction typeStr as [|tc typeStr IH]; intros els j c.
  - simpl. intros [= <-]. reflexivity.
  - destruct els as [|el els]; cbn [serialize_fields].
    + intros [= <-]. reflexivity.
    + destruct (serialize_field n tc j el c) as [r1| |] eqn:E1; cbn [bind];
        try discriminate.
      apply serialize_field_log in E1.
      destruct (fst r1).
      * intros E. apply IH in E. congruence.
      * intros [= <-]. exact E1.
Qed.

Lemma fastTuple_body_log majType typeStr varLenField log i o st st' :
  same_log log st ->
  fastTuple_body majType typeStr varLenField i o st = Ret st' ->
  same_log log st'.
Proof.
  destruct st as [w h]. unfold same_log, fastTuple_body. cbn [snd]. intros Hl.
  destruct (if PyTuple_Check o then _ else false); [|intros [= <-]; exact Hl].
  destruct (serialize_fields _ _ _ _ _) as [r| |] eqn:E; cbn [bind]; try discriminate.
  apply serialize_fields_log in E. cbn [row_host] in E.
  destruct (fst r); intros [= <-]; cbn; congruence.
Qed.

Lemma fast_encoders_keep_log (L : list PyObject) (columns : list pystr)
  (h : Host) (ds : DataSet) (h' : Host) :
  (fastBoolParallelize L columns h = Ret (ds, h') -> ref_log h' = ref_log h) /\
  (forall upcast,
      fastI64Parallelize L columns upcast h = Ret (ds, h') -> ref_log h' = ref_log h) /\
  (forall upcast,
      fastF64Parallelize L columns upcast h = Ret (ds, h') -> ref_log h' = ref_log h) /\
  (fastStrParallelize L columns h = Ret (ds, h') -> ref_log h' = ref_log h) /\
  (forall majType,
      fastMixedSimpleTypeTupleTransfer L majType columns h = Ret (ds, h') ->
      ref_log h' = ref_log h).
Proof.
  repeat split.
  - unfold fastBoolParallelize. destruct (_ =? 0); [intros [= _ <-]; reflexivity|].
    destruct (for_each _ _ _ _) as [st| |] eqn:E; cbn [bind]; try discriminate.
    intros [= _ <-].
    change (same_log (ref_log h) st).
    eapply for_each_invariant with (P := same_log (ref_log h));
      [apply (@fastBool_body_log (ref_log h)) | | exact E]; reflexivity.
  - intros upcast. unfold fastI64Parallelize.
    destruct (_ =? 0); [intros [= _ <-]; reflexivity|].
    destruct (for_each _ _ _ _) as [st| |] eqn:E; cbn [bind]; try discriminate.
    intros [= _ <-].
    change (same_log (ref_log h) st).
    eapply for_each_invariant with (P := same_log (ref_log h));
      [apply (@fastI64_body_log upcast (ref_log h)) | | exact E]; reflexivity.
  - intros upcast. unfold fastF64Parallelize. intros E0. apply assert_returns in E0.
    revert E0. destruct (_ =? 0); [intros [= _ <-]; reflexivity|].
    destruct (for_each _ _ _ _) as [st| |] eqn:E; cbn [bind]; try discriminate.
    intros [= _ <-].
    change (same_log (ref_log h) st).
    eapply for_each_invariant with (P := same_log (ref_log h));
      [apply (@fastF64_body_log upcast (ref_log h)) | | exact E]; reflexivity.
  - unfold fastStrParallelize. destruct (_ =? 0); [intros [= _ <-]; reflexivity|].
    destruct (for_each _ _ _ _) as [st| |] eqn:E; cbn [bind]; try discriminate.
    intros [= _ <-].
    change (same_log (ref_log h) st).
    eapply for_each_invariant with (P := same_log (ref_log h));
      [apply (@fastStr_body_log (ref_log h)) | | exact E]; reflexivity.
  - intros majType. unfold fastMixedSimpleTypeTupleTransfer. intros E0.
    apply assert_returns in E0. apply assert_returns in E0. revert E0.
    destruct (_ =? 0); [intros [= _ <-]; reflexivity|].
    destruct (makeTypeStr majType) as [typeStr varLenField].
    destruct (for_each _ _ _ _) as [st| |] eqn:E; cbn [bind]; try discriminate.
    intros [= _ <-].
    change (same_log (ref_log h) st).
    eapply for_each_invariant with (P := same_log (ref_log h));
      [apply (@fastTuple_body_log majType typeStr varLenField (ref_log h)) | | exact E]; reflexivity.
Qed.

(** What [parallelizeAnyType] leaves behind, from a state with an empty
    quarantine list: either the transfer completes and every quarantined
    object has one reference acquired and none released, or it is
    interrupted, the list is empty and every object that does not conform has
    as many references released as acquired. *)
Lemma slow_encoder_references (L : list PyObject) (majType : pyType)
  (columns : list pystr) (h : Host) (ds : DataSet) (h' : Host) :
  badParallelizeObjects h = [] ->
  parallelizeAnyType L majType columns h = Ret (ds, h') ->
  (ds = parallelizeRows (converted majType L) columns /\
   badParallelizeObjects h' = rejected majType L 0 /\
   forall i o, In (i, o) (badParallelizeObjects h') ->
               acquired (events_since h h') i = 1%nat /\
               released (events_since h h') i = 0%nat)
  \/
  (ds = makeError "interrupted transfer" /\
   badParallelizeObjects h' = [] /\
   forall i o, In (i, o) (rejected majType L 0) ->
               acquired (events_since h h') i = released (events_since h h') i).
Proof.
  intros Hempty. unfold parallelizeAnyType.
  destruct (quiet_or_interrupted h L 0)
    as [Hq | [before [row [after [-> [Hq Hseen]]]]]].
  - rewrite (@slow_loop_quiet _ _ majType L 0 [] h Hq). intros [= <- <-]. left.
    cbn [badParallelizeObjects]. rewrite Hempty. cbn [app].
    split; [reflexivity|]. split; [reflexivity|].
    intros i o Hin.
    erewrite events_since_app by (cbn; reflexivity).
    apply rejected_range in Hin.
    rewrite acquired_increfs, released_increfs.
    replace (0 <=? i) with true by (symmetry; apply Z.leb_le; lia).
    replace (i <? 0 + Z.of_nat (length L)) with true by (symmetry; apply Z.ltb_lt; lia).
    split; reflexivity.
  - rewrite (@slow_loop_interrupted _ _ majType before row after 0 [] h Hq Hseen).
    intros [= <- <-]. right.
    split; [reflexivity|]. split; [reflexivity|].
    intros i o Hin.
    erewrite events_since_app by (cbn; rewrite <- app_assoc; reflexivity).
    rewrite Hempty. cbn [app].
    rewrite acquired_app, released_app, acquired_decrefs, released_increfs,
      acquired_increfs, released_rejected.
    rewrite rejected_app in Hin. apply in_app_iff in Hin.
    destruct Hin as [Hin | Hin].
    + pose proof (rejected_range _ _ _ _ _ Hin) as Hr.
      replace (0 <=? i) with true by (symmetry; apply Z.leb_le; lia).
      replace (i <? 0 + Z.of_nat (length before)) with true
        by (symmetry; apply Z.ltb_lt; lia).
      replace (existsb (fun t => fst t =? i) (rejected majType before 0)) with true.
      * reflexivity.
      * symmetry. apply existsb_exists. exists (i, o). split; [exact Hin|].
        apply Z.eqb_refl.
    + pose proof (rejected_range _ _ _ _ _ Hin) as Hr.
      replace (i <? 0 + Z.of_nat (length before)) with false
        by (symmetry; apply Z.ltb_ge; lia).
      rewrite andb_false_r.
      destruct (existsb _ _) eqn:E; [|reflexivity].
      apply existsb_exists in E. destruct E as [[k' o'] [Hin' Hk]].
      apply rejected_range in Hin'. apply Z.eqb_eq in Hk. simpl in Hk. lia.
Qed.

(** C2, amended.  Every call to [parallelize] that returns leaves the
    quarantine list empty.  The fast encoders (bool, I64, F64, str, tuple of
    scalars) put borrowed objects on the list: they acquire and release no
    reference at all, so that the references acquired for quarantined objects
    and those released are equal in number (none).  The slow encoder, started
    with an empty list, acquires exactly one reference for every object it
    quarantines; when it is interrupted it releases each of them before it
    returns, and the references acquired for objects that do not conform
    equal those released. *)
Theorem quarantine_references (L : list PyObject) (columns : list pystr)
  (h : Host) (ds : DataSet) (h' : Host) :
  (forall schema,
      parallelize L columns schema h = Ret (ds, h') ->
      badParallelizeObjects h' = []) /\
  ((fastBoolParallelize L columns h = Ret (ds, h') -> ref_log h' = ref_log h) /\
   (forall upcast,
       fastI64Parallelize L columns upcast h = Ret (ds, h') -> ref_log h' = ref_log h) /\
   (forall upcast,
       fastF64Parallelize L columns upcast h = Ret (ds, h') -> ref_log h' = ref_log h) /\
   (fastStrParallelize L columns h = Ret (ds, h') -> ref_log h' = ref_log h) /\
   (forall majType,
       fastMixedSimpleTypeTupleTransfer L majType columns h = Ret (ds, h') ->
       ref_log h' = ref_log h)) /\
  (forall majType,
      badParallelizeObjects h = [] ->
      parallelizeAnyType L majType columns h = Ret (ds, h') ->
      (ds = parallelizeRows (converted majType L) columns /\
       badParallelizeObjects h' = rejected majType L 0 /\
       forall i o, In (i, o) (badParallelizeObjects h') ->
                   acquired (events_since h h') i = 1%nat /\
                   released (events_since h h') i = 0%nat)
      \/
      (ds = makeError "interrupted transfer" /\
       badParallelizeObjects h' = [] /\
       forall i o, In (i, o) (rejected majType L 0) ->
                   acquired (events_since h h') i
                   = released (events_since h h') i)).
Proof.
  split; [|split].
  - intros schema. unfold parallelize.
    destruct (match schema with Some t => Ret t | None => inferType L end)
      as [majType| |]; cbn [bind]; try discriminate.
    destruct (dispatch L columns majType (clear_bad h)) as [[[t ds1] h1]| |];
      cbn [bind]; try discriminate.
    destruct (badParallelizeObjects h1) as [|x bad] eqn:E; cbn.
    + intros [= _ <-]. exact E.
    + intros [= _ <-]. reflexivity.
  - apply fast_encoders_keep_log.
  - intros majType. apply slow_encoder_references.
Qed.

End References.

(** The bool encoder on [[1]]: the integer is on the quarantine list and no
    reference was acquired for it. *)
Lemma fast_quarantine_is_borrowed :
  exists ds h',
    @dispatch release_build demo_driver demo_helpers demo_order no_signal
       demo_options demo_type_helpers [Py_Long 1] [] BOOLEAN fresh_host
      = Ret (BOOLEAN, ds, h') /\
    badParallelizeObjects h' = [(0, Py_Long 1)] /\
    acquired (ref_log h') 0 = 0%nat /\
    ~ quarantine_owned h'.
Proof.
  eexists _, _. split; [vm_compute; reflexivity|].
  split; [reflexivity|]. split; [reflexivity|].
  intros Howned. specialize (Howned 0 (Py_Long 1) (or_introl eq_refl)).
  vm_compute in Howned. discriminate.
Qed.

(** The slow encoder on [[None, None, 1]] with row type NULL: the integer is
    quarantined with one reference acquired; [parallelize] empties the list
    and releases nothing. *)
Example slow_quarantine_cleared_without_release :
  exists ds h',
    @parallelize release_build demo_driver demo_helpers demo_order no_signal
       demo_options demo_type_helpers
       [Py_None; Py_None; Py_Long 1] [] (Some NULLVALUE) fresh_host
      = Ret (ds, h') /\
    badParallelizeObjects h' = [] /\
    acquired (ref_log h') 2 = 1%nat /\
    released (ref_log h') 2 = 0%nat.
Proof. eexists _, _. split; [vm_compute; reflexivity|]. repeat split. Qed.

(* ------------------------------------------------------------------------- *)
(** ** Exceptions that leave [parallelize] *)

Lemma no_throw_ret {A : Type} (a : A) : no_throw (Ret a).
Proof. intros what. discriminate. Qed.

Lemma no_throw_bind {A B : Type} (m : Outcome A) (k : A -> Outcome B) :
  no_throw m -> (forall a, no_throw (k a)) -> no_throw (bind m k).
Proof.
  intros Hm Hk what. destruct m as [a|w|w]; cbn [bind].
  - apply Hk.
  - intros _. apply (Hm w). reflexivity.
  - discriminate.
Qed.

Lemma no_throw_assert `{Build} {A : Type} (cond : bool) (what : string) (k : Outcome A) :
  no_throw k -> no_throw (assert_ cond what k).
Proof.
  intros Hk w. unfold assert_. destruct NDEBUG; [apply Hk|].
  destruct cond; [apply Hk | discriminate].
Qed.

Lemma no_throw_for_each {S : Type} (body : Z -> PyObject -> S -> Outcome S) :
  (forall i o s, no_throw (body i o s)) ->
  forall items i s, no_throw (for_each body items i s).
Proof.
  intros Hbody. induction items as [|o items IH]; intros i s; cbn [for_each].
  - apply no_throw_ret.
  - apply no_throw_bind; [apply Hbody | intros a; apply IH].
Qed.

(** Steps through the conditionals, assertions and sequencing of a model
    function that raises no exception. *)
Ltac step_no_throw :=
  match goal with
  | |- no_throw (Ret _) => apply no_throw_ret
  | |- no_throw (AssertFail _) => intros ?; discriminate
  | |- no_throw (assert_ _ _ _) => apply no_throw_assert
  | |- no_throw (bind _ _) => apply no_throw_bind; [|intros ?]
  | |- no_throw (for_each _ _ _ _) => apply no_throw_for_each; intros ? ? ?
  | |- no_throw (if ?c then _ else _) => destruct c
  | |- no_throw (let '(_, _) := ?x in _) => destruct x
  | |- no_throw (match ?x with _ => _ end) => destruct x
  end.

Section Exceptions.
Context `{Build} `{Driver} `{PythonHelpers} `{TypeOrder} `{Signals}
        `{ContextOptions} `{TypeHelpers}.

Lemma inferType_no_throw (L : list PyObject) : no_throw (inferType L).
Proof.
  intros what. unfold inferType.
  destruct (buildRowTypeFromSamples_returns
              (fold_left (fun m o => map_count m (mapPythonClassToTuplexType o))
                         (sample L) [])
              (sampleSize L) OPTIONAL_THRESHOLD) as [t ->].
  discriminate.
Qed.

Lemma infer_columns_no_throw (cols : list (pystr * list PyObject)) :
  no_throw (infer_columns cols).
Proof.
  induction cols as [|[c vals] cols IH]; cbn [infer_columns].
  - apply no_throw_ret.
  - apply no_throw_bind; [apply inferType_no_throw|]. intros t.
    apply no_throw_bind; [apply IH|]. intros m. apply no_throw_ret.
Qed.

Lemma serialize_fields_no_throw (n : Z) (typeStr : list ascii)
  (els : list PyObject) (j : Z) (c : RowCursor) :
  no_throw (serialize_fields n typeStr els j c).
Proof.
  revert els j c. induction typeStr as [|tc typeStr IH]; intros els j c;
    cbn [serialize_fields].
  - apply no_throw_ret.
  - destruct els as [|el els]; [apply no_throw_ret|].
    apply no_throw_bind.
    + unfold serialize_field. repeat step_no_throw.
    + intros r. destruct (fst r); [apply IH | apply no_throw_ret].
Qed.

Lemma fast_encoders_no_throw (L : list PyObject) (columns : list pystr) (h : Host) :
  no_throw (fastBoolParallelize L columns h) /\
  (forall upcast, no_throw (fastI64Parallelize L columns upcast h)) /\
  (forall upcast, no_throw (fastF64Parallelize L columns upcast h)) /\
  no_throw (fastStrParallelize L columns h) /\
  (forall majType, no_throw (fastMixedSimpleTypeTupleTransfer L majType columns h)).
Proof.
  repeat split.
  - unfold fastBoolParallelize, fastBool_body. repeat step_no_throw.
  - intros upcast. unfold fastI64Parallelize, fastI64_body. repeat step_no_throw.
  - intros upcast. unfold fastF64Parallelize, fastF64_body. repeat step_no_throw.
  - unfold fastStrParallelize, fastStr_body. repeat step_no_throw.
  - intros majType. unfold fastMixedSimpleTypeTupleTransfer.
    do 3 step_no_throw; [apply no_throw_ret|].
    destruct (makeTypeStr majType) as [typeStr varLenField].
    apply no_throw_bind; [|intros st; apply no_throw_ret].
    apply no_throw_for_each. intros i o [w h0]. unfold fastTuple_body.
    step_no_throw; [|apply no_throw_ret].
    apply no_throw_bind; [apply serialize_fields_no_throw|].
    intros r. repeat step_no_throw.
Qed.

Lemma strDictParallelize_no_throw (L : list PyObject) (rowType : pyType)
  (columns : list pystr) (h : Host) :
  no_throw (strDictParallelize L rowType columns h).
Proof.
  unfold strDictParallelize, strDict_body. repeat step_no_throw.
Qed.

Lemma parallelizeAnyType_no_throw (L : list PyObject) (majType : pyType)
  (columns : list pystr) (h : Host) :
  no_throw (parallelizeAnyType L majType columns h).
Proof.
  unfold parallelizeAnyType.
  destruct (slow_loop majType L 0 [] h) as [[ds | v] h']; apply no_throw_ret.
Qed.

(** The projector raises its exception, and no other, exactly when no column
    reaches the threshold and no element of the list is a dictionary whose
    keys are all strings. *)
Lemma projector_throws (L : list PyObject) (normalThreshold : float) (h : Host)
  (what : string) :
  inferColumnsFromDictObjects L normalThreshold h = Throw what ->
  what = projector_failure /\ first_str_dict L = None.
Proof.
  unfold inferColumnsFromDictObjects.
  destruct (scan_sample (sample L) 0 0 [] h) as [[num_dicts cols] h1].
  destruct (infer_columns _) as [m|w|w] eqn:E; cbn [bind].
  - destruct m; [|discriminate].
    destruct (first_str_dict L); [discriminate|].
    intros [= <-]. split; reflexivity.
  - apply infer_columns_no_throw in E. contradiction.
  - discriminate.
Qed.

Lemma scan_sample_no_dict (items : list PyObject) (i num_dicts : Z)
  (cols : list (pystr * list PyObject)) (h : Host) :
  (forall o, In o items -> PyDict_Check o = false) ->
  fst (fst (scan_sample items i num_dicts cols h)) = num_dicts /\
  snd (fst (scan_sample items i num_dicts cols h)) = cols.
Proof.
  revert i h. induction items as [|o items IH]; intros i h Hno; cbn [scan_sample].
  - split; reflexivity.
  - rewrite (Hno o (or_introl eq_refl)). apply IH.
    intros o' Hin. apply Hno. right. exact Hin.
Qed.

Lemma projector_throws_without_dicts (L : list PyObject) (normalThreshold : float)
  (h : Host) :
  (forall o, In o L -> PyDict_Check o = false) ->
  inferColumnsFromDictObjects L normalThreshold h = Throw projector_failure.
Proof.
  intros Hno. unfold inferColumnsFromDictObjects.
  assert (Hs : forall o, In o (sample L) -> PyDict_Check o = false).
  { intros o Hin. apply Hno. unfold sample in Hin.
    rewrite <- (firstn_skipn (Z.to_nat (sampleSize L)) L).
    apply in_or_app. left. exact Hin. }
  pose proof (scan_sample_no_dict (sample L) 0 0 [] h Hs) as [_ Hcols].
  destruct (scan_sample (sample L) 0 0 [] h) as [[num_dicts cols] h1].
  cbn [fst snd] in Hcols. subst cols. cbn [filter infer_columns bind].
  replace (first_str_dict L) with (@None PyObject); [reflexivity|].
  symmetry. unfold first_str_dict.
  clear - Hno. induction L as [|o L IH]; [reflexivity|].
  cbn [find]. rewrite (Hno o (or_introl eq_refl)). cbn [andb].
  apply IH. intros o' Hin. apply Hno. right. exact Hin.
Qed.

Lemma dispatch_throws (L : list PyObject) (columns : list pystr)
  (majType : pyType) (h : Host) (what : string) :
  dispatch L columns majType h = Throw what ->
  what = projector_failure /\ first_str_dict L = None /\
  is_string_dict majType = true.
Proof.
  unfold dispatch. fold (is_string_dict majType).
  destruct (is_string_dict majType).
  - destruct (inferColumnsFromDictObjects L NORMALCASE_THRESHOLD h)
      as [[dictTypes h1]|w|w] eqn:E; cbn [bind].
    + intros E2. exfalso. revert E2.
      apply no_throw_bind; [apply strDictParallelize_no_throw|].
      intros r. apply no_throw_ret.
    + intros [= <-]. apply projector_throws in E. tauto.
    + discriminate.
  - intros E. exfalso. revert E.
    pose proof (fast_encoders_no_throw L columns h) as [Hb [Hi [Hf [Hs Ht]]]].
    apply no_throw_bind; [|intros r; apply no_throw_ret].
    repeat match goal with
           | |- no_throw (if ?c then _ else _) => destruct c
           end;
      auto using parallelizeAnyType_no_throw, no_throw_ret.
Qed.

(** Once the arguments are read, the one exception that leaves
    [parallelize] is the failure of the dict column projector: it is raised,
    with the message of line 986, only when the row type is a dictionary
    type with string keys and no element of the input is a dictionary whose
    keys are all strings, and it is raised whenever a schema of such a type
    is given for an input that contains no dictionary.  An unsupported row
    type (UNKNOWN) becomes an error dataset that is returned normally. *)
Lemma parallelize_throws (L : list PyObject) (columns : list pystr) (h : Host) :
  (forall schema what,
      parallelize L columns schema h = Throw what ->
      what = projector_failure /\
      first_str_dict L = None /\
      exists majType,
        is_string_dict majType = true /\
        (schema = Some majType \/ (schema = None /\ inferType L = Ret majType))) /\
  (forall majType,
      is_string_dict majType = true ->
      (forall o, In o L -> PyDict_Check o = false) ->
      parallelize L columns (Some majType) h = Throw projector_failure) /\
  parallelize L columns (Some UNKNOWN) h
    = Ret (makeError (unsupported_msg UNKNOWN), clear_bad h).
Proof.
  split; [|split].
  - intros schema what. unfold parallelize.
    destruct schema as [t|]; cbn [bind].
    + destruct (dispatch L columns t (clear_bad h)) as [[[t1 ds] h1]|w|w] eqn:E;
        cbn [bind]; try discriminate.
      intros [= <-]. apply dispatch_throws in E. destruct E as [E1 [E2 E3]].
      split; [exact E1|]. split; [exact E2|]. exists t. auto.
    + destruct (inferType L) as [t|w|w] eqn:Et; cbn [bind]; try discriminate.
      * destruct (dispatch L columns t (clear_bad h)) as [[[t1 ds] h1]|w|w] eqn:E;
          cbn [bind]; try discriminate.
        intros [= <-]. apply dispatch_throws in E. destruct E as [E1 [E2 E3]].
        split; [exact E1|]. split; [exact E2|]. exists t. auto.
      * apply inferType_no_throw in Et. contradiction.
  - intros majType Hdict Hno. unfold parallelize. cbn [bind].
    unfold dispatch. fold (is_string_dict majType). rewrite Hdict.
    rewrite (projector_throws_without_dicts L NORMALCASE_THRESHOLD (clear_bad h) Hno).
    reflexivity.
  - reflexivity.
Qed.

(** C5, amended.  [parallelize] catches no exception.  An exception that
    leaves it was raised by the extraction of the column names (line 634),
    by the decoding of the schema (line 655), or is the failure of the dict
    column projector (line 986); the last is raised only when the row type
    is a dictionary type with string keys and no element of the input is a
    dictionary whose keys are all strings, and whenever a schema of such a
    type is given for an input that contains no dictionary.  Each of the
    three leaves the call as it was raised.  An unsupported row type
    (UNKNOWN) becomes an error dataset that is returned normally.  The
    driver, the backend context and the type helpers, which the encoders
    call, are taken to return. *)
Theorem parallelize_exceptions `{ArgumentHelpers} (L : list PyObject)
  (cols schema : PyObject) (h : Host) :
  (forall what,
      PythonContext_parallelize L cols schema h = Throw what ->
      extractFromListOfStrings cols "columns " = Throw what \/
      (is_Py_None schema = false /\ decodePythonSchema schema = Throw what) \/
      (what = projector_failure /\
       first_str_dict L = None /\
       exists majType,
         is_string_dict majType = true /\
         ((is_Py_None schema = false /\ decodePythonSchema schema = Ret majType) \/
          (is_Py_None schema = true /\ inferType L = Ret majType)))) /\
  (forall what,
      extractFromListOfStrings cols "columns " = Throw what ->
      PythonContext_parallelize L cols schema h = Throw what) /\
  (forall columns what,
      extractFromListOfStrings cols "columns " = Ret columns ->
      is_Py_None schema = false ->
      decodePythonSchema schema = Throw what ->
      PythonContext_parallelize L cols schema h = Throw what) /\
  (forall columns majType,
      extractFromListOfStrings cols "columns " = Ret columns ->
      is_Py_None schema = false ->
      decodePythonSchema schema = Ret majType ->
      is_string_dict majType = true ->
      (forall o, In o L -> PyDict_Check o = false) ->
      PythonContext_parallelize L cols schema h = Throw projector_failure) /\
  (forall columns,
      extractFromListOfStrings cols "columns " = Ret columns ->
      is_Py_None schema = false ->
      decodePythonSchema schema = Ret UNKNOWN ->
      PythonContext_parallelize L cols schema h
      = Ret (makeError (unsupported_msg UNKNOWN), clear_bad h)).
Proof.
  unfold PythonContext_parallelize.
  split; [|split; [|split; [|split]]].
  - intros what.
    destruct (extractFromListOfStrings cols "columns ") as [columns|w|w];
      cbn [bind]; [|intros [= <-]; left; reflexivity | discriminate].
    destruct (is_Py_None schema); cbn [negb bind].
    + intros E. right. right.
      destruct (parallelize_throws L columns h) as [Hthrow _].
      destruct (Hthrow None what E) as [E1 [E2 [majType [Hd Hs]]]].
      split; [exact E1|]. split; [exact E2|]. exists majType. split; [exact Hd|].
      right. destruct Hs as [Hs | [_ Hs]]; [discriminate | auto].
    + destruct (decodePythonSchema schema) as [t|w|w]; cbn [bind];
        [|intros [= <-]; right; left; auto | discriminate].
      intros E. right. right.
      destruct (parallelize_throws L columns h) as [Hthrow _].
      destruct (Hthrow (Some t) what E) as [E1 [E2 [majType [Hd Hs]]]].
      split; [exact E1|]. split; [exact E2|]. exists majType. split; [exact Hd|].
      left. destruct Hs as [Hs | [Hs _]]; [|discriminate].
      injection Hs as ->. auto.
  - intros what ->. reflexivity.
  - intros columns what -> -> ->. reflexivity.
  - intros columns majType -> -> -> Hdict Hno. cbn [negb bind].
    destruct (parallelize_throws L columns h) as [_ [Hraise _]].
    apply Hraise; assumption.
  - intros columns -> -> ->. cbn [negb bind].
    destruct (parallelize_throws L columns h) as [_ [_ Hunk]]. exact Hunk.
Qed.

End Exceptions.

(** A schema [{str: int}] for the list [[1, 2]]: [parallelize] raises. *)
Lemma parallelize_raises :
  @parallelize release_build demo_driver demo_helpers demo_order no_signal
     demo_options demo_type_helpers
     [Py_Long 1; Py_Long 2] [] (Some (TDict STRING I64)) fresh_host
  = Throw projector_failure.
Proof. vm_compute. reflexivity. Qed.

(* ------------------------------------------------------------------------- *)
(** ** Rows the dict encoder neither writes nor quarantines *)

Section DictEncoder.
Context `{Build} `{Driver} `{PythonHelpers} `{TypeHelpers}.

(** C4.  The dict-as-tuple encoder tests [PyDict_Check(obj)] and has no
    branch for the objects that fail it: such an element is neither written
    nor put on the quarantine list.  For an input of one element that is not
    a dictionary ([N = 1]) the call returns one partition with no row and
    leaves the quarantine list as it was ([k = 0]): the partitions hold [0]
    rows, not [N - k = 1]. *)
Theorem dict_encoder_drops_non_dict (o : PyObject) (rowType : pyType)
  (columns : list pystr) (h : Host) :
  PyDict_Check o = false ->
  isTupleType rowType = true ->
  length (parameters rowType) = length columns ->
  (forall i st, strDict_body rowType columns i o st = Ret st) /\
  exists p,
    strDictParallelize [o] rowType columns h
      = Ret (fromPartitions rowType [p] columns, h) /\
    numRows p = 0 /\
    total_rows (fromPartitions rowType [p] columns) = 0.
Proof.
  intros Hdict Htuple Hlen.
  assert (Hbody : forall i st, strDict_body rowType columns i o st = Ret st).
  { intros i [w h0]. unfold strDict_body. rewrite Hdict. reflexivity. }
  split; [exact Hbody|].
  unfold strDictParallelize.
  rewrite assert_holds by exact Htuple.
  rewrite assert_holds by (apply Nat.eqb_eq; exact Hlen).
  cbn [length Z.of_nat Z.eqb Pos.of_succ_nat for_each bind].
  rewrite Hbody. cbn [bind fst snd close_writer open_writer partitions partition app].
  eexists. split; [reflexivity|]. split; reflexivity.
Qed.

End DictEncoder.

Lemma dict_encoder_drops_non_dict_witness :
  PyDict_Check (Py_Long 5) = false /\
  exists p,
    @strDictParallelize release_build demo_driver demo_helpers demo_type_helpers
       [Py_Long 5] (TTuple [I64]) [pystr_of_string "a"] fresh_host
      = Ret (fromPartitions (TTuple [I64]) [p] [pystr_of_string "a"], fresh_host) /\
    numRows p = 0 /\
    total_rows (fromPartitions (TTuple [I64]) [p] [pystr_of_string "a"]) = 0.
Proof.
  split; [reflexivity|].
  exact (proj2 (@dict_encoder_drops_non_dict release_build demo_driver demo_helpers
                  demo_type_helpers (Py_Long 5) (TTuple [I64])
                  [pystr_of_string "a"] fresh_host eq_refl eq_refl eq_refl)).
Defined.

(** The same through [parallelize]: two dictionaries and an integer give two
    rows, with nothing on the quarantine list when the encoder returns. *)
Example parallelize_drops_non_dict :
  exists majType ds h',
    @dispatch release_build demo_driver demo_helpers demo_order no_signal
       demo_options demo_type_helpers
       [Py_Dict [(str "a", Py_Long 1)]; Py_Dict [(str "a", Py_Long 2)]; Py_Long 5]
       [] (TDict STRING I64) fresh_host
      = Ret (majType, ds, h') /\
    majType = TTuple [I64] /\
    total_rows ds = 2 /\
    badParallelizeObjects h' = [].
Proof. eexists _, _, _. split; [vm_compute; reflexivity|]. repeat split. Qed.

(* ------------------------------------------------------------------------- *)
(** ** The fast tuple encoder writes whole rows *)

Unset Implicit Arguments.

Lemma utf8_of_code_point_length (c : Z) : (1 <= length (utf8_of_code_point c))%nat.
Proof.
  unfold utf8_of_code_point.
  destruct (c <? 128); [simpl; lia|].
  destruct (c <? 2048); [simpl; lia|].
  destruct (c <? 65536); simpl; lia.
Qed.

Lemma utf8_encode_length (s : pystr) : (length s <= length (utf8_encode s))%nat.
Proof.
  induction s as [|c s IH]; [simpl; lia|].
  unfold utf8_encode in *. cbn [flat_map length]. rewrite length_app.
  pose proof (utf8_of_code_point_length c). lia.
Qed.

Section TupleEncoder.
Context `{Build} `{Driver} `{PythonHelpers}.

Lemma simple_char_cases (tc : ascii) :
  simple_char tc = true ->
  tc = "b"%char \/ tc = "i"%char \/ tc = "f"%char \/ tc = "s"%char.
Proof.
  unfold simple_char, is_char. intros E.
  repeat (apply orb_true_iff in E; destruct E as [E | E]);
    apply Ascii.eqb_eq in E; auto.
Qed.

Lemma tail_size_length (tc : ascii) (el : PyObject) :
  field_ok tc el = true ->
  0 <= tail_size tc el /\ Z.of_nat (length (field_tail tc el)) = tail_size tc el.
Proof.
  unfold field_ok, tail_size, field_tail.
  destruct (is_char tc "s") eqn:Es.
  - apply Ascii.eqb_eq in Es. subst tc. cbn.
    destruct el; try discriminate. intros _. cbn.
    pose proof (utf8_encode_length s) as Hl.
    rewrite firstn_length_le by (rewrite length_app; cbn; lia). lia.
  - intros _. simpl. lia.
Qed.

Lemma serialize_field_spec (n : Z) (tc : ascii) (j : Z) (el : PyObject)
  (c : RowCursor) (r : bool * RowCursor) :
  simple_char tc = true ->
  serialize_field n tc j el c = Ret r ->
  fst r = field_ok tc el /\
  badParallelizeObjects (row_host (snd r)) = badParallelizeObjects (row_host c) /\
  (fst r = false -> snd r = c) /\
  (fst r = true ->
   row_ptr (snd r) = row_ptr c + 8 /\
   rowVarFieldSizes (snd r) = rowVarFieldSizes c + tail_size tc el /\
   forall x, row_mem (snd r) x
             = write_field (row_mem c) (row_ptr c) n tc j el (rowVarFieldSizes c) x).
Proof.
  intros Hs. apply simple_char_cases in Hs.
  destruct Hs as [-> | [-> | [-> | ->]]]; unfold serialize_field, field_ok, write_field,
    tail_size, field_tail, slot_value; cbn [is_char Ascii.eqb Bool.eqb andb].
  - destruct (PyBool_Check el); cbn [negb]; intros [= <-]; cbn [fst snd].
    + repeat split; try discriminate; cbn; try lia.
      intros x. rewrite memcpy_outside by lia. reflexivity.
    + repeat split; try discriminate.
  - destruct (PyLong_CheckExact el) eqn:El; cbn [negb].
    + destruct el; try discriminate. unfold PyLong_AsLongLong, long_long_value.
      destruct (fits_int64 z); intros [= <-]; cbn [fst snd].
      * repeat split; try discriminate; cbn; try lia.
        intros x. rewrite memcpy_outside by lia. reflexivity.
      * repeat split; try discriminate; cbn; try lia.
        intros x. rewrite memcpy_outside by lia. reflexivity.
    + intros [= <-]. repeat split; try discriminate.
  - destruct (PyFloat_CheckExact el); cbn [negb]; intros [= <-]; cbn [fst snd].
    + repeat split; try discriminate; cbn; try lia.
      intros x. rewrite memcpy_outside by lia. reflexivity.
    + repeat split; try discriminate.
  - destruct (PyUnicode_Check el) eqn:El; cbn [negb].
    + intros E. apply assert_returns in E. injection E as <-. cbn [fst snd].
      repeat split; try discriminate; cbn; try lia.
      intros x. unfold memcpy.
      destruct ((_ <=? x) && (x <? _)) eqn:Er; [|reflexivity].
      rewrite nth_firstn.
      apply andb_true_iff in Er. destruct Er as [E1 E2].
      apply Z.leb_le in E1. apply Z.ltb_lt in E2.
      replace (Z.to_nat _ <? Z.to_nat _)%nat with true; [reflexivity|].
      symmetry. apply Nat.ltb_lt. lia.
    + intros [= <-]. repeat split; try discriminate.
Qed.

Lemma write_field_facts (m : Memory) (p n : Z) (tc : ascii) (j : Z)
  (el : PyObject) (T : Z) :
  0 <= T -> j < n -> field_ok tc el = true ->
  let wf := write_field m p n tc j el T in
  (forall x, x < p -> wf x = m x) /\
  (forall x, p + 8 <= x < p + ((n + 1 - j) * 8 + T) -> wf x = m x) /\
  load_bytes wf p 8 = le_split 8 (slot_value n tc j el T) /\
  load_bytes wf (p + ((n + 1 - j) * 8 + T)) (length (field_tail tc el))
  = field_tail tc el.
Proof.
  intros HT Hj Hok wf. subst wf. unfold write_field.
  destruct (tail_size_length tc el Hok) as [Hnn Hlen].
  repeat split.
  - intros x Hx. rewrite memcpy_outside by lia. unfold store64.
    apply memcpy_outside. lia.
  - intros x Hx. rewrite memcpy_outside by lia. unfold store64.
    apply memcpy_outside. lia.
  - rewrite load_bytes_memcpy_disjoint by (cbn; lia).
    apply load_bytes_store64_same.
  - rewrite <- Hlen. rewrite load_bytes_memcpy_same by lia.
    apply firstn_all.
Qed.

Lemma serialize_fields_spec (n : Z) (ts : list ascii) :
  forall (es : list PyObject) (j : Z) (c : RowCursor) (r : bool * RowCursor),
  forallb simple_char ts = true ->
  length ts = length es ->
  0 <= j -> j + Z.of_nat (length ts) = n ->
  0 <= rowVarFieldSizes c ->
  serialize_fields n ts es j c = Ret r ->
  fst r = fields_ok ts es /\
  badParallelizeObjects (row_host (snd r)) = badParallelizeObjects (row_host c) /\
  (forall x, x < row_ptr c -> row_mem (snd r) x = row_mem c x) /\
  (fst r = true ->
   row_ptr (snd r) = row_ptr c + 8 * Z.of_nat (length ts) /\
   rowVarFieldSizes (snd r) = rowVarFieldSizes c + row_tail_size ts es /\
   0 <= row_tail_size ts es /\
   Z.of_nat (length (row_tail ts es)) = row_tail_size ts es /\
   (forall x,
       row_ptr c + 8 * Z.of_nat (length ts) <= x
         < row_ptr c + ((n + 1 - j) * 8 + rowVarFieldSizes c) ->
       row_mem (snd r) x = row_mem c x) /\
   load_bytes (row_mem (snd r)) (row_ptr c) (8 * length ts)
   = row_slots n ts es j (rowVarFieldSizes c) /\
   load_bytes (row_mem (snd r))
     (row_ptr c + ((n + 1 - j) * 8 + rowVarFieldSizes c))
     (length (row_tail ts es))
   = row_tail ts es).
Proof.
  induction ts as [|tc ts IH]; intros es j c r Hsimple Hlen Hj Hn HT.
  - destruct es; [|discriminate]. cbn [serialize_fields]. intros [= <-].
    cbn. split; [reflexivity|]. split; [reflexivity|]. split; [reflexivity|].
    intros _. repeat split; try lia; auto.
  - destruct es as [|el es]; [discriminate|].
    cbn [forallb] in Hsimple. apply andb_true_iff in Hsimple.
    destruct Hsimple as [Hs1 Hs]. cbn [length] in Hlen, Hn.
    injection Hlen as Hlen.
    cbn [serialize_fields].
    destruct (serialize_field n tc j el c) as [r1| |] eqn:E1; cbn [bind];
      try discriminate.
    destruct (serialize_field_spec n tc j el c r1 Hs1 E1)
      as [Hok1 [Hbad1 [Hfalse1 Htrue1]]].
    cbn [fields_ok row_tail row_tail_size row_slots].
    destruct (fst r1) eqn:Hf1.
    + destruct (Htrue1 eq_refl) as [Hp1 [HT1 Hm1]]. clear Hfalse1 Htrue1.
      symmetry in Hok1.
      destruct (tail_size_length tc el Hok1) as [Hnn1 Hlen1].
      destruct (write_field_facts (row_mem c) (row_ptr c) n tc j el
                  (rowVarFieldSizes c) HT ltac:(lia) Hok1)
        as [Wbelow [Wgap [Wslot Wtail]]].
      intros E. 
      destruct (IH es (j + 1) (snd r1) r Hs Hlen ltac:(lia) ltac:(lia) ltac:(lia) E)
        as [Hok [Hbad [Hbelow Htrue]]].
      rewrite Hok1. cbn [andb].
      split; [exact Hok|]. split; [congruence|]. split.
      { intros x Hx. rewrite Hbelow by lia. rewrite Hm1. apply Wbelow. exact Hx. }
      intros Hr. destruct (Htrue Hr) as [Hp [HTr [Hnn [Hlenr [Hgap [Hslots Htail]]]]]].
      rewrite Hp1, HT1 in *.
      replace (row_ptr c + 8 + ((n + 1 - (j + 1)) * 8 + (rowVarFieldSizes c + tail_size tc el)))
        with (row_ptr c + ((n + 1 - j) * 8 + rowVarFieldSizes c) + tail_size tc el)
        in * by lia.
      split; [cbn [length]; lia|]. split; [lia|]. split; [lia|].
      split; [rewrite length_app; lia|]. split.
      { intros x Hx. rewrite Hgap by (cbn [length] in Hx; lia).
        rewrite Hm1. apply Wgap. cbn [length] in Hx. lia. }
      split.
      { cbn [length]. replace (8 * S (length ts))%nat with (8 + 8 * length ts)%nat by lia.
        rewrite load_bytes_app. f_equal.
        - rewrite <- Wslot. apply load_bytes_ext. intros x Hx.
          rewrite Hbelow by lia. apply Hm1.
        - exact Hslots. }
      { rewrite length_app, load_bytes_app. f_equal.
        - rewrite <- Wtail at 2. apply load_bytes_ext. intros x Hx.
          rewrite Hgap by lia. apply Hm1.
        - rewrite Hlen1. exact Htail. }
    + intros [= <-]. rewrite Hf1. rewrite <- Hok1. cbn [andb].
      rewrite (Hfalse1 eq_refl).
      split; [reflexivity|]. split; [reflexivity|]. split; [reflexivity|].
      discriminate.
Qed.

Lemma var_bytes_tail_size (ts : list ascii) (es : list PyObject) :
  var_bytes ts es = row_tail_size ts es.
Proof.
  revert es. induction ts as [|tc ts IH]; intros es; [reflexivity|].
  destruct es as [|el es]; [reflexivity|].
  cbn [var_bytes row_tail_size]. rewrite IH. reflexivity.
Qed.

Lemma no_string_no_tail (ts : list ascii) (es : list PyObject) :
  existsb (is_char "s") ts = false ->
  row_tail_size ts es = 0 /\ row_tail ts es = [].
Proof.
  revert es. induction ts as [|tc ts IH]; intros es; [auto|].
  destruct es as [|el es]; [auto|].
  cbn [existsb]. intros E. apply orb_false_iff in E. destruct E as [E1 E2].
  cbn [row_tail_size row_tail]. unfold tail_size, field_tail, is_char in *.
  rewrite Ascii.eqb_sym, E1.
  destruct (IH es E2) as [-> ->]. auto.
Qed.

Lemma row_slots_length (n : Z) (ts : list ascii) (es : list PyObject) (j T : Z) :
  length ts = length es ->
  length (row_slots n ts es j T) = (8 * length ts)%nat.
Proof.
  revert es j T. induction ts as [|tc ts IH]; intros es j T Hlen.
  - reflexivity.
  - destruct es as [|el es]; [discriminate|]. injection Hlen as Hlen.
    cbn [row_slots length]. rewrite length_app, length_le_split, IH by exact Hlen.
    lia.
Qed.

Lemma ensure_capacity_cursor (req newMin : Z) (schema : pyType) (w : Writer) :
  cursor_ok w -> cursor_ok (ensure_capacity req newMin schema w).
Proof.
  unfold ensure_capacity, cursor_ok. destruct (_ <? _); [cbn; lia | auto].
Qed.

Section FixedRowType.
Variable majType : pyType.
Hypothesis simple : tupleElementsHaveSimpleTypes majType = true.

#[local] Abbreviation n := (arity majType).
#[local] Abbreviation typeStr := (typeStr_of majType).
#[local] Abbreviation varLenField := (varLen_of majType).

Lemma typeStr_length : length typeStr = n.
Proof. unfold typeStr_of, arity. cbn. apply length_map. Qed.

Lemma typeStr_simple : forallb simple_char typeStr = true.
Proof.
  unfold typeStr_of. cbn. unfold tupleElementsHaveSimpleTypes in simple.
  induction (parameters majType) as [|t ts IH]; [reflexivity|].
  cbn [forallb map] in *. apply andb_true_iff in simple. destruct simple as [Ht Hts].
  rewrite (IH Hts), andb_true_r.
  repeat (apply orb_true_iff in Ht; destruct Ht as [Ht | Ht]);
    apply type_eqb_eq in Ht; subst t; reflexivity.
Qed.

Lemma candidate_check (obj : PyObject) :
  (if PyTuple_Check obj then PyTuple_Size obj =? Z.of_nat n else false)
  = row_candidate n obj.
Proof.
  destruct obj; try reflexivity. cbn [PyTuple_Check PyTuple_Size row_candidate].
  destruct (Nat.eqb_spec (length items) n) as [E|E].
  - apply Z.eqb_eq. lia.
  - apply Z.eqb_neq. lia.
Qed.

Lemma candidate_length (obj : PyObject) :
  row_candidate n obj = true -> length typeStr = length (tuple_items obj).
Proof.
  destruct obj; try discriminate. cbn [row_candidate tuple_items]. intros E.
  apply Nat.eqb_eq in E. rewrite typeStr_length. auto.
Qed.

Lemma varLen_false_tail (es : list PyObject) :
  varLenField = false -> row_tail_size typeStr es = 0 /\ row_tail typeStr es = [].
Proof. intros E. apply no_string_no_tail. exact E. Qed.

Lemma row_image_length (obj : PyObject) :
  row_candidate n obj = true -> fields_ok typeStr (tuple_items obj) = true ->
  Z.of_nat (length (row_image typeStr varLenField obj))
  = required_bytes majType typeStr varLenField obj.
Proof.
  intros Hc Hok. unfold row_image, required_bytes.
  pose proof (candidate_length obj Hc) as Hlen.
  rewrite !length_app, row_slots_length by exact Hlen.
  rewrite (var_bytes_tail_size typeStr (tuple_items obj)), typeStr_length.
  assert (Htail : Z.of_nat (length (row_tail typeStr (tuple_items obj)))
                  = row_tail_size typeStr (tuple_items obj)).
  { clear Hc. revert Hok Hlen. generalize (tuple_items obj). generalize typeStr.
    induction l as [|tc ts IH]; intros es Hok Hlen; [reflexivity|].
    destruct es as [|el es]; [discriminate|]. injection Hlen as Hlen.
    cbn [fields_ok] in Hok. apply andb_true_iff in Hok. destruct Hok as [Hf1 Hf2].
    cbn [row_tail row_tail_size]. rewrite length_app, Nat2Z.inj_add, IH by auto.
    destruct (tail_size_length tc el Hf1) as [_ ->]. reflexivity. }
  unfold arity in *.
  destruct varLenField eqn:Ev.
  - rewrite length_le_split. lia.
  - destruct (varLen_false_tail (tuple_items obj) Ev) as [Hz Hnil].
    rewrite Hnil. cbn [length]. lia.
Qed.

Lemma body_unfold (i : Z) (obj : PyObject) (w : Writer) (h : Host) :
  fastTuple_body majType typeStr varLenField i obj (w, h)
  = if row_candidate n obj then
      let w1 := row_writer majType typeStr varLenField obj w in
      r <- serialize_fields (Z.of_nat n) typeStr (tuple_items obj) 0
             {| row_mem := payload (partition w1); row_ptr := ptr w1;
                rowVarFieldSizes := 0; row_host := h |} ;;
      if fst r then
        Ret ({| partitions := partitions w1;
                partition :=
                  inc_numRows
                    (with_payload (partition w1)
                       (if varLenField
                        then store64 (row_mem (snd r)) (row_ptr (snd r))
                               (rowVarFieldSizes (snd r))
                        else row_mem (snd r)));
                ptr := ptr w1 + required_bytes majType typeStr varLenField obj;
                numBytesSerialized :=
                  numBytesSerialized w1
                  + required_bytes majType typeStr varLenField obj |},
             row_host (snd r))
      else
        Ret ({| partitions := partitions w1;
                partition := with_payload (partition w1) (row_mem (snd r));
                ptr := ptr w1;
                numBytesSerialized := numBytesSerialized w1 |},
             emplace_back_bad i obj (row_host (snd r)))
    else Ret (w, emplace_back_bad i obj h).
Proof.
  unfold fastTuple_body. rewrite candidate_check. reflexivity.
Qed.

Lemma body_accepted (i : Z) (obj : PyObject) (w w' : Writer) (h h' : Host) :
  row_candidate n obj = true ->
  fields_ok typeStr (tuple_items obj) = true ->
  cursor_ok w ->
  fastTuple_body majType typeStr varLenField i obj (w, h) = Ret (w', h') ->
  let w1 := row_writer majType typeStr varLenField obj w in
  let img := row_image typeStr varLenField obj in
  badParallelizeObjects h' = badParallelizeObjects h /\
  partitions w' = partitions w1 /\
  numRows (partition w') = numRows (partition w1) + 1 /\
  ptr w' = ptr w1 + Z.of_nat (length img) /\
  numBytesSerialized w' = ptr w' /\
  (forall x, x < ptr w1 -> payload (partition w') x = payload (partition w1) x) /\
  load_bytes (payload (partition w')) (ptr w1) (length img) = img.
Proof.
  intros Hc Hok Hcur. rewrite body_unfold, Hc. cbv zeta.
  set (w1 := row_writer majType typeStr varLenField obj w).
  assert (Hcur1 : cursor_ok w1) by (apply ensure_capacity_cursor; exact Hcur).
  destruct Hcur1 as [Hnb Hp0].
  pose proof (candidate_length obj Hc) as Hlen.
  pose proof (row_image_length obj Hc Hok) as Himg.
  destruct (serialize_fields _ _ _ _ _) as [r| |] eqn:E; cbn [bind]; try discriminate.
  assert (Hn0 : 0 + Z.of_nat (length typeStr) = Z.of_nat n)
    by (rewrite typeStr_length; lia).
  eapply serialize_fields_spec in E as [Hfst [Hbad [Hbelow Htrue]]];
    [ | exact typeStr_simple | exact Hlen | lia | exact Hn0 | cbn; lia].
  rewrite Hok in Hfst. rewrite Hfst. specialize (Htrue Hfst).
  cbn [row_mem row_ptr rowVarFieldSizes row_host] in *.
  destruct Htrue as [Hp [HT [Hnn [Hlent [Hgap [Hslots Htail]]]]]].
  rewrite typeStr_length in Hp, Hgap, Hslots.
  intros [= <- <-]. cbn [partitions partition ptr numBytesSerialized numRows
                         payload inc_numRows with_payload].
  split; [exact Hbad|]. split; [reflexivity|]. split; [reflexivity|].
  split; [lia|]. split; [lia|].
  unfold row_image.
  destruct varLenField eqn:Ev.
  - split.
    + intros x Hx. unfold store64. rewrite memcpy_outside by lia.
      apply Hbelow. exact Hx.
    + rewrite !length_app. rewrite row_slots_length by exact Hlen.
      rewrite length_le_split, typeStr_length.
      rewrite !load_bytes_app. f_equal; [|f_equal].
      * rewrite load_bytes_store64_disjoint by lia. exact Hslots.
      * rewrite Hp.
        replace (ptr w1 + Z.of_nat (8 * n)) with (ptr w1 + 8 * Z.of_nat n) by lia.
        rewrite load_bytes_store64_same. f_equal. lia.
      * rewrite load_bytes_store64_disjoint by lia.
        etransitivity; [|exact Htail]. f_equal. lia.
  - destruct (varLen_false_tail (tuple_items obj) Ev) as [Hz Hnil].
    split; [exact Hbelow|].
    rewrite Hnil, !app_nil_r. rewrite row_slots_length by exact Hlen.
    rewrite typeStr_length. exact Hslots.
Qed.

Lemma body_rejected (i : Z) (obj : PyObject) (w w' : Writer) (h h' : Host) :
  row_candidate n obj = true ->
  fields_ok typeStr (tuple_items obj) = false ->
  cursor_ok w ->
  fastTuple_body majType typeStr varLenField i obj (w, h) = Ret (w', h') ->
  let w1 := row_writer majType typeStr varLenField obj w in
  badParallelizeObjects h' = badParallelizeObjects h ++ [(i, obj)] /\
  partitions w' = partitions w1 /\
  numRows (partition w') = numRows (partition w1) /\
  ptr w' = ptr w1 /\
  numBytesSerialized w' = numBytesSerialized w1 /\
  (forall x, x < ptr w1 -> payload (partition w') x = payload (partition w1) x).
Proof.
  intros Hc Hok Hcur. rewrite body_unfold, Hc. cbv zeta.
  set (w1 := row_writer majType typeStr varLenField obj w).
  assert (Hcur1 : cursor_ok w1) by (apply ensure_capacity_cursor; exact Hcur).
  destruct Hcur1 as [Hnb Hp0].
  pose proof (candidate_length obj Hc) as Hlen.
  destruct (serialize_fields _ _ _ _ _) as [r| |] eqn:E; cbn [bind]; try discriminate.
  assert (Hn0 : 0 + Z.of_nat (length typeStr) = Z.of_nat n)
    by (rewrite typeStr_length; lia).
  eapply serialize_fields_spec in E as [Hfst [Hbad [Hbelow _]]];
    [ | exact typeStr_simple | exact Hlen | lia | exact Hn0 | cbn; lia].
  rewrite Hok in Hfst. rewrite Hfst.
  cbn [row_mem row_ptr rowVarFieldSizes row_host] in *.
  intros [= <- <-]. cbn. rewrite Hbad.
  repeat split; auto.
Qed.

Lemma body_not_candidate (i : Z) (obj : PyObject) (w : Writer) (h : Host) :
  row_candidate n obj = false ->
  fastTuple_body majType typeStr varLenField i obj (w, h)
  = Ret (w, emplace_back_bad i obj h).
Proof. intros Hc. rewrite body_unfold, Hc. reflexivity. Qed.

Lemma writer_holds_cursor (w : Writer) done cur :
  writer_holds typeStr varLenField w done cur -> cursor_ok w.
Proof. intros [_ [_ [Hp Hn]]]. split; lia. Qed.

Lemma row_writer_holds (obj : PyObject) (w : Writer) done cur :
  writer_holds typeStr varLenField w done cur ->
  exists done1 cur1,
    writer_holds typeStr varLenField (row_writer majType typeStr varLenField obj w)
      done1 cur1 /\
    concat (done1 ++ [cur1]) = concat (done ++ [cur]).
Proof.
  intros Hw. unfold row_writer, ensure_capacity.
  destruct (_ <? _).
  - exists (done ++ [cur]), []. split.
    + destruct Hw as [Hdone [Hcur _]].
      unfold writer_holds, next_partition. cbn [partitions partition ptr numBytesSerialized].
      split; [|split; [|split]].
      * apply Forall2_app; [exact Hdone|]. constructor; [|constructor]. exact Hcur.
      * split; reflexivity.
      * reflexivity.
      * reflexivity.
    + rewrite !concat_app. cbn. rewrite !app_nil_r. reflexivity.
  - exists done, cur. split; [exact Hw | reflexivity].
Qed.

Lemma rows_image_snoc (rows : list PyObject) (obj : PyObject) :
  rows_image typeStr varLenField (rows ++ [obj])
  = rows_image typeStr varLenField rows ++ row_image typeStr varLenField obj.
Proof. unfold rows_image. rewrite flat_map_app. cbn. rewrite app_nil_r. reflexivity. Qed.

Lemma body_holds (i : Z) (obj : PyObject) (w w' : Writer) (h h' : Host) done cur :
  writer_holds typeStr varLenField w done cur ->
  fastTuple_body majType typeStr varLenField i obj (w, h) = Ret (w', h') ->
  exists done' cur',
    writer_holds typeStr varLenField w' done' cur' /\
    concat (done' ++ [cur'])
    = concat (done ++ [cur]) ++ filter (row_accepted n typeStr) [obj] /\
    badParallelizeObjects h'
    = badParallelizeObjects h ++ tuple_rejected n typeStr [obj] i.
Proof.
  intros Hw Hbody. cbn [filter tuple_rejected]. unfold row_accepted.
  destruct (row_candidate n obj) eqn:Hc; cbn [andb].
  - destruct (row_writer_holds obj w done cur Hw) as [done1 [cur1 [Hw1 Hcat]]].
    pose proof (writer_holds_cursor w done cur Hw) as Hcur.
    destruct Hw1 as [Hdone1 [[Hrows1 Hbytes1] [Hptr1 Hnb1]]].
    destruct (fields_ok typeStr (tuple_items obj)) eqn:Hok.
    + destruct (body_accepted i obj w w' h h' Hc Hok Hcur Hbody)
        as [Hbad [Hparts [Hrows [Hptr [Hnb [Hbelow Himg]]]]]].
      exists done1, (cur1 ++ [obj]). split; [|split].
      * split; [rewrite Hparts; exact Hdone1|]. split; [|split].
        -- split.
           ++ rewrite Hrows, Hrows1, length_app. cbn [length]. lia.
           ++ rewrite rows_image_snoc, length_app, load_bytes_app. f_equal.
              ** rewrite <- Hbytes1 at 2. apply load_bytes_ext. intros x Hx.
                 apply Hbelow. lia.
              ** rewrite Z.add_0_l, <- Hptr1. exact Himg.
        -- rewrite rows_image_snoc, length_app. lia.
        -- exact Hnb.
      * rewrite <- Hcat, !concat_app. cbn. rewrite !app_nil_r, app_assoc. reflexivity.
      * rewrite Hbad, app_nil_r. reflexivity.
    + destruct (body_rejected i obj w w' h h' Hc Hok Hcur Hbody)
        as [Hbad [Hparts [Hrows [Hptr [Hnb Hbelow]]]]].
      exists done1, cur1. split; [|split].
      * split; [rewrite Hparts; exact Hdone1|]. split; [|split].
        -- split; [congruence|].
           rewrite <- Hbytes1 at 2. apply load_bytes_ext. intros x Hx.
           apply Hbelow. lia.
        -- congruence.
        -- congruence.
      * rewrite Hcat, app_nil_r. reflexivity.
      * exact Hbad.
  - rewrite (body_not_candidate i obj w h Hc) in Hbody. injection Hbody as <- <-.
    exists done, cur. split; [exact Hw|]. split; [rewrite app_nil_r; reflexivity|].
    reflexivity.
Qed.

Lemma tuple_rejected_app (l1 l2 : list PyObject) (i : Z) :
  tuple_rejected n typeStr (l1 ++ l2) i
  = tuple_rejected n typeStr l1 i
    ++ tuple_rejected n typeStr l2 (i + Z.of_nat (length l1)).
Proof.
  revert i. induction l1 as [|o l1 IH]; intros i; cbn [app tuple_rejected length].
  - f_equal. lia.
  - replace (i + Z.of_nat (S (length l1))) with (i + 1 + Z.of_nat (length l1)) by lia.
    destruct (row_accepted n typeStr o); rewrite IH; reflexivity.
Qed.

Lemma loop_holds (L : list PyObject) :
  forall (i : Z) (w w' : Writer) (h h' : Host) done cur,
  writer_holds typeStr varLenField w done cur ->
  for_each (fastTuple_body majType typeStr varLenField) L i (w, h) = Ret (w', h') ->
  exists done' cur',
    writer_holds typeStr varLenField w' done' cur' /\
    concat (done' ++ [cur'])
    = concat (done ++ [cur]) ++ filter (row_accepted n typeStr) L /\
    badParallelizeObjects h'
    = badParallelizeObjects h ++ tuple_rejected n typeStr L i.
Proof.
  induction L as [|obj L IH]; intros i w w' h h' done cur Hw.
  - cbn [for_each]. intros [= <- <-]. exists done, cur.
    cbn. rewrite !app_nil_r. auto.
  - cbn [for_each].
    destruct (fastTuple_body majType typeStr varLenField i obj (w, h))
      as [[w1 h1]| |] eqn:Ebody; cbn [bind]; try discriminate.
    intros Erest.
    destruct (body_holds i obj w w1 h h1 done cur Hw Ebody)
      as [done1 [cur1 [Hw1 [Hcat1 Hbad1]]]].
    destruct (IH (i + 1) w1 w' h1 h' done1 cur1 Hw1 Erest)
      as [done' [cur' [Hw' [Hcat' Hbad']]]].
    exists done', cur'. split; [exact Hw'|].
    change (obj :: L) with ([obj] ++ L).
    rewrite filter_app, tuple_rejected_app. cbn [length Z.of_nat Pos.of_succ_nat].
    split.
    + rewrite Hcat', Hcat1, <- app_assoc. reflexivity.
    + rewrite Hbad', Hbad1, <- app_assoc. reflexivity.
Qed.

Lemma encoder_holds (L : list PyObject) (columns : list pystr) (h : Host)
  (ds : DataSet) (h' : Host) :
  fastMixedSimpleTypeTupleTransfer L majType columns h = Ret (ds, h') ->
  exists rowss,
    Forall2 (holds_rows typeStr varLenField) (partitions_of ds) rowss /\
    concat rowss = filter (row_accepted n typeStr) L /\
    badParallelizeObjects h'
    = badParallelizeObjects h ++ tuple_rejected n typeStr L 0.
Proof.
  unfold fastMixedSimpleTypeTupleTransfer. intros E.
  apply assert_returns in E. apply assert_returns in E. revert E.
  destruct (Z.of_nat (length L) =? 0) eqn:E0.
  - intros [= <- <-]. apply Z.eqb_eq in E0. destruct L; [|discriminate].
    exists []. cbn. rewrite app_nil_r. repeat split. constructor.
  - change (makeTypeStr majType) with (typeStr, varLenField). cbv beta iota.
    destruct (for_each (fastTuple_body majType typeStr varLenField) L 0
                (open_writer allocMinSize majType, h))
      as [[w1 h1]| |] eqn:Eloop; cbn [bind]; try discriminate.
    intros [= <- <-].
    destruct (loop_holds L 0 (open_writer allocMinSize majType) w1 h h1 [] [])
      as [done [cur [[Hdone [Hcur _]] [Hcat Hbad]]]].
    + split; [constructor|]. split; [split; reflexivity|]. split; reflexivity.
    + exact Eloop.
    + exists (done ++ [cur]). split; [|split].
      * cbn [partitions_of fst close_writer]. apply Forall2_app; [exact Hdone|].
        constructor; [exact Hcur | constructor].
      * exact Hcat.
      * exact Hbad.
Qed.
End FixedRowType.


(** In a release build the model of the encoder returns on every input.
    What the program does with a row whose string positions hold objects
    that are not strings, or strings with surrogate code points, is not
    represented (see [PyUnicode_AsUTF8]). *)
Lemma tuple_encoder_returns (majType : pyType) (L : list PyObject)
  (columns : list pystr) (h : Host) :
  NDEBUG = true ->
  exists ds h', fastMixedSimpleTypeTupleTransfer L majType columns h = Ret (ds, h').
Proof.
  intros Hrel. unfold fastMixedSimpleTypeTupleTransfer, assert_. rewrite Hrel.
  destruct (_ =? 0); [eauto|].
  destruct (makeTypeStr majType) as [typeStr varLenField].
  assert (Hfields : forall n ts es j c, exists r, serialize_fields n ts es j c = Ret r).
  { intros n ts. induction ts as [|tc ts IH]; intros es j c; cbn [serialize_fields];
      [eauto|].
    destruct es as [|el es]; [eauto|].
    assert (Hfield : exists r1, serialize_field n tc j el c = Ret r1).
    { unfold serialize_field, assert_. rewrite Hrel.
      repeat match goal with
             | |- exists _, (if ?b then _ else _) = _ => destruct b
             | |- exists _, (let '(_, _) := ?x in _) = _ => destruct x
             end; eauto. }
    destruct Hfield as [r1 ->]. cbn [bind]. destruct (fst r1); [apply IH | eauto]. }
  destruct (for_each_returns (fastTuple_body majType typeStr varLenField)) with
    (items := L) (i := 0) (s := (open_writer allocMinSize majType, h)) as [st ->].
  - intros i o [w h0]. unfold fastTuple_body.
    destruct (if PyTuple_Check o then _ else false); [|eauto].
    destruct (Hfields (Z.of_nat (length (parameters majType))) typeStr
                (tuple_items o) 0
                {| row_mem := payload (partition
                     (ensure_capacity
                        ((Z.of_nat (length (parameters majType))
                          + (if varLenField then 1 else 0)) * 8
                         + (if varLenField then var_bytes typeStr (tuple_items o) else 0))
                        (Z.max allocMinSize
                           ((Z.of_nat (length (parameters majType))
                             + (if varLenField then 1 else 0)) * 8
                            + (if varLenField then var_bytes typeStr (tuple_items o) else 0)))
                        majType w));
                   row_ptr := ptr
                     (ensure_capacity
                        ((Z.of_nat (length (parameters majType))
                          + (if varLenField then 1 else 0)) * 8
                         + (if varLenField then var_bytes typeStr (tuple_items o) else 0))
                        (Z.max allocMinSize
                           ((Z.of_nat (length (parameters majType))
                             + (if varLenField then 1 else 0)) * 8
                            + (if varLenField then var_bytes typeStr (tuple_items o) else 0)))
                        majType w);
                   rowVarFieldSizes := 0; row_host := h0 |}) as [r ->].
    cbn [bind]. destruct (fst r); eauto.
  - cbn [bind]. eauto.
Qed.

End TupleEncoder.


(* ------------------------------------------------------------------------- *)
(** ** String descriptors *)

(** The two halves of a descriptor word, when offset and length fit in 32
    bits each. *)
Lemma info_field_decode (varLenOffset varFieldSize : Z) :
  0 <= varLenOffset < 2 ^ 32 ->
  0 <= varFieldSize < 2 ^ 32 ->
  Z.land (info_field varLenOffset varFieldSize) (2 ^ 32 - 1) = varLenOffset /\
  Z.shiftr (info_field varLenOffset varFieldSize) 32 = varFieldSize.
Proof.
  intros Ho Hs. unfold info_field.
  rewrite Z.shiftl_mul_pow2 by lia.
  rewrite (Z.mod_small (varFieldSize * 2 ^ 32)) by nia.
  assert (Hlor : Z.lor varLenOffset (varFieldSize * 2 ^ 32)
                 = varLenOffset + varFieldSize * 2 ^ 32).
  { rewrite <- Z.shiftl_mul_pow2 by lia.
    rewrite <- Z.lxor_lor; [symmetry; apply Z.add_nocarry_lxor|];
      apply Z.bits_inj'; intros k Hk; rewrite Z.land_spec, Z.bits_0;
      destruct (Z.lt_ge_cases k 32) as [Hlt | Hge].
    - rewrite Z.shiftl_spec_low by lia. apply andb_false_r.
    - rewrite (Z.bits_above_log2 varLenOffset k); [reflexivity | lia |].
      destruct (Z.eq_dec varLenOffset 0) as [-> | Hne]; [simpl; lia|].
      apply Z.log2_lt_pow2; [lia|].
      apply Z.lt_le_trans with (2 ^ 32); [lia | apply Z.pow_le_mono_r; lia].
    - rewrite Z.shiftl_spec_low by lia. apply andb_false_r.
    - rewrite (Z.bits_above_log2 varLenOffset k); [reflexivity | lia |].
      destruct (Z.eq_dec varLenOffset 0) as [-> | Hne]; [simpl; lia|].
      apply Z.log2_lt_pow2; [lia|].
      apply Z.lt_le_trans with (2 ^ 32); [lia | apply Z.pow_le_mono_r; lia]. }
  rewrite Hlor. rewrite (Z.mod_small (varLenOffset + varFieldSize * 2 ^ 32)) by nia.
  split.
  - change (2 ^ 32 - 1) with (Z.ones 32). rewrite Z.land_ones by lia.
    rewrite Z.mod_add by lia. apply Z.mod_small. lia.
  - rewrite Z.shiftr_div_pow2 by lia.
    rewrite Z.div_add by lia. rewrite Z.div_small by lia. lia.
Qed.

(** The byte at index [strlen buf] of a buffer is NUL. *)
Lemma strlen_nul (buf : list byte) :
  nth (Z.to_nat (strlen buf)) buf Byte.x00 = Byte.x00.
Proof.
  induction buf as [|b buf IH]; [reflexivity|].
  cbn [strlen]. destruct (is_nul b) eqn:E.
  - destruct b; try discriminate. reflexivity.
  - assert (0 <= strlen buf).
    { clear. induction buf as [|b buf IH]; cbn [strlen]; [lia|].
      destruct (is_nul b); lia. }
    replace (Z.to_nat (1 + strlen buf)) with (S (Z.to_nat (strlen buf))) by lia.
    exact IH.
Qed.

Lemma Ret_inj {A : Type} (a b : A) : Ret a = Ret b -> a = b.
Proof. intros E. injection E as E. exact E. Qed.

Lemma Ret_pair_inj {A B : Type} (a a' : A) (b b' : B) :
  Ret (a, b) = Ret (a', b') -> a = a' /\ b = b'.
Proof. intros E. injection E as E1 E2. split; assumption. Qed.

Section StringDescriptor.
Context `{Build} `{Driver} `{PythonHelpers}.

(** A string that passes the assertion of the encoders, with a length that
    fits in 32 bits: the fast string encoder writes a descriptor whose low
    half is the offset 16 and whose high half is the length with the NUL, and
    the last byte of the string is NUL. *)
Lemma fastStr_descriptor (i : Z) (s : pystr) (w w' : Writer) (h h' : Host) :
  Z.of_nat (length s) = strlen (PyUnicode_AsUTF8 (Py_Unicode s)) ->
  Z.of_nat (length s) + 1 < 2 ^ 32 ->
  fastStr_body i (Py_Unicode s) (w, h) = Ret (w', h') ->
  let len := Z.of_nat (length s) in
  let slot := ptr (ensure_capacity (8 * 2 + len + 1)
                     (Z.max allocMinSize (8 * 2 + len + 1)) STRING_schema w) in
  let d := load64 (payload (partition w')) slot in
  Z.land d (2 ^ 32 - 1) = 16 /\
  Z.shiftr d 32 = len + 1 /\
  payload (partition w') (slot + 16 + (len + 1) - 1) = Byte.x00.
Proof.
  intros Hassert Hfit Hbody len slot d.
  unfold fastStr_body in Hbody.
  cbv beta iota zeta delta [PyUnicode_Check PyUnicode_GET_SIZE] in Hbody.
  fold len in Hbody.
  apply assert_returns in Hbody. apply Ret_pair_inj in Hbody as [<- <-].
  subst d slot. cbn [partition payload inc_numRows with_payload].
  set (w1 := ensure_capacity (8 * 2 + len + 1)
               (Z.max allocMinSize (8 * 2 + len + 1)) STRING_schema w).
  assert (Hd : load64
                 (memcpy
                    (store64
                       (store64 (payload (partition w1)) (ptr w1)
                          (info_field (2 * 8) (len + 1)))
                       (ptr w1 + 8) (len + 1))
                    (ptr w1 + 8 * 2) (PyUnicode_AsUTF8 (Py_Unicode s)) (len + 1))
                 (ptr w1)
               = info_field (2 * 8) (len + 1)).
  { unfold load64. rewrite load_bytes_memcpy_disjoint by (cbn; lia).
    rewrite load_bytes_store64_disjoint by (cbn; lia).
    rewrite load_bytes_store64_same, le_combine_split.
    change (Z.of_nat 8 * 8) with 64. unfold info_field.
    apply Z.mod_small. apply Z.mod_pos_bound. lia. }
  rewrite Hd.
  destruct (info_field_decode (2 * 8) (len + 1)) as [Hlo Hhi]; [lia | lia|].
  split; [exact Hlo|]. split; [exact Hhi|].
  rewrite memcpy_inside by lia.
  replace (Z.to_nat (ptr w1 + 16 + (len + 1) - 1 - (ptr w1 + 8 * 2)))
    with (Z.to_nat len) by lia.
  subst len. rewrite Hassert. apply strlen_nul.
Qed.

(** The same for a string field of the fast tuple encoder, field [j] of [n],
    with [T] bytes of tail before it: the offset is [(n + 1 - j) * 8 + T]. *)
Lemma tuple_field_descriptor (n j : Z) (s : pystr) (c : RowCursor)
  (r : bool * RowCursor) :
  Z.of_nat (length s) = strlen (PyUnicode_AsUTF8 (Py_Unicode s)) ->
  0 <= j < n ->
  0 <= rowVarFieldSizes c ->
  (n + 1 - j) * 8 + rowVarFieldSizes c < 2 ^ 32 ->
  Z.of_nat (length s) + 1 < 2 ^ 32 ->
  serialize_field n "s" j (Py_Unicode s) c = Ret r ->
  let len := Z.of_nat (length s) in
  let offset := (n + 1 - j) * 8 + rowVarFieldSizes c in
  let d := load64 (row_mem (snd r)) (row_ptr c) in
  fst r = true /\
  Z.land d (2 ^ 32 - 1) = offset /\
  Z.shiftr d 32 = len + 1 /\
  row_mem (snd r) (row_ptr c + offset + (len + 1) - 1) = Byte.x00.
Proof.
  intros Hassert Hj HT Hoff Hfit Hfield len offset d.
  unfold serialize_field in Hfield.
  cbv beta iota zeta delta [is_char Ascii.eqb Bool.eqb andb PyUnicode_Check negb
                              PyUnicode_GET_SIZE] in Hfield.
  fold len in Hfield. fold offset in Hfield.
  apply assert_returns in Hfield. apply Ret_inj in Hfield as <-.
  subst d. cbn [fst snd row_mem].
  split; [reflexivity|].
  assert (Hd : load64
                 (memcpy
                    (store64 (row_mem c) (row_ptr c) (info_field offset (len + 1)))
                    (row_ptr c + offset) (PyUnicode_AsUTF8 (Py_Unicode s)) (len + 1))
                 (row_ptr c)
               = info_field offset (len + 1)).
  { unfold load64. rewrite load_bytes_memcpy_disjoint by (cbn; lia).
    rewrite load_bytes_store64_same, le_combine_split.
    change (Z.of_nat 8 * 8) with 64. unfold info_field.
    apply Z.mod_small. apply Z.mod_pos_bound. lia. }
  rewrite Hd.
  destruct (info_field_decode offset (len + 1)) as [Hlo Hhi]; [lia | lia|].
  split; [exact Hlo|]. split; [exact Hhi|].
  rewrite memcpy_inside by lia.
  replace (Z.to_nat (row_ptr c + offset + (len + 1) - 1 - (row_ptr c + offset)))
    with (Z.to_nat len) by lia.
  subst len. rewrite Hassert. apply strlen_nul.
Qed.

End StringDescriptor.

(** C9.  The string "é" (one code point, U+00E9; its UTF-8 buffer is the
    three bytes C3 A9 00).  [PyUnicode_GET_SIZE] counts the code point, so
    the encoders take [len = 1] for a buffer whose [strlen] is 2.  With the
    assertions compiled out, the fast string encoder and the fast tuple
    encoder write a descriptor whose length half is 2, copy the two bytes
    C3 A9, and the byte at descriptor offset + length - 1 is A9, not 00.
    With the assertions compiled in, [len == strlen(utf8ptr)] fails on this
    input. *)
Theorem non_ascii_string_descriptor :
  PyUnicode_AsUTF8 (Py_Unicode [233]) = [Byte.xc3; Byte.xa9; Byte.x00] /\
  (exists p h',
      @fastStrParallelize release_build demo_driver demo_helpers
         [Py_Unicode [233]] [] fresh_host
        = Ret (fromPartitions STRING_schema [p] [], h') /\
      numRows p = 1 /\
      Z.land (load64 (payload p) 0) (2 ^ 32 - 1) = 16 /\
      Z.shiftr (load64 (payload p) 0) 32 = 2 /\
      payload p (0 + 16 + 2 - 1) = Byte.xa9) /\
  (exists p h',
      @fastMixedSimpleTypeTupleTransfer release_build demo_driver demo_helpers
         [Py_Tuple [Py_Unicode [233]]] (TTuple [STRING]) [] fresh_host
        = Ret (fromPartitions (TTuple [STRING]) [p] [], h') /\
      numRows p = 1 /\
      Z.land (load64 (payload p) 0) (2 ^ 32 - 1) = 16 /\
      Z.shiftr (load64 (payload p) 0) 32 = 2 /\
      payload p (0 + 16 + 2 - 1) = Byte.xa9) /\
  @fastStrParallelize debug_build demo_driver demo_helpers
     [Py_Unicode [233]] [] fresh_host
    = AssertFail "len == strlen(utf8ptr)" /\
  @fastMixedSimpleTypeTupleTransfer debug_build demo_driver demo_helpers
     [Py_Tuple [Py_Unicode [233]]] (TTuple [STRING]) [] fresh_host
    = AssertFail "len == strlen(utf8ptr)".
Proof.
  split; [vm_compute; reflexivity|].
  split.
  { eexists _, _. split; [vm_compute; reflexivity|].
    repeat split; vm_compute; reflexivity. }
  split.
  { eexists _, _. split; [vm_compute; reflexivity|].
    repeat split; vm_compute; reflexivity. }
  split; vm_compute; reflexivity.
Qed.

(* ------------------------------------------------------------------------- *)
(** ** The scalar encoders account for every element *)

Lemma rows_of_app (l1 l2 : list Partition) :
  rows_of (l1 ++ l2) = rows_of l1 + rows_of l2.
Proof.
  unfold rows_of. induction l1 as [|p l1 IH]; cbn [app fold_right]; [lia|].
  rewrite IH. lia.
Qed.

Section ScalarEncoders.
Context `{Build} `{Driver} `{PythonHelpers}.

Lemma ensure_capacity_rows (req newMin : Z) (schema : pyType) (w : Writer) :
  writer_rows (ensure_capacity req newMin schema w) = writer_rows w.
Proof.
  unfold ensure_capacity. destruct (_ <? _); [|reflexivity].
  unfold writer_rows, next_partition. cbn [partitions partition].
  rewrite !rows_of_app. cbn. lia.
Qed.

Lemma commit_slot_rows (bits : Z) (w : Writer) :
  writer_rows (commit_slot bits w) = writer_rows w + 1.
Proof.
  unfold writer_rows, commit_slot. cbn [partitions partition].
  rewrite !rows_of_app. cbn. lia.
Qed.

Lemma quarantine_one (i : Z) (o : PyObject) (h : Host) :
  Z.of_nat (length (badParallelizeObjects (emplace_back_bad i o h)))
  = Z.of_nat (length (badParallelizeObjects h)) + 1.
Proof. cbn. rewrite length_app. cbn. lia. Qed.

Lemma fastBool_body_accounts (i : Z) (o : PyObject) (st st' : Writer * Host) :
  fastBool_body i o st = Ret st' -> accounted st' = accounted st + 1.
Proof.
  destruct st as [w h]. unfold fastBool_body, accounted.
  destruct (PyBool_Check o); intros E; apply Ret_inj in E; subst st'; cbn [fst snd].
  - rewrite commit_slot_rows, ensure_capacity_rows. lia.
  - rewrite ensure_capacity_rows, quarantine_one. lia.
Qed.

Lemma fastI64_body_accounts (upcast : bool) (i : Z) (o : PyObject)
  (st st' : Writer * Host) :
  fastI64_body upcast i o st = Ret st' -> accounted st' = accounted st + 1.
Proof.
  destruct st as [w h]. unfold fastI64_body, accounted.
  destruct (PyLong_CheckExact o).
  - destruct (PyLong_AsLongLong o h) as [v h1] eqn:El.
    assert (Hbad : badParallelizeObjects h1 = badParallelizeObjects h).
    { unfold PyLong_AsLongLong in El. destruct o;
        try (apply (f_equal snd) in El; cbn in El; subst h1; reflexivity).
      destruct (fits_int64 z); apply (f_equal snd) in El; cbn in El; subst h1;
        reflexivity. }
    destruct (PyErr_Occurred h1); intros E; apply Ret_inj in E; subst st';
      cbn [fst snd].
    + rewrite ensure_capacity_rows, quarantine_one. cbn. rewrite Hbad. lia.
    + rewrite commit_slot_rows, ensure_capacity_rows, Hbad. lia.
  - destruct (upcast && _); intros E; apply Ret_inj in E; subst st'; cbn [fst snd].
    + rewrite commit_slot_rows, ensure_capacity_rows. lia.
    + rewrite ensure_capacity_rows, quarantine_one. lia.
Qed.

Lemma fastF64_body_accounts (upcast : bool) (i : Z) (o : PyObject)
  (st st' : Writer * Host) :
  fastF64_body upcast i o st = Ret st' -> accounted st' = accounted st + 1.
Proof.
  destruct st as [w h]. unfold fastF64_body, accounted.
  destruct (PyFloat_CheckExact o).
  { intros E; apply Ret_inj in E; subst st'; cbn [fst snd].
    rewrite commit_slot_rows, ensure_capacity_rows. lia. }
  destruct (upcast && _).
  - destruct (is_Py_True o || is_Py_False o).
    { intros E; apply Ret_inj in E; subst st'; cbn [fst snd].
      rewrite commit_slot_rows, ensure_capacity_rows. lia. }
    destruct (PyLong_AsLongLong o h) as [v h1] eqn:El.
    assert (Hbad : badParallelizeObjects h1 = badParallelizeObjects h).
    { unfold PyLong_AsLongLong in El. destruct o;
        try (apply (f_equal snd) in El; cbn in El; subst h1; reflexivity).
      destruct (fits_int64 z); apply (f_equal snd) in El; cbn in El; subst h1;
        reflexivity. }
    destruct (PyErr_Occurred h1); intros E; apply Ret_inj in E; subst st';
      cbn [fst snd].
    + rewrite ensure_capacity_rows, quarantine_one. cbn. rewrite Hbad. lia.
    + rewrite commit_slot_rows, ensure_capacity_rows, Hbad. lia.
  - intros E; apply Ret_inj in E; subst st'; cbn [fst snd].
    rewrite ensure_capacity_rows, quarantine_one. lia.
Qed.

Lemma fastStr_body_accounts (i : Z) (o : PyObject) (st st' : Writer * Host) :
  fastStr_body i o st = Ret st' -> accounted st' = accounted st + 1.
Proof.
  destruct st as [w h]. unfold fastStr_body, accounted.
  destruct (PyUnicode_Check o).
  - intros E. apply assert_returns in E. apply Ret_inj in E. subst st'.
    cbn [fst snd]. unfold writer_rows at 1. cbn [partitions partition].
    rewrite rows_of_app. cbn [rows_of fold_right numRows inc_numRows with_payload].
    pose proof (ensure_capacity_rows
                  (8 * 2 + PyUnicode_GET_SIZE o + 1)
                  (Z.max allocMinSize (8 * 2 + PyUnicode_GET_SIZE o + 1))
                  STRING_schema w) as Hr.
    unfold writer_rows in *. rewrite rows_of_app in Hr.
    cbn [rows_of fold_right] in Hr. lia.
  - intros E. apply Ret_inj in E. subst st'. cbn [fst snd].
    rewrite quarantine_one. lia.
Qed.

Lemma loop_accounts (body : Z -> PyObject -> Writer * Host -> Outcome (Writer * Host)) :
  (forall i o st st', body i o st = Ret st' -> accounted st' = accounted st + 1) ->
  forall L i st st',
    for_each body L i st = Ret st' ->
    accounted st' = accounted st + Z.of_nat (length L).
Proof.
  intros Hbody. induction L as [|o L IH]; intros i st st'; cbn [for_each length].
  - intros E. apply Ret_inj in E. subst st'. lia.
  - destruct (body i o st) as [st1| |] eqn:E1; cbn [bind]; try discriminate.
    intros E. apply IH in E. apply Hbody in E1. lia.
Qed.

(** X8.  Every element of the input of a scalar fast encoder is either a row of
    the returned partitions or an entry of the quarantine list: with [N]
    elements and [k] new entries, the partitions hold [N - k] rows. *)
Lemma scalar_encoders_account (L : list PyObject) (columns : list pystr)
  (h : Host) (ds : DataSet) (h' : Host) :
  let N := Z.of_nat (length L) in
  let k := Z.of_nat (length (badParallelizeObjects h'))
           - Z.of_nat (length (badParallelizeObjects h)) in
  (fastBoolParallelize L columns h = Ret (ds, h') -> total_rows ds = N - k) /\
  (forall upcast,
      fastI64Parallelize L columns upcast h = Ret (ds, h') -> total_rows ds = N - k) /\
  (forall upcast,
      fastF64Parallelize L columns upcast h = Ret (ds, h') -> total_rows ds = N - k) /\
  (fastStrParallelize L columns h = Ret (ds, h') -> total_rows ds = N - k).
Proof.
  intros N k. subst N k.
  assert (Hclose : forall w, rows_of (close_writer w) = writer_rows w).
  { intros w. unfold close_writer, writer_rows. rewrite !rows_of_app. reflexivity. }
  assert (Hopen : forall minSize schema,
             accounted (open_writer minSize schema, h)
             = Z.of_nat (length (badParallelizeObjects h))).
  { intros. reflexivity. }
  repeat split.
  - unfold fastBoolParallelize. destruct (_ =? 0) eqn:E0.
    + intros E. apply Ret_pair_inj in E as [<- <-]. apply Z.eqb_eq in E0. cbn. lia.
    + destruct (for_each _ _ _ _) as [st| |] eqn:E; cbn [bind]; try discriminate.
      intros E1. apply Ret_pair_inj in E1 as [<- <-].
      apply (loop_accounts _ fastBool_body_accounts) in E.
      rewrite Hopen in E. unfold accounted in E. cbn [total_rows].
      fold (rows_of (close_writer (fst st))). rewrite Hclose. lia.
  - intros upcast. unfold fastI64Parallelize. destruct (_ =? 0) eqn:E0.
    + intros E. apply Ret_pair_inj in E as [<- <-]. apply Z.eqb_eq in E0. cbn. lia.
    + destruct (for_each _ _ _ _) as [st| |] eqn:E; cbn [bind]; try discriminate.
      intros E1. apply Ret_pair_inj in E1 as [<- <-].
      apply (loop_accounts _ (fastI64_body_accounts upcast)) in E.
      rewrite Hopen in E. unfold accounted in E. cbn [total_rows].
      fold (rows_of (close_writer (fst st))). rewrite Hclose. lia.
  - intros upcast. unfold fastF64Parallelize. intros E2. apply assert_returns in E2.
    revert E2. destruct (_ =? 0) eqn:E0.
    + intros E. apply Ret_pair_inj in E as [<- <-]. apply Z.eqb_eq in E0. cbn. lia.
    + destruct (for_each _ _ _ _) as [st| |] eqn:E; cbn [bind]; try discriminate.
      intros E1. apply Ret_pair_inj in E1 as [<- <-].
      apply (loop_accounts _ (fastF64_body_accounts upcast)) in E.
      rewrite Hopen in E. unfold accounted in E. cbn [total_rows].
      fold (rows_of (close_writer (fst st))). rewrite Hclose. lia.
  - unfold fastStrParallelize. destruct (_ =? 0) eqn:E0.
    + intros E. apply Ret_pair_inj in E as [<- <-]. apply Z.eqb_eq in E0. cbn. lia.
    + destruct (for_each _ _ _ _) as [st| |] eqn:E; cbn [bind]; try discriminate.
      intros E1. apply Ret_pair_inj in E1 as [<- <-].
      apply (loop_accounts _ fastStr_body_accounts) in E.
      rewrite Hopen in E. unfold accounted in E. cbn [total_rows].
      fold (rows_of (close_writer (fst st))). rewrite Hclose. lia.
Qed.

End ScalarEncoders.

(* ------------------------------------------------------------------------- *)
(** ** The order of option types *)

Lemma isSubOptionType_unfold (t1 t2 : pyType) :
  isSubOptionType t1 t2
  = if t1 == t2 then true
    else if isOptionType t2 && ((t1 == getReturnType t2) || (t1 == NULLVALUE)) then true
    else match t1, t2 with
         | TTuple ps1, TTuple ps2 =>
             if Nat.eqb (length ps1) (length ps2) then sub_fields ps1 ps2 else false
         | _, _ => false
         end.
Proof. destruct t1; reflexivity. Qed.

Lemma hasSuperOptionType_unfold (t1 t2 : pyType) :
  hasSuperOptionType t1 t2
  = if t1 == t2 then Some t1
    else if isOptionType t1 && ((getReturnType t1 == t2) || (NULLVALUE == t2)) then Some t1
    else if isOptionType t2 && ((getReturnType t2 == t1) || (NULLVALUE == t1)) then Some t2
    else if t1 == NULLVALUE then Some (makeOptionType t2)
    else if t2 == NULLVALUE then Some (makeOptionType t1)
    else match t1, t2 with
         | TTuple ps1, TTuple ps2 =>
             if Nat.eqb (length ps1) (length ps2)
             then option_map makeTupleType (super_fields ps1 ps2)
             else None
         | _, _ => None
         end.
Proof. destruct t1; reflexivity. Qed.

Lemma tuple_type_ind (P : pyType -> Prop) :
  (forall t, isTupleType t = false -> P t) ->
  (forall ps, Forall P ps -> P (TTuple ps)) ->
  forall t, P t.
Proof.
  intros Hother Htuple. fix IH 1. intros t.
  destruct t; try (apply Hother; reflexivity).
  apply Htuple. induction params as [|p ps IHps]; constructor; [apply IH | exact IHps].
Qed.

Lemma type_eqb_sym (a b : pyType) : (a == b) = (b == a).
Proof.
  destruct (a == b) eqn:E; symmetry.
  - apply type_eqb_eq. apply type_eqb_eq in E. congruence.
  - apply type_eqb_neq. apply type_eqb_neq in E. congruence.
Qed.

Lemma isSubOptionType_refl (t : pyType) : isSubOptionType t t = true.
Proof. rewrite isSubOptionType_unfold, type_eqb_refl. reflexivity. Qed.

Lemma option_of_option (t : pyType) : t <> TOption (TOption t).
Proof.
  induction t; try discriminate.
  intros E. injection E as E. auto.
Qed.

Ltac eqb_to_prop :=
  repeat match goal with
         | H : (_ == _) = true |- _ => apply type_eqb_eq in H
         | H : (_ == _) = false |- _ => apply type_eqb_neq in H
         | H : _ || _ = true |- _ => apply orb_true_iff in H
         | H : _ || _ = false |- _ => apply orb_false_iff in H; destruct H
         | H : _ && _ = true |- _ => apply andb_true_iff in H; destruct H
         end.

Lemma super_fields_bound (ps1 : list pyType) :
  Forall (fun a => forall b s, hasSuperOptionType a b = Some s ->
                     isSubOptionType a s = true /\ isSubOptionType b s = true) ps1 ->
  forall ps2 ss,
    length ps1 = length ps2 ->
    super_fields ps1 ps2 = Some ss ->
    length ss = length ps1 /\ sub_fields ps1 ss = true /\ sub_fields ps2 ss = true.
Proof.
  induction 1 as [|a ps1 Ha _ IH]; intros ps2 ss Hlen Hs.
  - destruct ps2; [|discriminate]. injection Hs as <-. auto.
  - destruct ps2 as [|b ps2]; [discriminate|]. injection Hlen as Hlen.
    cbn [super_fields] in Hs.
    destruct (hasSuperOptionType a b) as [s|] eqn:Es; [|discriminate].
    destruct (super_fields ps1 ps2) as [ss'|] eqn:Ess; [|discriminate].
    injection Hs as <-.
    destruct (Ha b s Es) as [H1 H2].
    destruct (IH ps2 ss' Hlen Ess) as [H3 [H4 H5]].
    cbn [length sub_fields]. rewrite H1, H2. auto.
Qed.

Lemma hasSuperOptionType_bound (t1 : pyType) :
  forall t2 s,
    hasSuperOptionType t1 t2 = Some s ->
    isSubOptionType t1 s = true /\ isSubOptionType t2 s = true.
Proof.
  induction t1 as [t1 Hnt | ps1 IH] using tuple_type_ind; intros t2 s;
    rewrite hasSuperOptionType_unfold.
  - destruct (t1 == t2) eqn:E12.
    { intros [= <-]. eqb_to_prop. subst t2. split; apply isSubOptionType_refl. }
    destruct (isOptionType t1 && _) eqn:EA.
    { intros [= <-]. split; [apply isSubOptionType_refl|].
      rewrite isSubOptionType_unfold, (type_eqb_sym t2 t1), E12.
      apply andb_true_iff in EA as [-> EA]. cbn [andb].
      rewrite (type_eqb_sym t2 (getReturnType t1)), (type_eqb_sym t2 NULLVALUE), EA.
      reflexivity. }
    destruct (isOptionType t2 && _) eqn:EB.
    { intros [= <-]. split; [|apply isSubOptionType_refl].
      rewrite isSubOptionType_unfold, E12.
      apply andb_true_iff in EB as [-> EB]. cbn [andb].
      rewrite (type_eqb_sym t1 (getReturnType t2)), (type_eqb_sym t1 NULLVALUE), EB.
      reflexivity. }
    destruct (t1 == NULLVALUE) eqn:E1.
    { intros [= <-]. unfold makeOptionType. split.
      - rewrite isSubOptionType_unfold. cbn [isOptionType getReturnType andb].
        rewrite E1, orb_true_r. destruct (t1 == TOption t2); reflexivity.
      - rewrite isSubOptionType_unfold. cbn [isOptionType getReturnType andb].
        rewrite type_eqb_refl. destruct (t2 == TOption t2); reflexivity. }
    destruct (t2 == NULLVALUE) eqn:E2.
    { intros [= <-]. unfold makeOptionType. split.
      - rewrite isSubOptionType_unfold. cbn [isOptionType getReturnType andb].
        rewrite type_eqb_refl. destruct (t1 == TOption t1); reflexivity.
      - rewrite isSubOptionType_unfold. cbn [isOptionType getReturnType andb].
        rewrite E2, orb_true_r. destruct (t2 == TOption t1); reflexivity. }
    destruct t1; discriminate.
  - destruct (TTuple ps1 == t2) eqn:E12.
    { intros [= <-]. eqb_to_prop. subst t2. split; apply isSubOptionType_refl. }
    cbn [isOptionType andb].
    destruct (isOptionType t2 && _) eqn:EB.
    { intros [= <-]. split; [|apply isSubOptionType_refl].
      rewrite isSubOptionType_unfold, E12.
      apply andb_true_iff in EB as [-> EB]. cbn [andb].
      rewrite (type_eqb_sym _ (getReturnType t2)), (type_eqb_sym _ NULLVALUE), EB.
      reflexivity. }
    destruct (TTuple ps1 == NULLVALUE) eqn:E1; [eqb_to_prop; discriminate|].
    destruct (t2 == NULLVALUE) eqn:E2.
    { intros [= <-]. unfold makeOptionType. split.
      - rewrite isSubOptionType_unfold. cbn [isOptionType getReturnType andb].
        rewrite type_eqb_refl. destruct (TTuple ps1 == TOption _); reflexivity.
      - rewrite isSubOptionType_unfold. cbn [isOptionType getReturnType andb].
        rewrite E2, orb_true_r. destruct (t2 == TOption _); reflexivity. }
    destruct t2 as [| | | | | | | | | | |ps2| |]; try discriminate.
    destruct (Nat.eqb (length ps1) (length ps2)) eqn:El; [|discriminate].
    apply Nat.eqb_eq in El.
    destruct (super_fields ps1 ps2) as [ss|] eqn:Ess; [|discriminate].
    intros [= <-]. unfold makeTupleType.
    destruct (super_fields_bound ps1 IH ps2 ss El Ess) as [H1 [H2 H3]].
    split; rewrite isSubOptionType_unfold; cbn [isOptionType andb].
    + destruct (TTuple ps1 == TTuple ss); [reflexivity|].
      rewrite H1, Nat.eqb_refl. exact H2.
    + destruct (TTuple ps2 == TTuple ss); [reflexivity|].
      replace (Nat.eqb (length ps2) (length ss)) with true
        by (symmetry; apply Nat.eqb_eq; congruence).
      exact H3.
Qed.

Lemma option_tests_exclusive (t1 t2 : pyType) :
  isOptionType t1 && ((getReturnType t1 == t2) || (NULLVALUE == t2)) = true ->
  isOptionType t2 && ((getReturnType t2 == t1) || (NULLVALUE == t1)) = true ->
  False.
Proof.
  intros EA EB.
  destruct t1; try discriminate EA. destruct t2; try discriminate EB.
  cbn [isOptionType getReturnType andb] in EA, EB. eqb_to_prop.
  destruct EA as [EA | EA]; [|discriminate EA].
  destruct EB as [EB | EB]; [|discriminate EB].
  eqb_to_prop. subst t1. apply (option_of_option t2). exact EB.
Qed.

Lemma sub_fields_super (ps1 : list pyType) :
  Forall (fun a => forall b, isSubOptionType a b = true ->
                             hasSuperOptionType a b = Some b) ps1 ->
  forall ps2,
    length ps1 = length ps2 ->
    sub_fields ps1 ps2 = true ->
    super_fields ps1 ps2 = Some ps2.
Proof.
  induction 1 as [|a ps1 Ha _ IH]; intros ps2 Hlen Hs.
  - destruct ps2; [reflexivity | discriminate].
  - destruct ps2 as [|b ps2]; [discriminate|]. injection Hlen as Hlen.
    cbn [sub_fields] in Hs. destruct (isSubOptionType a b) eqn:Eab; [|discriminate].
    cbn [super_fields]. rewrite (Ha b Eab), (IH ps2 Hlen Hs). reflexivity.
Qed.

Lemma isSubOptionType_super (t1 : pyType) :
  forall t2, isSubOptionType t1 t2 = true -> hasSuperOptionType t1 t2 = Some t2.
Proof.
  induction t1 as [t1 Hnt | ps1 IH] using tuple_type_ind; intros t2;
    rewrite isSubOptionType_unfold, hasSuperOptionType_unfold;
    (destruct (_ == t2) eqn:E12; [intros _; eqb_to_prop; congruence|]).
  - destruct (isOptionType t2 && _) eqn:EB.
    + intros _.
      assert (EB' : isOptionType t2
                    && ((getReturnType t2 == t1) || (NULLVALUE == t1)) = true).
      { rewrite (type_eqb_sym _ t1), (type_eqb_sym NULLVALUE t1). exact EB. }
      destruct (isOptionType t1 && _) eqn:EA.
      { exfalso. exact (option_tests_exclusive t1 t2 EA EB'). }
      rewrite EB'. reflexivity.
    + destruct t1; try discriminate; discriminate Hnt.
  - cbn [isOptionType andb].
    destruct (isOptionType t2 && _) eqn:EB.
    + intros _.
      rewrite (type_eqb_sym (getReturnType t2)), (type_eqb_sym NULLVALUE), EB.
      reflexivity.
    + rewrite (type_eqb_sym (getReturnType t2)), (type_eqb_sym NULLVALUE (TTuple ps1)), EB.
      destruct t2 as [| | | | | | | | | | |ps2| |]; try discriminate.
      destruct (Nat.eqb (length ps1) (length ps2)) eqn:El; [|discriminate].
      apply Nat.eqb_eq in El. intros Hs.
      replace (TTuple ps1 == NULLVALUE) with false
        by (symmetry; apply type_eqb_neq; discriminate).
      replace (TTuple ps2 == NULLVALUE) with false
        by (symmetry; apply type_eqb_neq; discriminate).
      rewrite (sub_fields_super ps1 IH ps2 El Hs). reflexivity.
Qed.

Lemma super_fields_comm (ps1 : list pyType) :
  Forall (fun a => forall b, hasSuperOptionType a b = hasSuperOptionType b a) ps1 ->
  forall ps2, super_fields ps1 ps2 = super_fields ps2 ps1.
Proof.
  induction 1 as [|a ps1 Ha _ IH]; intros ps2.
  - destruct ps2; reflexivity.
  - destruct ps2 as [|b ps2]; [reflexivity|].
    cbn [super_fields]. rewrite (Ha b), (IH ps2). reflexivity.
Qed.

Lemma hasSuperOptionType_comm (t1 : pyType) :
  forall t2, hasSuperOptionType t1 t2 = hasSuperOptionType t2 t1.
Proof.
  induction t1 as [t1 Hnt | ps1 IH] using tuple_type_ind; intros t2;
    match goal with
    | |- hasSuperOptionType ?a _ = _ =>
        rewrite (hasSuperOptionType_unfold a t2), (hasSuperOptionType_unfold t2 a);
        rewrite (type_eqb_sym t2 a);
        destruct (a == t2) eqn:E12; [eqb_to_prop; subst t2; reflexivity|]
    end.
  - destruct (isOptionType t1 && _) eqn:EA;
      destruct (isOptionType t2 && _) eqn:EB; try reflexivity.
    { exfalso. exact (option_tests_exclusive t1 t2 EA EB). }
    destruct (t1 == NULLVALUE) eqn:E1; destruct (t2 == NULLVALUE) eqn:E2;
      try reflexivity.
    { eqb_to_prop. congruence. }
    destruct t1; try discriminate Hnt; destruct t2; reflexivity.
  - cbn [isOptionType andb].
    destruct (isOptionType t2 && _) eqn:EB; try reflexivity.
    destruct (TTuple ps1 == NULLVALUE) eqn:E1; [eqb_to_prop; discriminate|].
    destruct (t2 == NULLVALUE) eqn:E2; try reflexivity.
    destruct t2 as [| | | | | | | | | | |ps2| |]; try reflexivity.
    rewrite (Nat.eqb_sym (length ps2)), (super_fields_comm ps1 IH ps2). reflexivity.
Qed.

Lemma isSubOptionType_antisym (t1 t2 : pyType) :
  isSubOptionType t1 t2 = true -> isSubOptionType t2 t1 = true -> t1 = t2.
Proof.
  intros H12 H21. apply isSubOptionType_super in H12, H21.
  rewrite hasSuperOptionType_comm, H21 in H12. congruence.
Qed.

Lemma hasSuperOptionType_same (t : pyType) : hasSuperOptionType t t = Some t.
Proof. rewrite hasSuperOptionType_unfold, type_eqb_refl. reflexivity. Qed.

(** X1.  A common super type is an upper bound: when [hasSuperOptionType]
    finds a type for two types, each of the two is a sub option type of it. *)
Theorem super_option_is_upper_bound (t1 t2 s : pyType) :
  hasSuperOptionType t1 t2 = Some s ->
  isSubOptionType t1 s = true /\ isSubOptionType t2 s = true.
Proof. apply hasSuperOptionType_bound. Qed.

Lemma super_option_is_upper_bound_witness :
  hasSuperOptionType (TTuple [I64; NULLVALUE]) (TTuple [NULLVALUE; STRING])
    = Some (TTuple [TOption I64; TOption STRING]) /\
  isSubOptionType (TTuple [I64; NULLVALUE])
                  (TTuple [TOption I64; TOption STRING]) = true /\
  isSubOptionType (TTuple [NULLVALUE; STRING])
                  (TTuple [TOption I64; TOption STRING]) = true.
Proof.
  split; [reflexivity|].
  exact (super_option_is_upper_bound
           (TTuple [I64; NULLVALUE]) (TTuple [NULLVALUE; STRING])
           (TTuple [TOption I64; TOption STRING]) eq_refl).
Defined.

(** X2.  The search for a common super type does not depend on the order of
    its two arguments. *)
Theorem super_option_commutes (t1 t2 : pyType) :
  hasSuperOptionType t1 t2 = hasSuperOptionType t2 t1.
Proof. apply hasSuperOptionType_comm. Qed.

(** X3.  The two functions agree: a type is a sub option type of another
    exactly when the common super type of the two is the other one. *)
Theorem sub_option_iff_super_option (t1 t2 : pyType) :
  isSubOptionType t1 t2 = true <-> hasSuperOptionType t1 t2 = Some t2.
Proof.
  split; [apply isSubOptionType_super|].
  intros E. apply hasSuperOptionType_bound in E. apply E.
Qed.

(** X4.  Being a sub option type is reflexive and antisymmetric: two types
    that are sub option types of each other are the same type. *)
Theorem sub_option_antisymmetric (t1 t2 : pyType) :
  isSubOptionType t1 t1 = true /\
  (isSubOptionType t1 t2 = true -> isSubOptionType t2 t1 = true -> t1 = t2).
Proof. split; [apply isSubOptionType_refl | apply isSubOptionType_antisym]. Qed.

(* ------------------------------------------------------------------------- *)
(** ** Inference over samples of one type and over empty samples *)

Section InferenceFacts.
Context `{Build} `{Driver} `{PythonHelpers} `{TypeOrder} `{Signals}
        `{ContextOptions} `{TypeHelpers}.

Lemma sort_by_subclass_nil : sort_by_subclass [] = [].
Proof.
  apply Permutation_nil. apply Permutation_sym. apply sort_by_subclass_perm.
Qed.

Lemma sort_by_subclass_one (e : pyType * Z) : sort_by_subclass [e] = [e].
Proof.
  apply Permutation_length_1_inv. apply Permutation_sym. apply sort_by_subclass_perm.
Qed.

Lemma histogram_of_one_type (t : pyType) (items : list PyObject) (n : Z) :
  (forall o, In o items -> mapPythonClassToTuplexType o = t) ->
  fold_left (fun m o => map_count m (mapPythonClassToTuplexType o)) items [(t, n)]
  = [(t, n + Z.of_nat (length items))].
Proof.
  revert n. induction items as [|o items IH]; intros n Hall.
  - cbn. f_equal. f_equal. lia.
  - cbn [fold_left map_count]. rewrite (Hall o (or_introl eq_refl)), type_eqb_refl.
    rewrite IH by (intros o' Hin; apply Hall; right; exact Hin).
    f_equal. f_equal. cbn [length]. lia.
Qed.

Lemma majority_of_one_type (t : pyType) (n : Z) :
  INT_MIN < n ->
  majority_scan [(t, n)]
  = {| max_ := n; majType_ := t;
       maxTuple_ := if isTupleType t then n else INT_MIN;
       majTupleType_ := if isTupleType t then t else UNKNOWN |}.
Proof.
  intros Hn.
  assert (Hgt : (n >? INT_MIN) = true) by (apply Z.gtb_lt; lia).
  unfold majority_scan, majority_step, majority_init. cbn [fold_left fst snd max_].
  rewrite Hgt. cbn [maxTuple_ max_ majType_ majTupleType_].
  destruct (isTupleType t); cbn [andb]; rewrite ?Hgt; reflexivity.
Qed.

Lemma one_type_row_type (t : pyType) (n numSamples : Z) (threshold : float) :
  INT_MIN < n ->
  buildRowTypeFromSamples [(t, n)] numSamples threshold = Ret t.
Proof.
  intros Hn. unfold buildRowTypeFromSamples, tuple_stage.
  rewrite sort_by_subclass_one, (majority_of_one_type t n Hn).
  cbn [max_ majType_ maxTuple_ majTupleType_].
  assert (Hopt : option_stage [(t, n)] numSamples threshold t = Ret t).
  { unfold option_stage, count. cbn [existsb fst orb].
    destruct (t == UNKNOWN) eqn:E1; [reflexivity|].
    destruct (t == NULLVALUE) eqn:E2; reflexivity. }
  destruct (isTupleType t) eqn:Et.
  - rewrite Et. cbn [super_scan]. rewrite hasSuperOptionType_same. cbn [at_].
    rewrite type_eqb_refl. cbn [bind].
    replace (0 + n >? n) with false by (symmetry; rewrite Z.gtb_ltb; apply Z.ltb_ge; lia).
    cbn [andb bind]. exact Hopt.
  - cbn [isTupleType bind]. exact Hopt.
Qed.

Lemma inferType_homogeneous (L : list PyObject) (t : pyType) :
  0 < sampleSize L ->
  (forall o, In o (sample L) -> mapPythonClassToTuplexType o = t) ->
  inferType L = Ret t.
Proof.
  intros Hpos Hall. unfold inferType.
  assert (Hlen : Z.of_nat (length (sample L)) = sampleSize L).
  { unfold sample. rewrite length_firstn. pose proof (sampleSize_range L). lia. }
  destruct (sample L) as [|o items] eqn:Es; [cbn in Hlen; lia|].
  cbn [fold_left map_count].
  rewrite (Hall o (or_introl eq_refl)).
  rewrite histogram_of_one_type
    by (intros o' Hin; apply Hall; right; exact Hin).
  apply one_type_row_type. unfold INT_MIN. lia.
Qed.

Lemma inferType_empty_sample (L : list PyObject) :
  sampleSize L = 0 -> inferType L = Ret UNKNOWN.
Proof.
  intros Hs. unfold inferType, sample. rewrite Hs. cbn [Z.to_nat firstn fold_left].
  unfold buildRowTypeFromSamples, tuple_stage. rewrite sort_by_subclass_nil.
  reflexivity.
Qed.

Lemma sampleSize_nil : sampleSize [] = 0.
Proof. pose proof (sampleSize_range []). cbn in *. lia. Qed.

(** X5.  Type inference returns a type for every list, and the type is
    UNKNOWN when the sample is empty. *)
Theorem inference_returns (L : list PyObject) :
  (exists t, inferType L = Ret t) /\
  (sampleSize L = 0 -> inferType L = Ret UNKNOWN).
Proof.
  split; [|apply inferType_empty_sample].
  unfold inferType. apply buildRowTypeFromSamples_returns.
Qed.

(** X6.  When every element of a non-empty sample is classified as the same
    type, that type is the inferred one, whatever the thresholds and the
    type order are. *)
Theorem inference_of_one_type (L : list PyObject) (t : pyType) :
  0 < sampleSize L ->
  (forall o, In o (sample L) -> mapPythonClassToTuplexType o = t) ->
  inferType L = Ret t.
Proof. apply inferType_homogeneous. Qed.

(** X7.  A list with an empty sample has no usable row type: [parallelize]
    called on it without a schema empties the quarantine list and returns
    the error dataset of the unsupported row type UNKNOWN.  The empty list is
    such a list, whatever the sample size function is. *)
Theorem parallelize_empty_list (L : list PyObject) (columns : list pystr) (h : Host) :
  (sampleSize L = 0 ->
   parallelize L columns None h
   = Ret (makeError (unsupported_msg UNKNOWN), clear_bad h)) /\
  parallelize [] columns None h
  = Ret (makeError (unsupported_msg UNKNOWN), clear_bad h) /\
  badParallelizeObjects (clear_bad h) = [].
Proof.
  assert (Hgen : forall L0, sampleSize L0 = 0 ->
             parallelize L0 columns None h
             = Ret (makeError (unsupported_msg UNKNOWN), clear_bad h)).
  { intros L0 Hs. unfold parallelize. rewrite (inferType_empty_sample L0 Hs).
    reflexivity. }
  split; [apply Hgen|]. split; [apply Hgen, sampleSize_nil | reflexivity].
Qed.

End InferenceFacts.

Lemma inference_of_one_type_witness :
  @inferType demo_helpers demo_order demo_options
    [Py_Tuple [Py_Long 1; str "a"]; Py_Tuple [Py_Long 2; str "b"]]
  = Ret (TTuple [I64; STRING]).
Proof.
  apply (@inference_of_one_type demo_helpers demo_order demo_options
           [Py_Tuple [Py_Long 1; str "a"]; Py_Tuple [Py_Long 2; str "b"]]
           (TTuple [I64; STRING])).
  - reflexivity.
  - intros o [<- | [<- | []]]; reflexivity.
Defined.

(* ------------------------------------------------------------------------- *)
(** ** What the scalar encoders store *)

Lemma app_split_by_length {A : Type} (l1 l2 r1 r2 : list A) :
  length l1 = length r1 -> l1 ++ l2 = r1 ++ r2 -> l1 = r1 /\ l2 = r2.
Proof.
  revert r1. induction l1 as [|x l1 IH]; intros [|y r1] Hlen E; try discriminate.
  - auto.
  - injection Hlen as Hlen. injection E as -> E.
    destruct (IH r1 Hlen E) as [-> ->]. auto.
Qed.

Lemma load_words (m : Memory) (ws : list Z) (a : Z) :
  load_bytes m a (8 * length ws) = flat_map (le_split 8) ws ->
  map (fun j => load64 m (a + 8 * Z.of_nat j)) (seq 0 (length ws))
  = map (fun v => v mod 2 ^ 64) ws.
Proof.
  revert a. induction ws as [|v ws IH]; intros a Hload; [reflexivity|].
  cbn [length flat_map] in Hload.
  replace (8 * S (length ws))%nat with (8 + 8 * length ws)%nat in Hload by lia.
  rewrite load_bytes_app in Hload.
  apply app_split_by_length in Hload as [Hhead Htail];
    [|rewrite load_bytes_length, length_le_split; reflexivity].
  cbn [length seq map]. f_equal.
  - unfold load64. replace (a + 8 * Z.of_nat 0) with a by lia.
    rewrite Hhead. apply le_combine_split.
  - rewrite <- seq_shift, map_map. rewrite <- (IH (a + Z.of_nat 8)).
    + apply map_ext. intros j. f_equal. lia.
    + exact Htail.
Qed.

Lemma part_words_slot_words (p : Partition) (ws : list Z) :
  part_words p ws -> slot_words p = map (fun v => v mod 2 ^ 64) ws.
Proof.
  intros [Hrows Hload]. unfold slot_words. rewrite Hrows, Nat2Z.id.
  rewrite <- (load_words (payload p) ws 0 Hload). reflexivity.
Qed.

Lemma parts_words_slot_words (parts : list Partition) (wss : list (list Z)) :
  Forall2 part_words parts wss ->
  concat (map slot_words parts) = map (fun v => v mod 2 ^ 64) (concat wss).
Proof.
  induction 1 as [|p ws parts wss Hp _ IH]; [reflexivity|].
  cbn [map concat]. rewrite map_app, IH, (part_words_slot_words p ws Hp). reflexivity.
Qed.

Lemma part_words_unlock (p : Partition) (ws : list Z) :
  part_words p ws -> part_words (unlockWrite p) ws.
Proof. intros Hp. exact Hp. Qed.

Section ScalarWords.
Context `{Build} `{Driver} `{PythonHelpers}.

Lemma ensure_capacity_words (req newMin : Z) (schema : pyType) (w : Writer)
  (done : list (list Z)) (cur : list Z) :
  writer_words w done cur ->
  exists done' cur',
    writer_words (ensure_capacity req newMin schema w) done' cur' /\
    concat (done' ++ [cur']) = concat (done ++ [cur]).
Proof.
  intros [Hdone [Hcur Hptr]]. unfold ensure_capacity.
  destruct (_ <? _).
  - exists (done ++ [cur]), []. split.
    + split; [|split].
      * cbn [next_partition partitions]. apply Forall2_app; [exact Hdone|].
        constructor; [apply part_words_unlock; exact Hcur | constructor].
      * split; reflexivity.
      * reflexivity.
    + rewrite !concat_app. cbn. rewrite !app_nil_r. reflexivity.
  - exists done, cur. split; [|reflexivity]. split; [|split]; assumption.
Qed.

Lemma commit_slot_words (v : Z) (w : Writer) (done : list (list Z)) (cur : list Z) :
  writer_words w done cur ->
  writer_words (commit_slot v w) done (cur ++ [v]).
Proof.
  intros [Hdone [[Hrows Hload] Hptr]]. split; [exact Hdone|]. split; [split|].
  - cbn. rewrite Hrows, length_app. cbn. lia.
  - cbn [commit_slot partition inc_numRows with_payload payload].
    rewrite length_app, flat_map_app. cbn [length flat_map]. rewrite app_nil_r.
    replace (8 * (length cur + 1))%nat with (8 * length cur + 8)%nat by lia.
    rewrite load_bytes_app. f_equal.
    + rewrite load_bytes_store64_disjoint by lia. exact Hload.
    + replace (0 + Z.of_nat (8 * length cur)) with (ptr w) by lia.
      apply load_bytes_store64_same.
  - cbn [commit_slot ptr]. rewrite length_app. cbn [length]. lia.
Qed.

Section Loop.
Variable schema : pyType.
Variable newMin : Z.
Variable word : PyObject -> option Z.
Variable body : Z -> PyObject -> Writer * Host -> Outcome (Writer * Host).
Variable P : Host -> Prop.

Hypothesis body_step : forall i o w h w' h',
  P h -> body i o (w, h) = Ret (w', h') ->
  P h' /\
  match word o with
  | Some v =>
      w' = commit_slot v (ensure_capacity 8 newMin schema w) /\
      badParallelizeObjects h' = badParallelizeObjects h
  | None =>
      w' = ensure_capacity 8 newMin schema w /\
      badParallelizeObjects h' = badParallelizeObjects h ++ [(i, o)]
  end.

Lemma words_loop (L : list PyObject) :
  forall i w h w' h' done cur,
    P h -> writer_words w done cur ->
    for_each body L i (w, h) = Ret (w', h') ->
    exists done' cur',
      writer_words w' done' cur' /\
      concat (done' ++ [cur']) = concat (done ++ [cur]) ++ accepted_words word L /\
      badParallelizeObjects h' = badParallelizeObjects h ++ rejected_by word L i /\
      P h'.
Proof.
  induction L as [|o L IH]; intros i w h w' h' done cur HP Hw.
  - cbn [for_each]. intros E. apply Ret_pair_inj in E as [<- <-].
    exists done, cur. cbn. rewrite !app_nil_r. auto.
  - cbn [for_each].
    destruct (body i o (w, h)) as [[w1 h1]| |] eqn:Ebody; cbn [bind]; try discriminate.
    intros Erest.
    destruct (body_step i o w h w1 h1 HP Ebody) as [HP1 Hstep].
    destruct (ensure_capacity_words 8 newMin schema w done cur Hw)
      as [done1 [cur1 [Hw1 Hcat1]]].
    cbn [accepted_words flat_map rejected_by].
    destruct (word o) as [v|]; destruct Hstep as [-> Hbad1].
    + apply (commit_slot_words v) in Hw1.
      destruct (IH (i + 1) _ h1 w' h' done1 (cur1 ++ [v]) HP1 Hw1 Erest)
        as [done' [cur' [Hw' [Hcat' [Hbad' HP']]]]].
      exists done', cur'. split; [exact Hw'|]. split; [|split].
      * rewrite Hcat'. rewrite <- Hcat1, !concat_app. cbn [concat].
        rewrite !app_nil_r, <- !app_assoc. reflexivity.
      * rewrite Hbad', Hbad1. reflexivity.
      * exact HP'.
    + destruct (IH (i + 1) _ h1 w' h' done1 cur1 HP1 Hw1 Erest)
        as [done' [cur' [Hw' [Hcat' [Hbad' HP']]]]].
      exists done', cur'. split; [exact Hw'|]. split; [|split].
      * rewrite Hcat', Hcat1. reflexivity.
      * rewrite Hbad', Hbad1, <- app_assoc. reflexivity.
      * exact HP'.
Qed.

Lemma words_encoder (L : list PyObject) (minSize : Z) (w' : Writer) (h h' : Host) :
  P h ->
  for_each body L 0 (open_writer minSize schema, h) = Ret (w', h') ->
  concat (map slot_words (close_writer w'))
  = map (fun v => v mod 2 ^ 64) (accepted_words word L) /\
  badParallelizeObjects h' = badParallelizeObjects h ++ rejected_by word L 0 /\
  P h'.
Proof.
  intros HP Eloop.
  destruct (words_loop L 0 (open_writer minSize schema) h w' h' [] [] HP)
    as [done [cur [[Hdone [Hcur _]] [Hcat [Hbad HP']]]]].
  - split; [constructor|]. split; [split; reflexivity | reflexivity].
  - exact Eloop.
  - split; [|split; assumption].
    rewrite (parts_words_slot_words (close_writer w') (done ++ [cur])).
    + rewrite Hcat. reflexivity.
    + unfold close_writer. apply Forall2_app; [exact Hdone|].
      constructor; [exact Hcur | constructor].
Qed.

End Loop.

End ScalarWords.

Lemma signed64_word (v : Z) :
  - 2 ^ 63 <= v < 2 ^ 63 -> signed64 (v mod 2 ^ 64) = v.
Proof.
  intros Hv. unfold signed64.
  destruct (Z.lt_ge_cases v 0) as [Hneg | Hpos].
  - replace (v mod 2 ^ 64) with (v + 2 ^ 64)
      by (apply Z.mod_unique with (q := -1); lia).
    replace (v + 2 ^ 64 <? 2 ^ 63) with false by (symmetry; apply Z.ltb_ge; lia).
    lia.
  - rewrite Z.mod_small by lia.
    replace (v <? 2 ^ 63) with true by (symmetry; apply Z.ltb_lt; lia).
    reflexivity.
Qed.

Lemma i64_words_fit (upcast : bool) (L : list PyObject) :
  Forall (fun v => - 2 ^ 63 <= v < 2 ^ 63) (accepted_words (i64_word upcast) L).
Proof.
  induction L as [|o L IH]; [constructor|].
  cbn [accepted_words flat_map]. apply Forall_app. split; [|exact IH].
  destruct o; cbn [i64_word]; try constructor.
  - destruct upcast; [|constructor]. constructor; [|constructor].
    destruct b; lia.
  - destruct (fits_int64 z) eqn:Ef; [|constructor]. constructor; [|constructor].
    unfold fits_int64 in Ef. apply andb_true_iff in Ef as [E1 E2].
    apply Z.leb_le in E1. apply Z.ltb_lt in E2. lia.
Qed.

Lemma bool_words_small (L : list PyObject) :
  Forall (fun v => 0 <= v < 2 ^ 64) (accepted_words bool_word L).
Proof.
  induction L as [|o L IH]; [constructor|].
  cbn [accepted_words flat_map]. apply Forall_app. split; [|exact IH].
  destruct o; cbn [bool_word]; try constructor; [|constructor].
  destruct b; lia.
Qed.

Section ScalarBodies.
Context `{Build} `{Driver} `{PythonHelpers}.

Lemma fastBool_body_step (i : Z) (o : PyObject) (w : Writer) (h : Host)
  (w' : Writer) (h' : Host) :
  True -> fastBool_body i o (w, h) = Ret (w', h') ->
  True /\
  match bool_word o with
  | Some v =>
      w' = commit_slot v (ensure_capacity 8 (Z.max 8 allocMinSize) BOOLEAN_schema w) /\
      badParallelizeObjects h' = badParallelizeObjects h
  | None =>
      w' = ensure_capacity 8 (Z.max 8 allocMinSize) BOOLEAN_schema w /\
      badParallelizeObjects h' = badParallelizeObjects h ++ [(i, o)]
  end.
Proof.
  intros _. unfold fastBool_body.
  destruct o; cbn [PyBool_Check bool_word is_Py_True]; intros E;
    apply Ret_pair_inj in E as [<- <-]; split; auto.
  destruct b; auto.
Qed.

Lemma fastI64_body_step (upcast : bool) (i : Z) (o : PyObject) (w : Writer)
  (h : Host) (w' : Writer) (h' : Host) :
  err_indicator h = false -> fastI64_body upcast i o (w, h) = Ret (w', h') ->
  err_indicator h' = false /\
  match i64_word upcast o with
  | Some v =>
      w' = commit_slot v (ensure_capacity 8 (Z.max 8 allocMinSize) I64_schema w) /\
      badParallelizeObjects h' = badParallelizeObjects h
  | None =>
      w' = ensure_capacity 8 (Z.max 8 allocMinSize) I64_schema w /\
      badParallelizeObjects h' = badParallelizeObjects h ++ [(i, o)]
  end.
Proof.
  intros Herr. unfold fastI64_body, PyErr_Occurred.
  destruct o; cbn [PyLong_CheckExact i64_word is_Py_True is_Py_False orb
                   PyLong_AsLongLong];
    try (rewrite andb_false_r; intros E; apply Ret_pair_inj in E as [<- <-];
         split; auto).
  - destruct b; cbn [orb]; rewrite ?orb_true_r, andb_true_r; destruct upcast;
      intros E; apply Ret_pair_inj in E as [<- <-]; split; auto.
  - destruct (fits_int64 z); cbn [set_err err_indicator]; rewrite ?Herr;
      intros E; apply Ret_pair_inj in E as [<- <-]; split; auto.
Qed.

Lemma fastF64_body_step (upcast : bool) (i : Z) (o : PyObject) (w : Writer)
  (h : Host) (w' : Writer) (h' : Host) :
  err_indicator h = false -> fastF64_body upcast i o (w, h) = Ret (w', h') ->
  err_indicator h' = false /\
  match f64_word upcast o with
  | Some v =>
      w' = commit_slot v (ensure_capacity 8 (Z.max 8 allocMinSize) F64_schema w) /\
      badParallelizeObjects h' = badParallelizeObjects h
  | None =>
      w' = ensure_capacity 8 (Z.max 8 allocMinSize) F64_schema w /\
      badParallelizeObjects h' = badParallelizeObjects h ++ [(i, o)]
  end.
Proof.
  intros Herr. unfold fastF64_body, PyErr_Occurred.
  destruct o; cbn [PyFloat_CheckExact PyLong_CheckExact f64_word is_Py_True
                   is_Py_False orb PyLong_AsLongLong PyFloat_AS_DOUBLE];
    try (rewrite andb_false_r; intros E; apply Ret_pair_inj in E as [<- <-];
         split; auto).
  - destruct b; cbn [orb]; rewrite ?orb_true_r, andb_true_r; destruct upcast;
      intros E; apply Ret_pair_inj in E as [<- <-]; split; auto.
  - rewrite andb_true_r. destruct upcast; cbn [andb].
    + destruct (fits_int64 z); cbn [set_err err_indicator]; rewrite ?Herr;
        intros E; apply Ret_pair_inj in E as [<- <-]; split; auto.
    + intros E; apply Ret_pair_inj in E as [<- <-]; split; auto.
  - intros E; apply Ret_pair_inj in E as [<- <-]; split; auto.
Qed.

Lemma fastBool_body_returns (i : Z) (o : PyObject) (st : Writer * Host) :
  exists st', fastBool_body i o st = Ret st'.
Proof.
  destruct st as [w h]. unfold fastBool_body. destruct (PyBool_Check o); eauto.
Qed.

End ScalarBodies.

Lemma words_mod_small (ws : list Z) :
  Forall (fun v => 0 <= v < 2 ^ 64) ws -> map (fun v => v mod 2 ^ 64) ws = ws.
Proof.
  induction 1 as [|v ws Hv _ IH]; [reflexivity|].
  cbn [map]. rewrite IH, Z.mod_small by exact Hv. reflexivity.
Qed.

Lemma words_signed (ws : list Z) :
  Forall (fun v => - 2 ^ 63 <= v < 2 ^ 63) ws ->
  map signed64 (map (fun v => v mod 2 ^ 64) ws) = ws.
Proof.
  induction 1 as [|v ws Hv _ IH]; [reflexivity|].
  cbn [map]. rewrite IH, signed64_word by exact Hv. reflexivity.
Qed.

Lemma digits2_pos_bound (m : positive) : Z.pos m < 2 ^ Z.pos (digits2_pos m).
Proof.
  induction m as [m IH | m IH |]; cbn [digits2_pos].
  - rewrite Pos2Z.inj_succ, Z.pow_succ_r by lia. lia.
  - rewrite Pos2Z.inj_succ, Z.pow_succ_r by lia. lia.
  - cbn. lia.
Qed.

Lemma double_bits_range (d : float) : 0 <= double_bits d < 2 ^ 64.
Proof.
  unfold double_bits. pose proof (Prim2SF_valid d) as Hv.
  destruct (Prim2SF d) as [s | s | | s m e].
  - destruct s; lia.
  - destruct s; lia.
  - lia.
  - unfold valid_binary, SpecFloat.bounded, canonical_mantissa, fexp in Hv.
    apply andb_true_iff in Hv as [Hc He].
    apply Z.leb_le in He. apply Z.eqb_eq in Hc.
    pose proof (digits2_pos_bound m) as Hm.
    unfold FloatOps.prec, FloatOps.emax, emin in *.
    assert (Hd : Z.pos (digits2_pos m) <= 53) by lia.
    assert (Hm53 : Z.pos m < 2 ^ 53).
    { eapply Z.lt_le_trans; [exact Hm|]. apply Z.pow_le_mono_r; lia. }
    assert (He1 : - 1074 <= e <= 971) by lia.
    destruct (Z.pos m <? 2 ^ 52) eqn:E52.
    + apply Z.ltb_lt in E52. destruct s; lia.
    + apply Z.ltb_ge in E52. destruct s; nia.
Qed.

Lemma f64_words_small (upcast : bool) (L : list PyObject) :
  Forall (fun v => 0 <= v < 2 ^ 64) (accepted_words (f64_word upcast) L).
Proof.
  induction L as [|o L IH]; [constructor|].
  cbn [accepted_words flat_map]. apply Forall_app. split; [|exact IH].
  destruct o; cbn [f64_word]; try constructor.
  - destruct upcast; [|constructor]. constructor; [|constructor].
    apply double_bits_range.
  - destruct (upcast && fits_int64 z); [|constructor]. constructor; [|constructor].
    apply double_bits_range.
  - apply double_bits_range.
  - constructor.
Qed.

Section ScalarRoundTrip.
Context `{Build} `{Driver} `{PythonHelpers}.




End ScalarRoundTrip.



(* ------------------------------------------------------------------------- *)
(** ** The scalar encoders stay inside their partitions *)

Section BoundsFacts.
Context `{Build} `{Driver} `{PythonHelpers}.

Lemma bounded_open (minSize : Z) (schema : pyType) :
  within_capacity (open_writer minSize schema).
Proof.
  unfold within_capacity. cbn. repeat split; auto; try lia.
Qed.

Lemma bounded_in_bounds (w : Writer) :
  within_capacity w -> in_bounds (unlockWrite (partition w)).
Proof.
  intros [Hp0 [_ [Hcap [Hout _]]]]. split; [reflexivity|].
  cbn [unlockWrite payload capacity]. intros x Hx. apply Hout.
  destruct Hcap as [Hz | Hle]; lia.
Qed.

Lemma bounded_close (w : Writer) :
  within_capacity w -> Forall in_bounds (close_writer w).
Proof.
  intros Hb. unfold close_writer. apply Forall_app. split.
  - apply Hb.
  - constructor; [apply bounded_in_bounds; exact Hb | constructor].
Qed.

Lemma bounded_ensure (req newMin : Z) (schema : pyType) (w : Writer) :
  within_capacity w -> req <= newMin ->
  within_capacity (ensure_capacity req newMin schema w) /\
  ptr (ensure_capacity req newMin schema w) + req
  <= capacity (partition (ensure_capacity req newMin schema w)).
Proof.
  intros Hb Hreq. unfold ensure_capacity.
  destruct (capacity (partition w) <? numBytesSerialized w + req) eqn:E.
  - split.
    + unfold within_capacity. cbn [next_partition ptr numBytesSerialized partition partitions
                             allocWritablePartition payload capacity].
      repeat split; auto; try lia.
      apply Forall_app. split; [apply Hb|].
      constructor; [apply bounded_in_bounds; exact Hb | constructor].
    + cbn. pose proof (alloc_capacity_ge newMin). lia.
  - split; [exact Hb|]. apply Z.ltb_ge in E. destruct Hb as [_ [Hnb _]]. lia.
Qed.

(** Writing [req] bytes at the cursor, within the capacity. *)
Lemma bounded_write (w : Writer) (m : Memory) (req : Z) :
  within_capacity w -> 0 <= req -> ptr w + req <= capacity (partition w) ->
  (forall x, x < ptr w \/ ptr w + req <= x -> m x = payload (partition w) x) ->
  within_capacity {| partitions := partitions w;
             partition := inc_numRows (with_payload (partition w) m);
             ptr := ptr w + req;
             numBytesSerialized := numBytesSerialized w + req |}.
Proof.
  intros [Hp0 [Hnb [Hcap [Hout Hparts]]]] Hreq Hfit Hm.
  unfold within_capacity. cbn [ptr numBytesSerialized partition partitions inc_numRows
                         with_payload payload capacity].
  split; [lia|]. split; [lia|]. split; [right; lia|]. split; [|exact Hparts].
  intros x Hx. rewrite Hm by lia. apply Hout. lia.
Qed.

Lemma commit_slot_bounded (v : Z) (w : Writer) :
  within_capacity w -> ptr w + 8 <= capacity (partition w) -> within_capacity (commit_slot v w).
Proof.
  intros Hb Hfit. apply (bounded_write w _ 8 Hb); [lia | exact Hfit|].
  intros x Hx. unfold store64. apply memcpy_outside. lia.
Qed.

Lemma fastBool_body_bounded (i : Z) (o : PyObject) (st st' : Writer * Host) :
  within_capacity (fst st) -> fastBool_body i o st = Ret st' -> within_capacity (fst st').
Proof.
  destruct st as [w h]. cbn [fst]. intros Hb. unfold fastBool_body.
  destruct (bounded_ensure 8 (Z.max 8 allocMinSize) BOOLEAN_schema w Hb) as [Hb1 Hfit];
    [lia|].
  destruct (PyBool_Check o); intros E; apply Ret_inj in E; subst st'; cbn [fst].
  - apply commit_slot_bounded; assumption.
  - exact Hb1.
Qed.

Lemma fastI64_body_bounded (upcast : bool) (i : Z) (o : PyObject)
  (st st' : Writer * Host) :
  within_capacity (fst st) -> fastI64_body upcast i o st = Ret st' -> within_capacity (fst st').
Proof.
  destruct st as [w h]. cbn [fst]. intros Hb. unfold fastI64_body.
  destruct (bounded_ensure 8 (Z.max 8 allocMinSize) I64_schema w Hb) as [Hb1 Hfit];
    [lia|].
  destruct (PyLong_CheckExact o).
  - destruct (PyLong_AsLongLong o h) as [v h1].
    destruct (PyErr_Occurred h1); intros E; apply Ret_inj in E; subst st'; cbn [fst].
    + exact Hb1.
    + apply commit_slot_bounded; assumption.
  - destruct (upcast && _); intros E; apply Ret_inj in E; subst st'; cbn [fst].
    + apply commit_slot_bounded; assumption.
    + exact Hb1.
Qed.

Lemma fastF64_body_bounded (upcast : bool) (i : Z) (o : PyObject)
  (st st' : Writer * Host) :
  within_capacity (fst st) -> fastF64_body upcast i o st = Ret st' -> within_capacity (fst st').
Proof.
  destruct st as [w h]. cbn [fst]. intros Hb. unfold fastF64_body.
  destruct (bounded_ensure 8 (Z.max 8 allocMinSize) F64_schema w Hb) as [Hb1 Hfit];
    [lia|].
  destruct (PyFloat_CheckExact o).
  { intros E; apply Ret_inj in E; subst st'; cbn [fst].
    apply commit_slot_bounded; assumption. }
  destruct (upcast && _).
  - destruct (is_Py_True o || is_Py_False o).
    { intros E; apply Ret_inj in E; subst st'; cbn [fst].
      apply commit_slot_bounded; assumption. }
    destruct (PyLong_AsLongLong o h) as [v h1].
    destruct (PyErr_Occurred h1); intros E; apply Ret_inj in E; subst st'; cbn [fst].
    + exact Hb1.
    + apply commit_slot_bounded; assumption.
  - intros E; apply Ret_inj in E; subst st'; cbn [fst]. exact Hb1.
Qed.

Lemma fastStr_body_bounded (i : Z) (o : PyObject) (st st' : Writer * Host) :
  within_capacity (fst st) -> fastStr_body i o st = Ret st' -> within_capacity (fst st').
Proof.
  destruct st as [w h]. cbn [fst]. intros Hb. unfold fastStr_body.
  destruct o; cbn [PyUnicode_Check];
    try (intros E; apply Ret_inj in E; subst st'; exact Hb).
  cbn [PyUnicode_GET_SIZE]. set (len := Z.of_nat (length s)).
  destruct (bounded_ensure (8 * 2 + len + 1) (Z.max allocMinSize (8 * 2 + len + 1))
              STRING_schema w Hb) as [Hb1 Hfit]; [lia|].
  intros E. apply assert_returns in E. apply Ret_inj in E. subst st'. cbn [fst].
  apply (bounded_write _ _ (8 * 2 + len + 1) Hb1); [lia | exact Hfit|].
  intros x Hx. unfold store64.
  rewrite !memcpy_outside by lia. reflexivity.
Qed.

(** X12.  The fast bool, I64, F64 and string encoders write, apart from the
    header word, only payload bytes at offsets below [capacity()]: every
    partition of the dataset they return is unlocked, and its bytes in front
    of offset 0 of the payload and at offset [capacity()] or beyond are as
    the driver handed them out. *)
Theorem scalar_encoders_stay_in_bounds (L : list PyObject) (columns : list pystr)
  (h : Host) (ds : DataSet) (h' : Host) :
  (fastBoolParallelize L columns h = Ret (ds, h') ->
   Forall in_bounds (partitions_of ds)) /\
  (forall upcast,
      fastI64Parallelize L columns upcast h = Ret (ds, h') ->
      Forall in_bounds (partitions_of ds)) /\
  (forall upcast,
      fastF64Parallelize L columns upcast h = Ret (ds, h') ->
      Forall in_bounds (partitions_of ds)) /\
  (fastStrParallelize L columns h = Ret (ds, h') ->
   Forall in_bounds (partitions_of ds)).
Proof.
  assert (Hloop : forall body minSize schema st,
             (forall i o s s',
                 within_capacity (fst s) -> body i o s = Ret s' ->
                 within_capacity (fst s')) ->
             for_each body L 0 (open_writer minSize schema, h) = Ret st ->
             Forall in_bounds (close_writer (fst st))).
  { intros body minSize schema st Hbody Eloop. apply bounded_close.
    eapply (@for_each_invariant _ body (fun s => within_capacity (fst s)) Hbody);
      [|exact Eloop]. apply bounded_open. }
  repeat split.
  - unfold fastBoolParallelize. destruct (_ =? 0).
    + intros E. apply Ret_pair_inj in E as [<- _]. constructor.
    + destruct (for_each _ _ _ _) as [st| |] eqn:E; cbn [bind]; try discriminate.
      intros E1. apply Ret_pair_inj in E1 as [<- _]. cbn [partitions_of].
      exact (Hloop _ _ _ st fastBool_body_bounded E).
  - intros upcast. unfold fastI64Parallelize. destruct (_ =? 0).
    + intros E. apply Ret_pair_inj in E as [<- _]. constructor.
    + destruct (for_each _ _ _ _) as [st| |] eqn:E; cbn [bind]; try discriminate.
      intros E1. apply Ret_pair_inj in E1 as [<- _]. cbn [partitions_of].
      exact (Hloop _ _ _ st (fastI64_body_bounded upcast) E).
  - intros upcast E0. unfold fastF64Parallelize in E0. apply assert_returns in E0.
    revert E0. destruct (_ =? 0).
    + intros E. apply Ret_pair_inj in E as [<- _]. constructor.
    + destruct (for_each _ _ _ _) as [st| |] eqn:E; cbn [bind]; try discriminate.
      intros E1. apply Ret_pair_inj in E1 as [<- _]. cbn [partitions_of].
      exact (Hloop _ _ _ st (fastF64_body_bounded upcast) E).
  - unfold fastStrParallelize. destruct (_ =? 0).
    + intros E. apply Ret_pair_inj in E as [<- _]. constructor.
    + destruct (for_each _ _ _ _) as [st| |] eqn:E; cbn [bind]; try discriminate.
      intros E1. apply Ret_pair_inj in E1 as [<- _]. cbn [partitions_of].
      exact (Hloop _ _ _ st fastStr_body_bounded E).
Qed.

End BoundsFacts.

(* ------------------------------------------------------------------------- *)
(** ** Rows of the fast string encoder *)

Lemma plain_ascii_utf8 (s : pystr) :
  plain_ascii s -> utf8_encode s = map byte.of_Z s.
Proof.
  induction 1 as [|c s Hc _ IH]; [reflexivity|].
  unfold utf8_encode in *. cbn [flat_map map]. rewrite IH.
  unfold utf8_of_code_point.
  replace (c <? 128) with true by (symmetry; apply Z.ltb_lt; lia).
  reflexivity.
Qed.

Lemma plain_byte_not_nul (c : Z) : 0 < c < 128 -> is_nul (byte.of_Z c) = false.
Proof.
  intros Hc. destruct (is_nul (byte.of_Z c)) eqn:E; [|reflexivity].
  exfalso.
  assert (Hb : byte.of_Z c = Byte.x00) by (destruct (byte.of_Z c); try discriminate; reflexivity).
  apply (f_equal byte.unsigned) in Hb. rewrite byte.unsigned_of_Z in Hb.
  unfold byte.wrap in Hb. rewrite Z.mod_small in Hb by lia.
  cbn in Hb. lia.
Qed.

Lemma plain_ascii_strlen (s : pystr) :
  plain_ascii s -> strlen (PyUnicode_AsUTF8 (Py_Unicode s)) = Z.of_nat (length s).
Proof.
  intros Hs. cbn [PyUnicode_AsUTF8]. rewrite (plain_ascii_utf8 s Hs).
  induction Hs as [|c s Hc _ IH]; [reflexivity|].
  cbn [map app strlen length]. rewrite (plain_byte_not_nul c Hc), IH. lia.
Qed.

Section StrEncoder.
Context `{Build} `{Driver} `{PythonHelpers}.

Lemma str_row_length (s : pystr) :
  Z.of_nat (length (str_row (Py_Unicode s))) = 8 * 2 + Z.of_nat (length s) + 1.
Proof.
  unfold str_row. cbn [PyUnicode_GET_SIZE PyUnicode_AsUTF8].
  rewrite !length_app, !length_le_split.
  pose proof (utf8_encode_length s) as Hl.
  rewrite firstn_length_le by (rewrite length_app; cbn; lia). lia.
Qed.

Lemma ensure_capacity_strs (req newMin : Z) (schema : pyType) (w : Writer)
  (done : list (list PyObject)) (cur : list PyObject) :
  writer_strs w done cur ->
  exists done' cur',
    writer_strs (ensure_capacity req newMin schema w) done' cur' /\
    concat (done' ++ [cur']) = concat (done ++ [cur]).
Proof.
  intros [Hdone [Hcur Hptr]]. unfold ensure_capacity.
  destruct (_ <? _).
  - exists (done ++ [cur]), []. split.
    + split; [|split].
      * cbn [next_partition partitions]. apply Forall2_app; [exact Hdone|].
        constructor; [exact Hcur | constructor].
      * split; reflexivity.
      * reflexivity.
    + rewrite !concat_app. cbn. rewrite !app_nil_r. reflexivity.
  - exists done, cur. split; [|reflexivity]. split; [|split]; assumption.
Qed.

Lemma fastStr_body_holds (i : Z) (o : PyObject) (w w' : Writer) (h h' : Host)
  (done : list (list PyObject)) (cur : list PyObject) :
  writer_strs w done cur ->
  fastStr_body i o (w, h) = Ret (w', h') ->
  exists done' cur',
    writer_strs w' done' cur' /\
    concat (done' ++ [cur']) = concat (done ++ [cur]) ++ filter PyUnicode_Check [o] /\
    badParallelizeObjects h' = badParallelizeObjects h ++ str_rejected [o] i.
Proof.
  intros Hw. unfold fastStr_body. cbn [filter str_rejected].
  destruct (PyUnicode_Check o) eqn:Eu.
  - destruct o as [| | | |s| | | |]; try discriminate Eu.
    cbn [PyUnicode_GET_SIZE]. set (len := Z.of_nat (length s)).
    set (req := 8 * 2 + len + 1).
    destruct (ensure_capacity_strs req (Z.max allocMinSize req) STRING_schema w
                done cur Hw) as [done1 [cur1 [Hw1 Hcat1]]].
    set (w1 := ensure_capacity req (Z.max allocMinSize req) STRING_schema w) in *.
    intros E. apply assert_returns in E. apply Ret_pair_inj in E as [<- <-].
    destruct Hw1 as [Hdone1 [[Hrows1 Hbytes1] Hptr1]].
    exists done1, (cur1 ++ [Py_Unicode s]). split; [|split].
    + split; [exact Hdone1|]. split; [split|].
      * cbn. rewrite Hrows1, length_app. cbn. lia.
      * cbn [partition inc_numRows with_payload payload].
        rewrite flat_map_app. cbn [flat_map]. rewrite app_nil_r.
        rewrite length_app, load_bytes_app. f_equal.
        -- rewrite load_bytes_memcpy_disjoint by lia.
           rewrite !load_bytes_store64_disjoint by lia. exact Hbytes1.
        -- rewrite Z.add_0_l, <- Hptr1.
           unfold str_row at 2. cbn [PyUnicode_GET_SIZE]. fold len.
           assert (Hk : (Z.to_nat (len + 1)
                         <= length (PyUnicode_AsUTF8 (Py_Unicode s)))%nat).
           { cbn [PyUnicode_AsUTF8]. rewrite length_app. cbn [length].
             pose proof (utf8_encode_length s). lia. }
           replace (length (str_row (Py_Unicode s)))
             with (8 + (8 + Z.to_nat (len + 1)))%nat
             by (pose proof (str_row_length s); lia).
           rewrite !load_bytes_app. f_equal; [|f_equal].
           ++ rewrite load_bytes_memcpy_disjoint by lia.
              rewrite load_bytes_store64_disjoint by lia.
              apply load_bytes_store64_same.
           ++ rewrite load_bytes_memcpy_disjoint by lia.
              replace (ptr w1 + Z.of_nat 8) with (ptr w1 + 8) by lia.
              apply load_bytes_store64_same.
           ++ replace (ptr w1 + Z.of_nat 8 + Z.of_nat 8) with (ptr w1 + 8 * 2) by lia.
              match goal with
              | |- load_bytes (memcpy ?m ?d ?src _) _ _ = _ =>
                  replace (memcpy m d src (len + 1))
                    with (memcpy m d src (Z.of_nat (Z.to_nat (len + 1))))
                    by (f_equal; lia)
              end.
              apply load_bytes_memcpy_same. exact Hk.
      * cbn [ptr]. rewrite flat_map_app, length_app. cbn [flat_map].
        rewrite app_nil_r. pose proof (str_row_length s). lia.
    + rewrite <- Hcat1, !concat_app. cbn [concat]. rewrite !app_nil_r, <- !app_assoc.
      reflexivity.
    + rewrite app_nil_r. reflexivity.
  - intros E. apply Ret_pair_inj in E as [<- <-].
    exists done, cur. split; [exact Hw|]. split; [|reflexivity].
    rewrite app_nil_r. reflexivity.
Qed.

Lemma str_rejected_app (l1 l2 : list PyObject) (i : Z) :
  str_rejected (l1 ++ l2) i
  = str_rejected l1 i ++ str_rejected l2 (i + Z.of_nat (length l1)).
Proof.
  revert i. induction l1 as [|o l1 IH]; intros i.
  - cbn. f_equal. lia.
  - cbn [app str_rejected length]. rewrite IH.
    replace (i + 1 + Z.of_nat (length l1)) with (i + Z.of_nat (S (length l1))) by lia.
    destruct (PyUnicode_Check o); reflexivity.
Qed.

Lemma fastStr_loop_holds (L : list PyObject) :
  forall i w w' h h' done cur,
    writer_strs w done cur ->
    for_each fastStr_body L i (w, h) = Ret (w', h') ->
    exists done' cur',
      writer_strs w' done' cur' /\
      concat (done' ++ [cur']) = concat (done ++ [cur]) ++ filter PyUnicode_Check L /\
      badParallelizeObjects h' = badParallelizeObjects h ++ str_rejected L i.
Proof.
  induction L as [|o L IH]; intros i w w' h h' done cur Hw.
  - cbn [for_each]. intros E. apply Ret_pair_inj in E as [<- <-].
    exists done, cur. cbn. rewrite !app_nil_r. auto.
  - cbn [for_each].
    destruct (fastStr_body i o (w, h)) as [[w1 h1]| |] eqn:Ebody; cbn [bind];
      try discriminate.
    intros Erest.
    destruct (fastStr_body_holds i o w w1 h h1 done cur Hw Ebody)
      as [done1 [cur1 [Hw1 [Hcat1 Hbad1]]]].
    destruct (IH (i + 1) w1 w' h1 h' done1 cur1 Hw1 Erest)
      as [done' [cur' [Hw' [Hcat' Hbad']]]].
    exists done', cur'. split; [exact Hw'|].
    change (o :: L) with ([o] ++ L).
    rewrite filter_app, str_rejected_app. cbn [length Z.of_nat Pos.of_succ_nat].
    split.
    + rewrite Hcat', Hcat1, <- app_assoc. reflexivity.
    + rewrite Hbad', Hbad1, <- app_assoc. reflexivity.
Qed.

Lemma fastStr_body_returns (i : Z) (o : PyObject) (st : Writer * Host) :
  NDEBUG = true \/ plain_object o ->
  exists st', fastStr_body i o st = Ret st'.
Proof.
  intros Hok. destruct st as [w h]. unfold fastStr_body.
  destruct o; cbn [PyUnicode_Check]; eauto.
  cbn [PyUnicode_GET_SIZE]. unfold assert_.
  destruct NDEBUG eqn:En; [eauto|].
  destruct Hok as [Hn | Hp]; [discriminate|].
  rewrite (plain_ascii_strlen s Hp), Z.eqb_refl. eauto.
Qed.

Lemma for_each_returns_on {S : Type} (body : Z -> PyObject -> S -> Outcome S)
  (Q : PyObject -> Prop) :
  (forall i o s, Q o -> exists s', body i o s = Ret s') ->
  forall items i s, Forall Q items -> exists s', for_each body items i s = Ret s'.
Proof.
  intros Hbody. induction items as [|o items IH]; intros i s Hall; cbn [for_each];
    [eauto|].
  inversion Hall as [|? ? Ho Hrest]; subst.
  destruct (Hbody i o s Ho) as [s1 ->]. cbn [bind]. apply IH. exact Hrest.
Qed.

End StrEncoder.

Section StrTheorems.
Context `{Build} `{Driver} `{PythonHelpers}.

Lemma str_row_is_tuple_row (o : PyObject) :
  str_row o
  = row_image (typeStr_of STRING_schema) (varLen_of STRING_schema) (Py_Tuple [o]).
Proof.
  unfold str_row, row_image, typeStr_of, varLen_of. cbn [fst snd makeTypeStr].
  cbn -[le_split info_field firstn PyUnicode_GET_SIZE PyUnicode_AsUTF8 Z.add Z.to_nat].
  unfold slot_value, tail_size, field_tail.
  cbn -[le_split info_field firstn PyUnicode_GET_SIZE PyUnicode_AsUTF8 Z.add Z.to_nat].
  rewrite !app_nil_r, !Z.add_0_r. reflexivity.
Qed.


(** X15.  A string of ASCII characters other than NUL, shorter than [2^32 - 1]:
    in every build the fast string encoder writes its row and quarantines
    nothing; the low half of the descriptor word is the offset 16, the high
    half is the length with the NUL, the word after it is that length, and
    the bytes at the offset are the characters followed by NUL. *)
Theorem plain_string_row (i : Z) (s : pystr) (w : Writer) (h : Host) :
  plain_ascii s ->
  Z.of_nat (length s) + 1 < 2 ^ 32 ->
  let len := Z.of_nat (length s) in
  let w1 := ensure_capacity (8 * 2 + len + 1) (Z.max allocMinSize (8 * 2 + len + 1))
              STRING_schema w in
  exists w',
    fastStr_body i (Py_Unicode s) (w, h) = Ret (w', h) /\
    numRows (partition w') = numRows (partition w1) + 1 /\
    ptr w' = ptr w1 + (16 + len + 1) /\
    Z.land (load64 (payload (partition w')) (ptr w1)) (2 ^ 32 - 1) = 16 /\
    Z.shiftr (load64 (payload (partition w')) (ptr w1)) 32 = len + 1 /\
    load64 (payload (partition w')) (ptr w1 + 8) = len + 1 /\
    load_bytes (payload (partition w')) (ptr w1 + 16) (length s + 1)
    = map byte.of_Z s ++ [Byte.x00].
Proof.
  intros Hs Hfit len w1.
  pose proof (plain_ascii_strlen s Hs) as Hlen.
  destruct (fastStr_body_returns i (Py_Unicode s) (w, h) (or_intror Hs)) as [[w' h'] E].
  pose proof (fastStr_descriptor i s w w' h h' (eq_sym Hlen) Hfit E) as [Hlo [Hhi _]].
  pose proof E as E0.
  unfold fastStr_body in E.
  cbv beta iota zeta delta [PyUnicode_Check PyUnicode_GET_SIZE] in E.
  fold len in E. fold w1 in E.
  apply assert_returns in E. apply Ret_pair_inj in E as [<- <-].
  eexists. split; [exact E0|].
  cbn [partition inc_numRows with_payload payload numRows ptr] in Hlo, Hhi |- *.
  split; [reflexivity|]. split; [lia|].
  split; [exact Hlo|]. split; [exact Hhi|]. split.
  - unfold load64. rewrite load_bytes_memcpy_disjoint by lia.
    rewrite load_bytes_store64_same, le_combine_split.
    apply Z.mod_small. lia.
  - replace (ptr w1 + 16) with (ptr w1 + 8 * 2) by lia.
    match goal with
    | |- load_bytes (memcpy ?m ?d ?src _) _ _ = _ =>
        replace (memcpy m d src (len + 1))
          with (memcpy m d src (Z.of_nat (length s + 1))) by (f_equal; lia)
    end.
    cbn [PyUnicode_AsUTF8]. rewrite (plain_ascii_utf8 s Hs).
    rewrite load_bytes_memcpy_same by (rewrite length_app, length_map; cbn; lia).
    apply firstn_all2. rewrite length_app, length_map. cbn. lia.
Qed.

(** X16.  A string of ASCII characters other than NUL as field [j] of the [n]
    fields of a row of the fast tuple encoder, with [T] bytes of tail before
    it: in every build the field passes, the offset in the descriptor is
    [(n + 1 - j) * 8 + T], the length is the length with the NUL, and the
    bytes at the offset are the characters followed by NUL. *)
Theorem plain_string_field (n j : Z) (s : pystr) (c : RowCursor) :
  plain_ascii s ->
  0 <= j < n ->
  0 <= rowVarFieldSizes c ->
  (n + 1 - j) * 8 + rowVarFieldSizes c < 2 ^ 32 ->
  Z.of_nat (length s) + 1 < 2 ^ 32 ->
  let len := Z.of_nat (length s) in
  let offset := (n + 1 - j) * 8 + rowVarFieldSizes c in
  exists m,
    serialize_field n "s" j (Py_Unicode s) c
      = Ret (true, {| row_mem := m; row_ptr := row_ptr c + 8;
                      rowVarFieldSizes := rowVarFieldSizes c + (len + 1);
                      row_host := row_host c |}) /\
    Z.land (load64 m (row_ptr c)) (2 ^ 32 - 1) = offset /\
    Z.shiftr (load64 m (row_ptr c)) 32 = len + 1 /\
    load_bytes m (row_ptr c + offset) (length s + 1) = map byte.of_Z s ++ [Byte.x00].
Proof.
  intros Hs Hj HT Hoff Hfit len offset.
  pose proof (plain_ascii_strlen s Hs) as Hlen.
  assert (E : exists r, serialize_field n "s" j (Py_Unicode s) c = Ret r).
  { unfold serialize_field.
    cbv beta iota zeta delta [is_char Ascii.eqb Bool.eqb andb PyUnicode_Check negb
                                PyUnicode_GET_SIZE].
    unfold assert_. rewrite Hlen, Z.eqb_refl. destruct NDEBUG; eauto. }
  destruct E as [r E].
  pose proof (tuple_field_descriptor n j s c r (eq_sym Hlen) Hj HT Hoff Hfit E)
    as [_ [Hlo [Hhi _]]].
  pose proof E as E0.
  unfold serialize_field in E.
  cbv beta iota zeta delta [is_char Ascii.eqb Bool.eqb andb PyUnicode_Check negb
                              PyUnicode_GET_SIZE] in E.
  fold len in E. fold offset in E.
  apply assert_returns in E. apply Ret_inj in E. subst r.
  cbn [snd row_mem] in Hlo, Hhi.
  eexists. split; [exact E0|].
  split; [exact Hlo|]. split; [exact Hhi|].
  match goal with
  | |- load_bytes (memcpy ?m ?d ?src _) _ _ = _ =>
      replace (memcpy m d src (len + 1))
        with (memcpy m d src (Z.of_nat (length s + 1))) by (f_equal; lia)
  end.
  cbn [PyUnicode_AsUTF8]. rewrite (plain_ascii_utf8 s Hs).
  rewrite load_bytes_memcpy_same by (rewrite length_app, length_map; cbn; lia).
  apply firstn_all2. rewrite length_app, length_map. cbn. lia.
Qed.

End StrTheorems.


Lemma plain_string_row_witness :
  let s := [104; 105] in
  let w := @open_writer demo_driver 65536 STRING_schema in
  let len := Z.of_nat (length s) in
  let w1 := @ensure_capacity demo_driver (8 * 2 + len + 1)
              (Z.max (@allocMinSize debug_build) (8 * 2 + len + 1)) STRING_schema w in
  exists w',
    @fastStr_body debug_build demo_driver demo_helpers 0 (Py_Unicode s) (w, fresh_host)
      = Ret (w', fresh_host) /\
    numRows (partition w') = numRows (partition w1) + 1 /\
    ptr w' = ptr w1 + (16 + len + 1) /\
    Z.land (load64 (payload (partition w')) (ptr w1)) (2 ^ 32 - 1) = 16 /\
    Z.shiftr (load64 (payload (partition w')) (ptr w1)) 32 = len + 1 /\
    load64 (payload (partition w')) (ptr w1 + 8) = len + 1 /\
    load_bytes (payload (partition w')) (ptr w1 + 16) (length s + 1)
    = map byte.of_Z s ++ [Byte.x00].
Proof.
  intros s w.
  apply (@plain_string_row debug_build demo_driver demo_helpers 0 s w fresh_host).
  - repeat constructor; lia.
  - cbn. lia.
Defined.

Lemma plain_string_field_witness :
  let s := [104; 105] in
  let c := {| row_mem := fun _ => Byte.x00; row_ptr := 8; rowVarFieldSizes := 0;
              row_host := fresh_host |} in
  let len := Z.of_nat (length s) in
  let offset := (2 + 1 - 1) * 8 + rowVarFieldSizes c in
  exists m,
    @serialize_field debug_build demo_helpers 2 "s" 1 (Py_Unicode s) c
      = Ret (true, {| row_mem := m; row_ptr := row_ptr c + 8;
                      rowVarFieldSizes := rowVarFieldSizes c + (len + 1);
                      row_host := row_host c |}) /\
    Z.land (load64 m (row_ptr c)) (2 ^ 32 - 1) = offset /\
    Z.shiftr (load64 m (row_ptr c)) 32 = len + 1 /\
    load_bytes m (row_ptr c + offset) (length s + 1) = map byte.of_Z s ++ [Byte.x00].
Proof.
  intros s c.
  apply (@plain_string_field debug_build demo_helpers 2 1 s c).
  - repeat constructor; lia.
  - lia.
  - cbn. lia.
  - cbn. lia.
  - cbn. lia.
Defined.

(* ------------------------------------------------------------------------- *)
(** ** Rows and quarantine entries of the dict encoder *)

Lemma extract_columns_spec (i : Z) (obj : PyObject) (columns : list pystr) :
  forall (tupleObj : list PyObject) (good : bool) (h : Host),
    let r := extract_columns i obj columns tupleObj good h in
    fst (fst r) = tupleObj ++ dict_values obj columns /\
    snd (fst r) = good && Nat.eqb (missing_columns obj columns) 0 /\
    badParallelizeObjects (snd r)
    = badParallelizeObjects h ++ repeat (i, obj) (missing_columns obj columns).
Proof.
  induction columns as [|c columns IH]; intros tupleObj good h.
  - cbn. rewrite !app_nil_r, andb_true_r. auto.
  - cbn [extract_columns]. unfold missing_columns, dict_values, is_missing in *.
    cbn [filter map].
    destruct (PyDict_GetItemString obj c) as [item|].
    + destruct (IH (tupleObj ++ [item]) good (Py_XINCREF (DictValue i c) h))
        as [H1 [H2 H3]].
      cbv zeta. rewrite H1, H2, H3, <- app_assoc. auto.
    + destruct (IH (tupleObj ++ [Py_None]) false
                  (Py_XINCREF NoneObject (emplace_back_bad i obj h)))
        as [H1 [H2 H3]].
      cbv zeta. rewrite H1, H2, H3, <- !app_assoc. cbn [length repeat app Nat.eqb].
      rewrite andb_false_r. split; [reflexivity|]. split; [reflexivity|].
      cbn. rewrite <- app_assoc. reflexivity.
Qed.

Section DictEncoderFacts.
Context `{Build} `{Driver} `{PythonHelpers} `{TypeHelpers}.

Lemma strDict_body_rows (rowType : pyType) (columns : list pystr) (i : Z)
  (o : PyObject) (w w' : Writer) (h h' : Host) :
  strDict_body rowType columns i o (w, h) = Ret (w', h') ->
  writer_rows w'
  = writer_rows w + (if dict_accepted rowType columns o then 1 else 0) /\
  badParallelizeObjects h'
  = badParallelizeObjects h ++ repeat (i, o) (dict_entries_added rowType columns o).
Proof.
  unfold strDict_body, dict_accepted, dict_entries_added.
  destruct (PyDict_Check o); cbn [andb negb].
  2:{ intros E. apply Ret_pair_inj in E as [<- <-]. cbn. rewrite app_nil_r.
      split; [lia | reflexivity]. }
  destruct (PyDict_Size o =? _); cbn [andb negb].
  2:{ intros E. apply Ret_pair_inj in E as [<- <-]. cbn. split; [lia | reflexivity]. }
  pose proof (extract_columns_spec i o columns [] true h) as Hx. cbv zeta in Hx.
  destruct (extract_columns i o columns [] true h) as [[tupleItems good] h1].
  cbn [fst snd app andb] in Hx. destruct Hx as [-> [-> Hbad1]].
  destruct (Nat.eqb (missing_columns o columns) 0) eqn:Em; cbn [andb negb].
  2:{ intros E. apply Ret_pair_inj in E as [<- <-]. split; [lia | exact Hbad1]. }
  apply Nat.eqb_eq in Em. rewrite Em in Hbad1. cbn [repeat] in Hbad1.
  rewrite app_nil_r in Hbad1.
  destruct (rowTypeOf (Py_Tuple (dict_values o columns)) == rowType); cbn [negb].
  - intros E. apply Ret_pair_inj in E as [<- <-]. split.
    + unfold writer_rows. cbn [partitions partition].
      rewrite !rows_of_app. cbn.
      pose proof (ensure_capacity_rows strDict_allocMinSize strDict_allocMinSize
                    rowType w) as Hr.
      unfold writer_rows in Hr. rewrite !rows_of_app in Hr. cbn in Hr. lia.
    + cbn [repeat]. rewrite app_nil_r. exact Hbad1.
  - intros E. apply Ret_pair_inj in E as [<- <-]. split; [lia|].
    cbn. rewrite Hbad1. reflexivity.
Qed.

Lemma strDict_loop_rows (rowType : pyType) (columns : list pystr) (L : list PyObject) :
  forall i w w' h h',
    for_each (strDict_body rowType columns) L i (w, h) = Ret (w', h') ->
    writer_rows w'
    = writer_rows w + Z.of_nat (length (filter (dict_accepted rowType columns) L)) /\
    badParallelizeObjects h'
    = badParallelizeObjects h ++ dict_quarantined rowType columns L i.
Proof.
  induction L as [|o L IH]; intros i w w' h h'.
  - cbn [for_each]. intros E. apply Ret_pair_inj in E as [<- <-].
    cbn. rewrite app_nil_r. split; [lia | reflexivity].
  - cbn [for_each].
    destruct (strDict_body rowType columns i o (w, h)) as [[w1 h1]| |] eqn:Ebody;
      cbn [bind]; try discriminate.
    intros Erest.
    destruct (strDict_body_rows rowType columns i o w w1 h h1 Ebody) as [Hr1 Hb1].
    destruct (IH (i + 1) w1 w' h1 h' Erest) as [Hr Hb].
    cbn [filter dict_quarantined]. split.
    + rewrite Hr, Hr1. destruct (dict_accepted rowType columns o); cbn [length]; lia.
    + rewrite Hb, Hb1, <- app_assoc. reflexivity.
Qed.

Lemma strDict_body_returns (rowType : pyType) (columns : list pystr) (i : Z)
  (o : PyObject) (st : Writer * Host) :
  exists st', strDict_body rowType columns i o st = Ret st'.
Proof.
  destruct st as [w h]. unfold strDict_body.
  destruct (PyDict_Check o); [|eauto].
  destruct (negb _); [eauto|].
  destruct (extract_columns i o columns [] true h) as [[tupleItems good] h1].
  destruct (negb good); [eauto|].
  destruct (negb _); eauto.
Qed.


End DictEncoderFacts.


(* ------------------------------------------------------------------------- *)
(** ** Error datasets of [parallelize] *)

Section ErrorDatasets.
Context `{Build} `{Driver} `{PythonHelpers} `{TypeOrder} `{Signals}
        `{ContextOptions} `{TypeHelpers}.

Lemma loop_result_not_error {S : Type} (m : Outcome S) (schema : pyType)
  (parts : S -> list Partition) (columns : list pystr) (host : S -> Host)
  (ds : DataSet) (h' : Host) :
  (st <- m ;; Ret (fromPartitions schema (parts st) columns, host st)) = Ret (ds, h') ->
  isError ds = false.
Proof.
  destruct m as [st| |]; cbn [bind]; try discriminate.
  intros E. apply Ret_pair_inj in E as [<- _]. reflexivity.
Qed.

Lemma fast_encoders_not_error (L : list PyObject) (columns : list pystr) (h : Host)
  (ds : DataSet) (h' : Host) :
  (fastBoolParallelize L columns h = Ret (ds, h') -> isError ds = false) /\
  (forall upcast,
      fastI64Parallelize L columns upcast h = Ret (ds, h') -> isError ds = false) /\
  (forall upcast,
      fastF64Parallelize L columns upcast h = Ret (ds, h') -> isError ds = false) /\
  (fastStrParallelize L columns h = Ret (ds, h') -> isError ds = false) /\
  (forall majType,
      fastMixedSimpleTypeTupleTransfer L majType columns h = Ret (ds, h') ->
      isError ds = false) /\
  (forall rowType,
      strDictParallelize L rowType columns h = Ret (ds, h') -> isError ds = false).
Proof.
  repeat split.
  - unfold fastBoolParallelize. destruct (_ =? 0); [|apply loop_result_not_error].
    intros E. apply Ret_pair_inj in E as [<- _]. reflexivity.
  - intros upcast. unfold fastI64Parallelize.
    destruct (_ =? 0); [|apply loop_result_not_error].
    intros E. apply Ret_pair_inj in E as [<- _]. reflexivity.
  - intros upcast E. unfold fastF64Parallelize in E. apply assert_returns in E.
    revert E. destruct (_ =? 0); [|apply loop_result_not_error].
    intros E. apply Ret_pair_inj in E as [<- _]. reflexivity.
  - unfold fastStrParallelize. destruct (_ =? 0); [|apply loop_result_not_error].
    intros E. apply Ret_pair_inj in E as [<- _]. reflexivity.
  - intros majType E. unfold fastMixedSimpleTypeTupleTransfer in E.
    apply assert_returns in E. apply assert_returns in E. revert E.
    destruct (_ =? 0).
    + intros E. apply Ret_pair_inj in E as [<- _]. reflexivity.
    + destruct (makeTypeStr majType) as [typeStr varLenField].
      apply loop_result_not_error.
  - intros rowType E. unfold strDictParallelize in E.
    apply assert_returns in E. apply assert_returns in E. revert E.
    destruct (_ =? 0); [|apply loop_result_not_error].
    intros E. apply Ret_pair_inj in E as [<- _]. reflexivity.
Qed.

Lemma slow_encoder_error (L : list PyObject) (majType : pyType)
  (columns : list pystr) (h : Host) (ds : DataSet) (h' : Host) :
  parallelizeAnyType L majType columns h = Ret (ds, h') ->
  isError ds = true ->
  ds = makeError "interrupted transfer".
Proof.
  unfold parallelizeAnyType.
  assert (Hloop : forall items i v h0 ds0 h1,
             slow_loop majType items i v h0 = (inl ds0, h1) ->
             ds0 = makeError "interrupted transfer").
  { induction items as [|o items IH]; intros i v h0 ds0 h1; cbn [slow_loop].
    - discriminate.
    - destruct (check_interrupted (deliver_signal i h0)).
      + intros [= <- _]. reflexivity.
      + destruct (isSubOptionType _ _); apply IH. }
  destruct (slow_loop majType L 0 [] h) as [[ds0 | v] h1] eqn:E.
  - intros E1 _. apply Ret_pair_inj in E1 as [<- _]. exact (Hloop _ _ _ _ _ _ E).
  - intros E1. apply Ret_pair_inj in E1 as [<- _]. discriminate.
Qed.

Lemma dispatch_error (L : list PyObject) (columns : list pystr) (majType : pyType)
  (h : Host) (t : pyType) (ds : DataSet) (h' : Host) :
  dispatch L columns majType h = Ret (t, ds, h') ->
  isError ds = true ->
  ds = makeError "interrupted transfer" \/
  (majType = UNKNOWN /\ ds = makeError (unsupported_msg UNKNOWN)).
Proof.
  unfold dispatch.
  destruct (_ && (keyType majType == STRING)).
  - destruct (inferColumnsFromDictObjects _ _ _) as [[dictTypes h1]| |];
      cbn [bind]; try discriminate.
    destruct (strDictParallelize _ _ _ _) as [[ds1 h2]| |] eqn:E; cbn [bind];
      try discriminate.
    intros E1 Herr. injection E1 as _ <- _. cbn [fst] in Herr.
    apply (proj2 (proj2 (proj2 (proj2 (proj2
             (fast_encoders_not_error L _ h1 ds1 h2)))))) in E.
    congruence.
  - match goal with
    | |- (r <- ?m ;; _) = _ -> _ => destruct m as [[ds1 h1]| |] eqn:E
    end; cbn [bind]; try discriminate.
    intros E1 Herr. injection E1 as _ <- _. cbn [fst] in Herr.
    pose proof (fast_encoders_not_error L columns h ds1 h1)
      as [Hb [Hi [Hf [Hs [Ht _]]]]].
    pose proof (slow_encoder_error L majType columns h ds1 h1) as Hslow.
    destruct majType; cbn in E;
      try (apply Hb in E; congruence);
      try (apply Hi in E; congruence);
      try (apply Hf in E; congruence);
      try (apply Hs in E; congruence);
      try (left; apply Hslow; assumption).
    + right. apply Ret_pair_inj in E as [<- _]. auto.
    + match type of E with
      | (if ?c then _ else _) = _ => destruct c
      end.
      * apply Ht in E. congruence.
      * left. apply Hslow; assumption.
Qed.

(** X18.  [parallelize] itself makes an error dataset, by [makeError], in two
    cases only: the slow encoder saw the interrupt flag (message "interrupted
    transfer"), or the row type, given or inferred, is UNKNOWN (message
    "unsupported type ...").  Every other dataset it returns is the result
    of the call [fromPartitions] or [parallelize] of the backend that an
    encoder makes. *)
Theorem parallelize_error_datasets (L : list PyObject) (columns : list pystr)
  (schema : option pyType) (h : Host) (msg : string) (h' : Host) :
  parallelize L columns schema h = Ret (makeError msg, h') ->
  msg = "interrupted transfer"%string \/
  (msg = unsupported_msg UNKNOWN /\
   (schema = Some UNKNOWN \/ (schema = None /\ inferType L = Ret UNKNOWN))).
Proof.
  assert (Hmsg : forall a b : string, makeError a = makeError b -> a = b).
  { intros a b E. injection E as E. exact E. }
  unfold parallelize.
  destruct schema as [t|].
  - cbn [bind].
    destruct (dispatch L columns t (clear_bad h)) as [[[t1 ds1] h1]| |] eqn:E;
      cbn [bind]; try discriminate.
    intros E1. apply Ret_pair_inj in E1 as [-> _].
    destruct (dispatch_error _ _ _ _ _ _ _ E eq_refl) as [Hi | [Ht Hu]].
    + left. apply Hmsg. exact Hi.
    + right. split; [apply Hmsg; exact Hu|]. subst t. auto.
  - destruct (inferType L) as [t| |] eqn:Et; cbn [bind]; try discriminate.
    destruct (dispatch L columns t (clear_bad h)) as [[[t1 ds1] h1]| |] eqn:E;
      cbn [bind]; try discriminate.
    intros E1. apply Ret_pair_inj in E1 as [-> _].
    destruct (dispatch_error _ _ _ _ _ _ _ E eq_refl) as [Hi | [Ht Hu]].
    + left. apply Hmsg. exact Hi.
    + right. split; [apply Hmsg; exact Hu|]. subst t. auto.
Qed.

End ErrorDatasets.

Lemma parallelize_error_datasets_witness :
  unsupported_msg UNKNOWN = "interrupted transfer"%string \/
  (unsupported_msg UNKNOWN = unsupported_msg UNKNOWN /\
   (@None pyType = Some UNKNOWN \/
    (@None pyType = None /\
     @inferType demo_helpers demo_order demo_options [] = Ret UNKNOWN))).
Proof.
  apply (@parallelize_error_datasets debug_build demo_driver demo_helpers demo_order
           no_signal demo_options demo_type_helpers
           [] [] None fresh_host (unsupported_msg UNKNOWN)
           (clear_bad fresh_host)).
  reflexivity.
Defined.

(* ------------------------------------------------------------------------- *)
(** ** Full partitions; the tuple encoder and the slow encoder return *)

Section Packing.
Context `{Build} `{Driver} `{PythonHelpers}.

Lemma packed_open (minSize : Z) (schema : pyType) : packed (open_writer minSize schema).
Proof. split; [reflexivity | constructor]. Qed.

Lemma packed_ensure (newMin : Z) (schema : pyType) (w : Writer) :
  packed w -> packed (ensure_capacity 8 newMin schema w).
Proof.
  intros [Hnb Hfull]. unfold ensure_capacity.
  destruct (capacity (partition w) <? numBytesSerialized w + 8) eqn:E.
  - split; [reflexivity|]. cbn [next_partition partitions].
    apply Forall_app. split; [exact Hfull|]. constructor; [|constructor].
    apply Z.ltb_lt in E. unfold full. cbn [unlockWrite capacity numRows]. lia.
  - split; assumption.
Qed.

Lemma packed_commit (v : Z) (w : Writer) : packed w -> packed (commit_slot v w).
Proof.
  intros [Hnb Hfull]. split; [|exact Hfull].
  cbn [commit_slot numBytesSerialized partition inc_numRows numRows with_payload]. lia.
Qed.

Lemma fastBool_body_packed (i : Z) (o : PyObject) (st st' : Writer * Host) :
  packed (fst st) -> fastBool_body i o st = Ret st' -> packed (fst st').
Proof.
  destruct st as [w h]. cbn [fst]. intros Hp. unfold fastBool_body.
  pose proof (packed_ensure (Z.max 8 allocMinSize) BOOLEAN_schema w Hp) as Hp1.
  destruct (PyBool_Check o); intros E; apply Ret_inj in E; subst st'; cbn [fst].
  - apply packed_commit. exact Hp1.
  - exact Hp1.
Qed.

Lemma fastI64_body_packed (upcast : bool) (i : Z) (o : PyObject)
  (st st' : Writer * Host) :
  packed (fst st) -> fastI64_body upcast i o st = Ret st' -> packed (fst st').
Proof.
  destruct st as [w h]. cbn [fst]. intros Hp. unfold fastI64_body.
  pose proof (packed_ensure (Z.max 8 allocMinSize) I64_schema w Hp) as Hp1.
  destruct (PyLong_CheckExact o).
  - destruct (PyLong_AsLongLong o h) as [v h1].
    destruct (PyErr_Occurred h1); intros E; apply Ret_inj in E; subst st'; cbn [fst].
    + exact Hp1.
    + apply packed_commit. exact Hp1.
  - destruct (upcast && _); intros E; apply Ret_inj in E; subst st'; cbn [fst].
    + apply packed_commit. exact Hp1.
    + exact Hp1.
Qed.

Lemma fastF64_body_packed (upcast : bool) (i : Z) (o : PyObject)
  (st st' : Writer * Host) :
  packed (fst st) -> fastF64_body upcast i o st = Ret st' -> packed (fst st').
Proof.
  destruct st as [w h]. cbn [fst]. intros Hp. unfold fastF64_body.
  pose proof (packed_ensure (Z.max 8 allocMinSize) F64_schema w Hp) as Hp1.
  destruct (PyFloat_CheckExact o).
  { intros E; apply Ret_inj in E; subst st'; cbn [fst].
    apply packed_commit. exact Hp1. }
  destruct (upcast && _).
  - destruct (is_Py_True o || is_Py_False o).
    { intros E; apply Ret_inj in E; subst st'; cbn [fst].
      apply packed_commit. exact Hp1. }
    destruct (PyLong_AsLongLong o h) as [v h1].
    destruct (PyErr_Occurred h1); intros E; apply Ret_inj in E; subst st'; cbn [fst].
    + exact Hp1.
    + apply packed_commit. exact Hp1.
  - intros E; apply Ret_inj in E; subst st'; cbn [fst]. exact Hp1.
Qed.

Lemma removelast_snoc {A : Type} (l : list A) (x : A) : removelast (l ++ [x]) = l.
Proof. rewrite removelast_app by discriminate. cbn. apply app_nil_r. Qed.

(** X13.  The fast bool, I64 and F64 encoders start a new partition only when
    the current one has no room for one more row: every partition of the
    dataset they return, except the last, has less than eight bytes of its
    capacity left after its rows. *)
Theorem scalar_partitions_are_full (L : list PyObject) (columns : list pystr)
  (h : Host) (ds : DataSet) (h' : Host) :
  (fastBoolParallelize L columns h = Ret (ds, h') ->
   Forall full (removelast (partitions_of ds))) /\
  (forall upcast,
      fastI64Parallelize L columns upcast h = Ret (ds, h') ->
      Forall full (removelast (partitions_of ds))) /\
  (forall upcast,
      fastF64Parallelize L columns upcast h = Ret (ds, h') ->
      Forall full (removelast (partitions_of ds))).
Proof.
  assert (Hloop : forall body minSize schema st,
             (forall i o s s', packed (fst s) -> body i o s = Ret s' -> packed (fst s')) ->
             for_each body L 0 (open_writer minSize schema, h) = Ret st ->
             Forall full (removelast (close_writer (fst st)))).
  { intros body minSize schema st Hbody Eloop.
    unfold close_writer. rewrite removelast_snoc.
    apply (@for_each_invariant _ body (fun s => packed (fst s)) Hbody L 0
             (open_writer minSize schema, h) st (packed_open minSize schema) Eloop). }
  repeat split.
  - unfold fastBoolParallelize. destruct (_ =? 0).
    + intros E. apply Ret_pair_inj in E as [<- _]. constructor.
    + destruct (for_each _ _ _ _) as [st| |] eqn:E; cbn [bind]; try discriminate.
      intros E1. apply Ret_pair_inj in E1 as [<- _]. cbn [partitions_of].
      exact (Hloop _ _ _ st fastBool_body_packed E).
  - intros upcast. unfold fastI64Parallelize. destruct (_ =? 0).
    + intros E. apply Ret_pair_inj in E as [<- _]. constructor.
    + destruct (for_each _ _ _ _) as [st| |] eqn:E; cbn [bind]; try discriminate.
      intros E1. apply Ret_pair_inj in E1 as [<- _]. cbn [partitions_of].
      exact (Hloop _ _ _ st (fastI64_body_packed upcast) E).
  - intros upcast E0. unfold fastF64Parallelize in E0. apply assert_returns in E0.
    revert E0. destruct (_ =? 0).
    + intros E. apply Ret_pair_inj in E as [<- _]. constructor.
    + destruct (for_each _ _ _ _) as [st| |] eqn:E; cbn [bind]; try discriminate.
      intros E1. apply Ret_pair_inj in E1 as [<- _]. cbn [partitions_of].
      exact (Hloop _ _ _ st (fastF64_body_packed upcast) E).
Qed.

Lemma serialize_field_returns (n : Z) (tc : ascii) (j : Z) (el : PyObject)
  (c : RowCursor) :
  (is_char tc "s" = true -> NDEBUG = true \/ plain_object el) ->
  exists r, serialize_field n tc j el c = Ret r.
Proof.
  intros Hok. unfold serialize_field.
  destruct (is_char tc "b"); [destruct (negb _); eauto|].
  destruct (is_char tc "i").
  { destruct (negb _); [eauto|]. destruct (PyLong_AsLongLong el (row_host c)). eauto. }
  destruct (is_char tc "f"); [destruct (negb _); eauto|].
  destruct (is_char tc "s"); [|eauto].
  specialize (Hok eq_refl).
  destruct el; cbn [PyUnicode_Check negb]; eauto.
  cbn [PyUnicode_GET_SIZE]. unfold assert_.
  destruct NDEBUG eqn:En; [eauto|].
  destruct Hok as [Hn | Hp]; [discriminate|].
  rewrite (plain_ascii_strlen s Hp), Z.eqb_refl. eauto.
Qed.

Lemma serialize_fields_returns (n : Z) (typeStr : list ascii) :
  forall (els : list PyObject) (j : Z) (c : RowCursor),
    string_fields (fun s => encodable s /\ (NDEBUG = true \/ plain_ascii s))
                  typeStr els ->
    exists r, serialize_fields n typeStr els j c = Ret r.
Proof.
  induction typeStr as [|tc typeStr IH]; intros els j c Hok; cbn [serialize_fields];
    [eauto|].
  destruct els as [|el els]; [eauto|].
  cbn [string_fields] in Hok. destruct Hok as [Hel Hrest].
  destruct (serialize_field_returns n tc j el c) as [r ->].
  { intros Es. rewrite Es in Hel. destruct el; try contradiction.
    destruct Hel as [_ [Hn | Hp]]; [left | right]; assumption. }
  cbn [bind]. destruct (fst r); [|eauto].
  apply IH. exact Hrest.
Qed.


End Packing.

Section SlowTransfer.
Context `{Build} `{Driver} `{PythonHelpers} `{TypeOrder} `{Signals}
        `{ContextOptions} `{TypeHelpers}.

Lemma converted_rejected_length (majType : pyType) (L : list PyObject) (i : Z) :
  (length (converted majType L) + length (rejected majType L i) = length L)%nat.
Proof.
  unfold converted. rewrite length_map. revert i.
  induction L as [|o L IH]; intros i; [reflexivity|].
  cbn [filter rejected]. destruct (conforms majType o); cbn [length]; rewrite <- (IH (i + 1));
    lia.
Qed.


End SlowTransfer.



(* ------------------------------------------------------------------------- *)
(** ** Columns of the dict projector *)

Section Projector.
Context `{Build} `{Driver} `{PythonHelpers} `{TypeOrder} `{Signals}
        `{ContextOptions} `{TypeHelpers}.

Lemma note_key_keys (cols : list (pystr * list PyObject)) (skey : pystr)
  (val : PyObject) (c : pystr) :
  In c (map fst (note_key cols skey val)) -> c = skey \/ In c (map fst cols).
Proof.
  induction cols as [|[k vs] cols IH]; cbn [note_key map fst In].
  - intros [<- | []]. auto.
  - destruct (pystr_eqb k skey); cbn [map fst In].
    + intros [<- | Hin]; auto.
    + intros [<- | Hin]; auto. destruct (IH Hin); auto.
Qed.

Lemma note_key_nodup (cols : list (pystr * list PyObject)) (skey : pystr)
  (val : PyObject) :
  NoDup (map fst cols) -> NoDup (map fst (note_key cols skey val)).
Proof.
  induction cols as [|[k vs] cols IH]; cbn [note_key map fst]; intros Hnd.
  - constructor; [intros [] | constructor].
  - inversion Hnd as [|? ? Hk Hnd']; subst.
    destruct (pystr_eqb k skey) eqn:E; cbn [map fst].
    + exact Hnd.
    + constructor; [|apply IH; exact Hnd'].
      intros Hin. apply note_key_keys in Hin as [-> | Hin]; [|contradiction].
      unfold pystr_eqb in E. destruct (list_eq_dec Z.eq_dec skey skey); congruence.
Qed.

Lemma scan_dict_keys (i : Z) (item : PyObject) (L : list PyObject) :
  In item L ->
  forall cols h,
    (forall c, In c (map fst cols) -> key_of_some_dict L c) ->
    NoDup (map fst cols) ->
    (forall c, In c (map fst (fst (scan_dict i item (cols, h)))) ->
               key_of_some_dict L c) /\
    NoDup (map fst (fst (scan_dict i item (cols, h)))).
Proof.
  intros Hitem. unfold scan_dict.
  assert (Hgen : forall entries,
             (forall kv, In kv entries -> In kv (dict_entries item)) ->
             forall acc,
               (forall c, In c (map fst (fst acc)) -> key_of_some_dict L c) ->
               NoDup (map fst (fst acc)) ->
               let r := fold_left
                          (fun acc kv =>
                             match fst kv with
                             | Py_Unicode skey =>
                                 (note_key (fst acc) skey (snd kv),
                                  Py_XINCREF (DictValue i skey) (snd acc))
                             | _ => acc
                             end) entries acc in
               (forall c, In c (map fst (fst r)) -> key_of_some_dict L c) /\
               NoDup (map fst (fst r))).
  { induction entries as [|[k v] entries IH]; intros Hsub acc Hkeys Hnd; cbn [fold_left].
    - split; assumption.
    - apply IH.
      + intros kv Hin. apply Hsub. right. exact Hin.
      + cbn [fst snd]. destruct k; try exact Hkeys. cbn [fst].
        intros c Hin. apply note_key_keys in Hin as [-> | Hin]; [|auto].
        exists item, v. split; [exact Hitem|]. apply Hsub. left. reflexivity.
      + cbn [fst snd]. destruct k; try exact Hnd. cbn [fst].
        apply note_key_nodup. exact Hnd. }
  intros cols h Hkeys Hnd. apply (Hgen (dict_entries item)); auto.
Qed.

Lemma scan_sample_keys (L : list PyObject) (items : list PyObject) :
  (forall o, In o items -> In o L) ->
  forall i num_dicts cols h,
    (forall c, In c (map fst cols) -> key_of_some_dict L c) ->
    NoDup (map fst cols) ->
    (forall c, In c (map fst (snd (fst (scan_sample items i num_dicts cols h)))) ->
               key_of_some_dict L c) /\
    NoDup (map fst (snd (fst (scan_sample items i num_dicts cols h)))).
Proof.
  induction items as [|item items IH]; intros Hsub i num_dicts cols h Hkeys Hnd;
    cbn [scan_sample].
  - split; assumption.
  - destruct (PyDict_Check item).
    + pose proof (scan_dict_keys i item L (Hsub item (or_introl eq_refl)) cols
                    (Py_XINCREF (ListItem i) h) Hkeys Hnd) as [Hk1 Hn1].
      destruct (scan_dict i item (cols, Py_XINCREF (ListItem i) h)) as [cols1 h2].
      apply IH; auto. intros o Hin. apply Hsub. right. exact Hin.
    + apply IH; auto. intros o Hin. apply Hsub. right. exact Hin.
Qed.

Lemma infer_columns_names (cols : list (pystr * list PyObject))
  (m : list (pystr * pyType)) :
  infer_columns cols = Ret m -> map fst m = map fst cols.
Proof.
  revert m. induction cols as [|[c vals] cols IH]; intros m; cbn [infer_columns].
  - intros E. apply Ret_inj in E. subst m. reflexivity.
  - destruct (inferType vals) as [t| |]; cbn [bind]; try discriminate.
    destruct (infer_columns cols) as [m1| |]; cbn [bind]; try discriminate.
    intros E. apply Ret_inj in E. subst m. cbn [map fst]. rewrite (IH m1 eq_refl).
    reflexivity.
Qed.

Lemma map_set_keys (m : list (pystr * pyType)) (key : pystr) (t : pyType) (c : pystr) :
  In c (map fst (map_set m key t)) -> c = key \/ In c (map fst m).
Proof.
  induction m as [|[k v] m IH]; cbn [map_set map fst In].
  - intros [<- | []]. auto.
  - destruct (pystr_eqb k key); cbn [map fst In].
    + intros [<- | Hin]; auto.
    + intros [<- | Hin]; auto. destruct (IH Hin); auto.
Qed.

Lemma map_set_nodup (m : list (pystr * pyType)) (key : pystr) (t : pyType) :
  NoDup (map fst m) -> NoDup (map fst (map_set m key t)).
Proof.
  induction m as [|[k v] m IH]; cbn [map_set map fst]; intros Hnd.
  - constructor; [intros [] | constructor].
  - inversion Hnd as [|? ? Hk Hnd']; subst.
    destruct (pystr_eqb k key) eqn:E; cbn [map fst].
    + exact Hnd.
    + constructor; [|apply IH; exact Hnd'].
      intros Hin. apply map_set_keys in Hin as [-> | Hin]; [|contradiction].
      unfold pystr_eqb in E. destruct (list_eq_dec Z.eq_dec key key); congruence.
Qed.

Lemma filter_keys {A B : Type} (f : A * B -> bool) (l : list (A * B)) :
  (forall c, In c (map fst (filter f l)) -> In c (map fst l)) /\
  (NoDup (map fst l) -> NoDup (map fst (filter f l))).
Proof.
  induction l as [|x l [IH1 IH2]]; [split; auto|].
  cbn [filter map]. split.
  - intros c. destruct (f x); cbn [map In]; intuition.
  - intros Hnd. inversion Hnd as [|? ? Hx Hnd']; subst.
    destruct (f x); cbn [map]; [|auto].
    constructor; [|auto]. intros Hin. apply Hx. apply IH1. exact Hin.
Qed.

(** X21.  When the column projector returns, every column it reports is a
    string key of a dictionary of the list, and no column is reported
    twice. *)
Theorem projected_columns_are_keys (L : list PyObject) (normalThreshold : float)
  (h : Host) (m : list (pystr * pyType)) (h' : Host) :
  inferColumnsFromDictObjects L normalThreshold h = Ret (m, h') ->
  (forall c, In c (map fst m) -> key_of_some_dict L c) /\
  NoDup (map fst m).
Proof.
  unfold inferColumnsFromDictObjects.
  assert (Hsample : forall o, In o (sample L) -> In o L).
  { intros o Hin. unfold sample in Hin.
    rewrite <- (firstn_skipn (Z.to_nat (sampleSize L)) L).
    apply in_or_app. left. exact Hin. }
  pose proof (scan_sample_keys L (sample L) Hsample 0 0 [] h
                (fun c (Hin : In c []) => match Hin with end) (NoDup_nil _))
    as [Hkeys Hnd].
  destruct (scan_sample (sample L) 0 0 [] h) as [[num_dicts cols] h1].
  cbn [fst snd] in Hkeys, Hnd.
  match goal with
  | |- (m0 <- infer_columns (filter ?f cols) ;; _) = _ -> _ =>
      pose proof (filter_keys f cols) as [Hf1 Hf2];
      destruct (infer_columns (filter f cols)) as [m1| |] eqn:Em
  end; cbn [bind]; try discriminate.
  apply infer_columns_names in Em.
  destruct m1 as [|x m1].
  - destruct (first_str_dict L) as [item|] eqn:Ef; [|discriminate].
    intros E. apply Ret_pair_inj in E as [<- _].
    apply find_some in Ef as [Hitem _].
    assert (Hgen : forall entries,
               (forall kv, In kv entries -> In kv (dict_entries item)) ->
               forall m0,
                 (forall c, In c (map fst m0) -> key_of_some_dict L c) ->
                 NoDup (map fst m0) ->
                 let r := fold_left
                            (fun m kv =>
                               match fst kv with
                               | Py_Unicode key =>
                                   map_set m key (mapPythonClassToTuplexType (snd kv))
                               | _ => m
                               end) entries m0 in
                 (forall c, In c (map fst r) -> key_of_some_dict L c) /\
                 NoDup (map fst r)).
    { induction entries as [|[k v] entries IH]; intros Hsub m0 Hk0 Hn0; cbn [fold_left].
      - split; assumption.
      - apply IH.
        + intros kv Hin. apply Hsub. right. exact Hin.
        + cbn [fst snd]. destruct k; try exact Hk0.
          intros c Hin. apply map_set_keys in Hin as [-> | Hin]; [|auto].
          exists item, v. split; [exact Hitem|]. apply Hsub. left. reflexivity.
        + cbn [fst snd]. destruct k; try exact Hn0. apply map_set_nodup. exact Hn0. }
    apply (Hgen (dict_entries item)); [auto | intros c [] | constructor].
  - intros E. apply Ret_pair_inj in E as [<- _]. rewrite Em. split.
    + intros c Hin. apply Hkeys. apply Hf1. exact Hin.
    + apply Hf2. exact Hnd.
Qed.

End Projector.

Lemma projected_columns_are_keys_witness :
  let L := [Py_Dict [(str "a", Py_Long 1); (str "b", str "x")];
            Py_Dict [(str "a", Py_Long 2); (Py_Long 7, Py_None)]] in
  let m := [(pystr_of_string "a", I64)] in
  (forall c, In c (map fst m) -> key_of_some_dict L c) /\ NoDup (map fst m).
Proof.
  intros L m.
  apply (@projected_columns_are_keys demo_helpers demo_order demo_options
           L theta09 fresh_host m
           (snd (match @inferColumnsFromDictObjects demo_helpers demo_order demo_options
                         L theta09 fresh_host with
                 | Ret r => r
                 | _ => ([], fresh_host)
                 end))).
  reflexivity.
Defined.

(* ------------------------------------------------------------------------- *)
(** ** The dictionary of [options] *)

Section OptionsFacts.
Context `{ContextOptions} `{OptionValues}.

Lemma same_key_string (a b : pystr) :
  same_key a (Py_Unicode b) = true <-> b = a.
Proof.
  cbn [same_key]. destruct (list_eq_dec Z.eq_dec b a); split; congruence.
Qed.

Lemma same_key_keys (a b : pystr) (k : PyObject) :
  same_key a k = true -> same_key b k = true -> a = b.
Proof.
  destruct k; try discriminate. intros Ha Hb.
  apply same_key_string in Ha, Hb. congruence.
Qed.

Lemma contains_get (d : list (PyObject * PyObject)) (key : pystr) :
  PyDict_Contains d key = match get_item d key with Some _ => true | None => false end.
Proof.
  unfold PyDict_Contains, get_item. cbn [PyDict_GetItemString].
  induction d as [|[k v] d IH]; [reflexivity|].
  cbn [existsb find fst]. destruct (same_key key k); [reflexivity|]. exact IH.
Qed.

Lemma get_set_same (d : list (PyObject * PyObject)) (key : pystr) (val : PyObject) :
  get_item (PyDict_SetItem d key val) key = Some val.
Proof.
  unfold get_item. cbn [PyDict_GetItemString].
  induction d as [|[k v] d IH]; cbn [PyDict_SetItem find fst].
  - replace (same_key key (Py_Unicode key)) with true
      by (symmetry; apply same_key_string; reflexivity).
    reflexivity.
  - destruct (same_key key k) eqn:E; cbn [find fst]; rewrite E; [reflexivity|].
    exact IH.
Qed.

Lemma get_set_other (d : list (PyObject * PyObject)) (key key' : pystr)
  (val : PyObject) :
  key <> key' ->
  get_item (PyDict_SetItem d key val) key' = get_item d key'.
Proof.
  intros Hne. unfold get_item. cbn [PyDict_GetItemString].
  induction d as [|[k v] d IH]; cbn [PyDict_SetItem find fst].
  - replace (same_key key' (Py_Unicode key)) with false; [reflexivity|].
    symmetry. destruct (same_key key' (Py_Unicode key)) eqn:E; [|reflexivity].
    apply same_key_string in E. congruence.
  - destruct (same_key key k) eqn:E; cbn [find fst].
    + destruct (same_key key' k) eqn:E'; [|reflexivity].
      exfalso. apply Hne. exact (same_key_keys key key' k E E').
    + destruct (same_key key' k); [reflexivity|]. exact IH.
Qed.

Lemma find_in_app {A : Type} (f : A -> bool) (l1 l2 : list A) :
  find f (l1 ++ l2) = match find f l1 with Some x => Some x | None => find f l2 end.
Proof.
  induction l1 as [|x l1 IH]; [reflexivity|].
  cbn [app find]. destruct (f x); [reflexivity | exact IH].
Qed.

Lemma get_set_items (entries : list (string * PyObject)) (k : string) :
  forall d,
    get_item (set_items entries d) (PyString_FromString k)
    = match first_under k (rev entries) with
      | Some v => Some v
      | None => get_item d (PyString_FromString k)
      end.
Proof.
  unfold set_items, first_under.
  induction entries as [|[k0 v0] entries IH]; intros d; [reflexivity|].
  cbn [fold_left fst snd rev]. rewrite IH, find_in_app.
  destruct (find _ (rev entries)) as [kv|]; [reflexivity|].
  cbn [find fst option_map snd].
  destruct (String.eqb k0 k) eqn:E.
  - apply String.eqb_eq in E. subst k0. cbn [option_map snd]. apply get_set_same.
  - cbn [option_map]. apply get_set_other. intros Heq.
    apply PyString_FromString_inj in Heq. apply String.eqb_neq in E. congruence.
Qed.

Lemma get_add_strings_from (entries : list (string * string)) (k : string) :
  forall d,
    get_item
      (fold_left
         (fun d kv =>
            let pykey := PyString_FromString (fst kv) in
            if negb (PyDict_Contains d pykey)
            then PyDict_SetItem d pykey (Py_Unicode (PyString_FromString (snd kv)))
            else d)
         entries d)
      (PyString_FromString k)
    = match get_item d (PyString_FromString k) with
      | Some v => Some v
      | None =>
          option_map (fun v => Py_Unicode (PyString_FromString v))
                     (first_under k entries)
      end.
Proof.
  unfold first_under.
  induction entries as [|[k0 v0] entries IH]; intros d.
  - cbn [fold_left find option_map].
    destruct (get_item d (PyString_FromString k)); reflexivity.
  - cbn [fold_left fst snd find]. cbv zeta. rewrite IH, contains_get.
    destruct (String.eqb k0 k) eqn:E.
    + apply String.eqb_eq in E. subst k0.
      destruct (get_item d (PyString_FromString k)) as [v|] eqn:Eg; cbn [negb].
      * rewrite Eg. reflexivity.
      * rewrite get_set_same. reflexivity.
    + assert (Hne : PyString_FromString k0 <> PyString_FromString k).
      { intros Heq. apply PyString_FromString_inj in Heq.
        apply String.eqb_neq in E. congruence. }
      destruct (get_item d (PyString_FromString k0)); cbn [negb]; [reflexivity|].
      rewrite get_set_other by exact Hne. reflexivity.
Qed.

Lemma add_strings_fixed (entries : list (string * string)) :
  forall d,
    (forall k, In k (map fst entries) ->
               PyDict_Contains d (PyString_FromString k) = true) ->
    fold_left
      (fun d kv =>
         let pykey := PyString_FromString (fst kv) in
         if negb (PyDict_Contains d pykey)
         then PyDict_SetItem d pykey (Py_Unicode (PyString_FromString (snd kv)))
         else d)
      entries d
    = d.
Proof.
  induction entries as [|[k0 v0] entries IH]; intros d Hall; [reflexivity|].
  cbn [fold_left fst snd]. cbv zeta.
  rewrite (Hall k0 (or_introl eq_refl)). cbn [negb].
  apply IH. intros k Hin. apply Hall. right. exact Hin.
Qed.

Lemma add_strings_contains (k : string) (d : list (PyObject * PyObject)) :
  In k (map fst store) ->
  PyDict_Contains (add_strings d) (PyString_FromString k) = true.
Proof.
  intros Hin. rewrite contains_get. unfold add_strings.
  rewrite get_add_strings_from.
  destruct (get_item d (PyString_FromString k)); [reflexivity|].
  unfold first_under.
  destruct (find (fun kv => String.eqb (fst kv) k) store) as [kv|] eqn:Ef;
    [reflexivity|].
  exfalso. apply in_map_iff in Hin as [[k1 v1] [Hk Hin]]. cbn in Hk. subst k1.
  apply (find_none _ _ Ef) in Hin. cbn in Hin. rewrite String.eqb_refl in Hin.
  discriminate.
Qed.

Lemma first_under_absent {V : Type} (k : string) (l : list (string * V)) :
  ~ In k (map fst l) -> first_under k l = None.
Proof.
  unfold first_under. induction l as [|[k0 v0] l IH]; intros Hk; [reflexivity|].
  cbn [find fst]. destruct (String.eqb k0 k) eqn:E.
  - apply String.eqb_eq in E. exfalso. apply Hk. left. exact E.
  - apply IH. intros Hin. apply Hk. right. exact Hin.
Qed.

Lemma first_under_rev {V : Type} (k : string) (l : list (string * V)) :
  NoDup (map fst l) -> first_under k (rev l) = first_under k l.
Proof.
  unfold first_under. induction l as [|[k0 v0] l IH]; intros Hnd; [reflexivity|].
  cbn [map fst] in Hnd. inversion Hnd as [|? ? Hk0 Hnd']; subst.
  cbn [rev find fst]. rewrite find_in_app.
  pose proof (IH Hnd') as IH'. cbn [find fst].
  destruct (String.eqb k0 k) eqn:E.
  - apply String.eqb_eq in E. subst k0.
    pose proof (first_under_absent k l Hk0) as Ha. unfold first_under in Ha.
    destruct (find (fun kv => String.eqb (fst kv) k) (rev l)) as [kv|] eqn:Er.
    + rewrite Ha in IH'. discriminate IH'.
    + reflexivity.
  - destruct (find (fun kv => String.eqb (fst kv) k) (rev l)) as [kv|]; exact IH'.
Qed.

(** X22.  The dictionary [options()] returns: under the key of one of the
    eighteen options of lines 1222-1287 it holds the value of that option as
    a [bool], [int] or [float], whatever the store holds under that key;
    under any other key it holds, as a string, the first value the store has
    under it, and nothing when the store has none.  The second loop over the
    store (lines 1329-1336) changes nothing. *)
Theorem options_dictionary (k : string) :
  PyDict_GetItemString options (PyString_FromString k)
  = match first_under k typed_options with
    | Some v => Some v
    | None =>
        option_map (fun v => Py_Unicode (PyString_FromString v)) (first_under k store)
    end /\
  options = Py_Dict (add_strings (set_items typed_options [])).
Proof.
  assert (Hsecond : add_strings (add_strings (set_items typed_options []))
                    = add_strings (set_items typed_options [])).
  { unfold add_strings at 1. apply add_strings_fixed.
    intros k0 Hin. apply add_strings_contains. exact Hin. }
  unfold options. rewrite Hsecond. split; [|reflexivity].
  fold (get_item (add_strings (set_items typed_options [])) (PyString_FromString k)).
  unfold add_strings. rewrite get_add_strings_from, get_set_items.
  assert (Hrev : first_under k (rev typed_options) = first_under k typed_options).
  { apply first_under_rev. unfold typed_options. cbn [map fst].
    repeat (constructor; [cbn [In]; intuition discriminate|]). constructor. }
  rewrite Hrev.
  destruct (first_under k typed_options); reflexivity.
Qed.

End OptionsFacts.

(* ------------------------------------------------------------------------- *)
(** ** Options updated from a JSON dictionary *)

Section UpdateOptionsFacts.
Context `{OptionStore}.

Lemma update_step_updates (co : Options) (keyval : string * string) :
  update_step co keyval =
  fold_left (fun co kv => set co (fst kv) (snd kv))
            (option_updates [keyval]) co.
Proof.
  unfold update_step, option_updates, option_key. cbn [flat_map].
  destruct (containsKey defaults (fst keyval)); [reflexivity|].
  destruct (containsKey defaults ("tuplex." ++ fst keyval)%string); reflexivity.
Qed.

Lemma option_updates_default (m : list (string * string)) :
  Forall (fun kv => containsKey defaults (fst kv) = true) (option_updates m).
Proof.
  unfold option_updates. induction m as [|[k v] m IH]; cbn [flat_map]; [constructor|].
  apply Forall_app. split; [|exact IH]. unfold option_key. cbn [fst snd].
  destruct (containsKey defaults k) eqn:E1.
  - constructor; [exact E1 | constructor].
  - destruct (containsKey defaults ("tuplex." ++ k)%string) eqn:E2.
    + constructor; [exact E2 | constructor].
    + constructor.
Qed.

(** X23.  The updated options are the given ones after a sequence of
    assignments, one for each pair of the JSON dictionary whose key, as given
    or with the prefix tuplex., is a key of the defaults, in the order of the
    map; every assigned key is a key of the defaults, and a dictionary
    with no such key leaves the options as they are. *)
Theorem update_options_sets_default_keys (co : Options) (options : string) :
  updateOptionsWithDict co options =
    fold_left (fun co kv => set co (fst kv) (snd kv))
              (option_updates (jsonToMap options)) co /\
  Forall (fun kv => containsKey defaults (fst kv) = true)
         (option_updates (jsonToMap options)) /\
  ((forall kv, In kv (jsonToMap options) ->
       containsKey defaults (fst kv) = false /\
       containsKey defaults ("tuplex." ++ fst kv)%string = false) ->
   updateOptionsWithDict co options = co).
Proof.
  unfold updateOptionsWithDict.
  assert (Hfold : forall m co0,
             fold_left update_step m co0 =
             fold_left (fun co kv => set co (fst kv) (snd kv)) (option_updates m) co0).
  { induction m as [|kv m IH]; intros co0; [reflexivity|].
    cbn [fold_left]. rewrite IH, update_step_updates.
    unfold option_updates. cbn [flat_map]. rewrite app_nil_r, fold_left_app.
    reflexivity. }
  split; [apply Hfold|]. split; [apply option_updates_default|].
  intros Hnone. rewrite Hfold.
  replace (option_updates (jsonToMap options)) with (@nil (string * string));
    [reflexivity|].
  symmetry. unfold option_updates.
  induction (jsonToMap options) as [|kv m IH]; [reflexivity|].
  cbn [flat_map]. unfold option_key at 1.
  destruct (Hnone kv (or_introl eq_refl)) as [-> ->]. cbn [app].
  apply IH. intros kv' Hin. apply Hnone. right. exact Hin.
Qed.

End UpdateOptionsFacts.

(* ------------------------------------------------------------------------- *)
(** ** Exceptions of the backend in [csv] and [text] *)

Section FileSourceFacts.
Context `{Build} `{ArgumentHelpers} `{FileSources}.

Lemma caught_cases (r : BackendCall) :
  caught r = match r with
             | Returns d => d
             | ThrowsException what => makeError what
             | ThrowsOther =>
                 makeError "unknown C++ exception occurred, please change type."
             end.
Proof. destruct r; reflexivity. Qed.

(** X24.  The two file sources let no exception of the backend through.
    With a signal pending they return the error dataset "job aborted via
    signal" before any assertion, extraction or call.  Otherwise, once their
    arguments are extracted (and, for [csv] with assertions compiled in, the
    quote character has length one and the delimiter length at most one),
    they return the dataset the backend returned, an error dataset with the
    message of the [std::exception] it threw, or an error dataset with the
    generic message for anything else thrown; [csv] gives the backend no
    header flag when the header is to be detected and no delimiter when the
    delimiter string is empty.  The only exception that leaves [text] is one
    raised by the extraction of the null values, and none leaves [csv] when
    its four extractions return. *)
Theorem file_sources_convert_exceptions (pattern : string) (cols : PyObject)
  (autodetect_header header : bool) (delimiter quotechar : string)
  (null_values type_hints : PyObject) (h : Host) :
  (fst (check_and_forward_signals h) = true ->
   text pattern null_values h
   = Ret (makeError "job aborted via signal", snd (check_and_forward_signals h)) /\
   csv pattern cols autodetect_header header delimiter quotechar null_values
       type_hints h
   = Ret (makeError "job aborted via signal", snd (check_and_forward_signals h))) /\
  (forall nulls,
      fst (check_and_forward_signals h) = false ->
      extractFromListOfStrings null_values "null_values " = Ret nulls ->
      text pattern null_values h
      = Ret (match context_text pattern nulls with
             | Returns d => d
             | ThrowsException what => makeError what
             | ThrowsOther =>
                 makeError "unknown C++ exception occurred, please change type."
             end, snd (check_and_forward_signals h))) /\
  (forall what,
      text pattern null_values h = Throw what ->
      fst (check_and_forward_signals h) = false /\
      extractFromListOfStrings null_values "null_values " = Throw what) /\
  (forall columns nulls ih ch,
      fst (check_and_forward_signals h) = false ->
      extractFromListOfStrings cols "columns " = Ret columns ->
      extractFromListOfStrings null_values "null_values " = Ret nulls ->
      extractIndexBasedTypeHints type_hints columns "type_hints " = Ret ih ->
      extractColumnBasedTypeHints type_hints columns "type_hints " = Ret ch ->
      no_throw (csv pattern cols autodetect_header header delimiter quotechar
                    null_values type_hints h) /\
      (NDEBUG = true \/
       (String.length quotechar = 1 /\ String.length delimiter <= 1)%nat ->
       csv pattern cols autodetect_header header delimiter quotechar null_values
           type_hints h
       = Ret (match context_csv pattern columns
                      (if autodetect_header then None else Some header)
                      (match delimiter with
                       | EmptyString => None
                       | String c _ => Some c
                       end)
                      (first_char quotechar) nulls ih ch with
              | Returns d => d
              | ThrowsException what => makeError what
              | ThrowsOther =>
                  makeError "unknown C++ exception occurred, please change type."
              end, snd (check_and_forward_signals h)))).
Proof.
  unfold csv, text.
  destruct (check_and_forward_signals h) as [pending h1]. cbn [fst snd].
  split; [|split; [|split]].
  - intros ->. split; reflexivity.
  - intros nulls -> ->. cbn [bind]. rewrite caught_cases. reflexivity.
  - intros what. destruct pending; [discriminate|].
    destruct (extractFromListOfStrings null_values "null_values ");
      cbn [bind]; try discriminate.
    intros E. split; [reflexivity | congruence].
  - intros columns nulls ih ch -> -> -> Ei Ec. cbn [bind]. rewrite Ei. cbn [bind].
    rewrite Ec. cbn [bind]. split.
    + repeat step_no_throw.
    + intros Hok.
      assert (Hassert : forall A c what (k : Outcome A),
                 (NDEBUG = false -> c = true) -> assert_ c what k = k).
      { intros A c what k Hc. unfold assert_. destruct NDEBUG; [reflexivity|].
        rewrite Hc by reflexivity. reflexivity. }
      rewrite !Hassert.
      * rewrite caught_cases. destruct delimiter; reflexivity.
      * intros Hn. destruct Hok as [Hr | [_ Hd]]; [congruence|].
        apply Nat.leb_le. exact Hd.
      * intros Hn. destruct Hok as [Hr | [Hq _]]; [congruence|].
        apply Nat.eqb_eq. exact Hq.
Qed.

End FileSourceFacts.

(* ------------------------------------------------------------------------- *)
(** ** A list of integers, from inference to partitions *)

Section EndToEnd.
Context `{Build} `{Driver} `{PythonHelpers} `{TypeOrder} `{Signals}
        `{ContextOptions} `{TypeHelpers}.


End EndToEnd.

